(** * Integration-flow extraction and classification: a shallow embedding

    The development follows the JavaScript sources of the repository:

    - [services/xmlExtraction/baseExtractor.js]   (module [BaseXmlExtractor])
    - [services/xmlExtraction/adapterExtractor.js] (module [AdapterExtractor])
    - [services/xmlExtraction/securityExtractor.js] (module [SecurityExtractor])
    - [services/xmlExtraction/errorHandlingExtractor.js]
      (module [ErrorHandlingExtractor])
    - [services/xmlExtraction/persistenceExtractor.js]
      (module [PersistenceExtractor])
    - [services/processing/baseProcessor.js]       (module [BaseProcessor])
    - [services/processing/securityProcessor.js]   (module [SecurityProcessor])
    - [services/processing/adapterProcessor.js]    (module [AdapterProcessor])
    - [services/processing/errorHandlingProcessor.js] and
      [services/processing/persistenceProcessor.js], the processing of an
      extracted configuration, the recommendations and the persistence
      patterns (modules [ErrorHandlingProcessor] and [PersistenceProcessor])
    - [services/dataSyncService.js], the calls for one artifact
      (module [Pipeline])
    - the older [services/dataFetchService.js]
      (module [LegacyDataFetchService])

    JavaScript values that the code inspects dynamically are kept dynamic
    ([JsVal]); the tree produced by xml2js is given the shape that the parser
    options of [parseXml] produce; exceptions are explicit ([Exc]); the
    file system of the unpacker is a state that is passed along. *)

From Stdlib Require Import String Ascii List ZArith Bool Lia.
From stdpp Require Import base tactics option list gmap strings pretty.

Local Open Scope string_scope.
Local Open Scope list_scope.

(** ** JavaScript strings

    A JavaScript string is a sequence of UTF-16 code units.  The model covers
    the code units below 256 (the Latin-1 range), one [ascii] per code unit;
    on that range [toLowerCase], [trim], [includes], [substring] and [length]
    act code unit by code unit as defined here. *)
Module JsString.

Definition code (c : ascii) : nat := nat_of_ascii c.

(** [String.prototype.toLowerCase] on one code unit: A-Z and the Latin-1
    capitals U+00C0-U+00DE (without the multiplication sign U+00D7). *)
Definition lowerUnit (c : ascii) : ascii :=
  let n := code c in
  if (((65 <=? n) && (n <=? 90)) || ((192 <=? n) && (n <=? 222) && negb (n =? 215)))%nat
  then ascii_of_nat (n + 32)
  else c.

Fixpoint toLowerCase (s : string) : string :=
  match s with
  | EmptyString => EmptyString
  | String c s' => String (lowerUnit c) (toLowerCase s')
  end.

Fixpoint startsWith (s p : string) : bool :=
  match p, s with
  | EmptyString, _ => true
  | String _ _, EmptyString => false
  | String a p', String b s' => if Ascii.eqb a b then startsWith s' p' else false
  end.

(** [s.includes(x)]: [x] occurs in [s] as a contiguous run of code units. *)
Fixpoint includes (s x : string) : bool :=
  startsWith s x ||
  match s with
  | EmptyString => false
  | String _ s' => includes s' x
  end.

(** [s.endsWith(x)] *)
Fixpoint endsWith (s x : string) : bool :=
  bool_decide (s = x) ||
  match s with
  | EmptyString => false
  | String _ s' => endsWith s' x
  end.

(** White space and line terminators removed by [trim], below 256:
    TAB, LF, VT, FF, CR, SPACE and NO-BREAK SPACE. *)
Definition isWhiteSpace (c : ascii) : bool :=
  let n := code c in
  (((9 <=? n) && (n <=? 13)) || (n =? 32) || (n =? 160))%nat.

Fixpoint trimStart (s : string) : string :=
  match s with
  | EmptyString => EmptyString
  | String c s' => if isWhiteSpace c then trimStart s' else s
  end.

Fixpoint trimEnd (s : string) : string :=
  match s with
  | EmptyString => EmptyString
  | String c s' =>
      match trimEnd s' with
      | EmptyString => if isWhiteSpace c then EmptyString else String c EmptyString
      | t => String c t
      end
  end.

Definition trim (s : string) : string := trimEnd (trimStart s).

(** [s.substring(0, n)] *)
Definition substring0 (n : nat) (s : string) : string := String.substring 0 n s.

Definition eqb (a b : string) : bool := bool_decide (a = b).

(** A string is truthy when it is not empty. *)
Definition truthy (s : string) : bool := negb (eqb s "").

(** [a || b] on strings. *)
Definition orElse (a b : string) : string := if truthy a then a else b.

End JsString.

(** ** JavaScript values

    Numbers are integers (NaN, infinities and fractions are outside the
    model); objects carry their own enumerable properties in insertion
    order (keys that look like array indices, which JavaScript enumerates
    first, stay where they were inserted); [JBuiltin] stands for what a
    property read reaches through [Object.prototype]. *)
Set Warnings "-register-all".

Inductive Builtin : Type :=
| ObjectPrototype
| BuiltinFunction (name : string).

Inductive JsVal : Type :=
| JUndefined
| JNull
| JBool (b : bool)
| JNum (n : Z)
| JStr (s : string)
| JArr (items : list JsVal)
| JObj (fields : list (string * JsVal))
| JBuiltin (f : Builtin).

Abbreviation JsObject := (list (string * JsVal)).

Module Js.

(** ToBoolean *)
Definition truthy (v : JsVal) : bool :=
  match v with
  | JUndefined | JNull => false
  | JBool b => b
  | JNum n => negb (n =? 0)%Z
  | JStr s => JsString.truthy s
  | JArr _ | JObj _ | JBuiltin _ => true
  end.

Definition isString (v : JsVal) : bool :=
  match v with JStr _ => true | _ => false end.

Definition isNullish (v : JsVal) : bool :=
  match v with JUndefined | JNull => true | _ => false end.

(** [v === 'lit'] *)
Definition strictEqStr (v : JsVal) (lit : string) : bool :=
  match v with JStr s => JsString.eqb s lit | _ => false end.

Fixpoint joinWith (sep : string) (parts : list string) : string :=
  match parts with
  | [] => ""
  | [p] => p
  | p :: rest => p +:+ sep +:+ joinWith sep rest
  end.

(** ToString, as applied by template literals and by property keys.
    It is JavaScript's result on undefined, null, booleans, strings, on
    integers below 10^21 in absolute value (from there on JavaScript prints
    an exponent, 1e+21), on arrays of such values, and on objects without a
    [toString] of their own, such as the attribute objects of the parser.
    An object with a [toString] of its own, which JavaScript calls, or
    gives up on with a TypeError when it cannot be called, is outside this
    function. *)
Fixpoint toStr (v : JsVal) : string :=
  match v with
  | JUndefined => "undefined"
  | JNull => "null"
  | JBool true => "true"
  | JBool false => "false"
  | JNum n => pretty n
  | JStr s => s
  | JArr items =>
      joinWith ","
        (map (fun x => match x with
                       | JUndefined | JNull => ""
                       | _ => toStr x
                       end) items)
  | JObj _ => "[object Object]"
  | JBuiltin ObjectPrototype => "[object Object]"
  | JBuiltin (BuiltinFunction name) => "function " +:+ name +:+ "() { [native code] }"
  end.

(** Own-property read [o[k]] on an object literal. *)
Fixpoint objGet (o : JsObject) (k : string) : JsVal :=
  match o with
  | [] => JUndefined
  | (k', v) :: o' => if JsString.eqb k' k then v else objGet o' k
  end.

Fixpoint objHas (o : JsObject) (k : string) : bool :=
  match o with
  | [] => false
  | (k', _) :: o' => JsString.eqb k' k || objHas o' k
  end.

Fixpoint objReplace (o : JsObject) (k : string) (v : JsVal) : JsObject :=
  match o with
  | [] => []
  | (k', v') :: o' =>
      if JsString.eqb k' k then (k', v) :: o' else (k', v') :: objReplace o' k v
  end.

(** [o[k] = v] for a primitive [v]: an existing key keeps its place, a new
    key goes last; assigning a primitive to [__proto__] creates nothing. *)
Definition objSet (o : JsObject) (k : string) (v : JsVal) : JsObject :=
  if JsString.eqb k "__proto__" then o
  else if objHas o k then objReplace o k v
  else o ++ [(k, v)].

(** [v?.k]: undefined on null and undefined, the own property on an object
    literal, undefined on the other values for the keys read by this code. *)
Definition optGet (v : JsVal) (k : string) : JsVal :=
  match v with
  | JObj o => objGet o k
  | _ => JUndefined
  end.

End Js.

(** ** Exceptions

    [Throw] is a JavaScript exception travelling up to the nearest [catch]. *)
Inductive Exc (A : Type) : Type :=
| Return (a : A)
| Throw (message : string).
Arguments Return {A} a.
Arguments Throw {A} message.

Definition bindExc {A B : Type} (m : Exc A) (k : A -> Exc B) : Exc B :=
  match m with
  | Return a => k a
  | Throw e => Throw e
  end.

Definition tryCatch {A : Type} (m : Exc A) (handler : string -> A) : A :=
  match m with
  | Return a => a
  | Throw e => handler e
  end.

#[global] Instance Exc_ret : MRet Exc := fun A a => Return a.
#[global] Instance Exc_bind : MBind Exc := fun A B k m => bindExc m k.

(** A [forEach] that pushes onto an array inside [try { ... } catch]: when
    the body throws, the loop ends and the array keeps what it has.  The
    boolean tells whether the loop ran to its end. *)
Fixpoint pushEachUntil {A B : Type} (body : A -> Exc (list B)) (l : list A) : list B * bool :=
  match l with
  | [] => ([], true)
  | a :: rest =>
      match body a with
      | Return pushed =>
          let '(more, completed) := pushEachUntil body rest in (pushed ++ more, completed)
      | Throw _ => ([], false)
      end
  end.

Definition pushEach {A B : Type} (body : A -> Exc (list B)) (l : list A) : list B :=
  (pushEachUntil body l).1.

(** [array.forEach] with a body that may throw. *)
Fixpoint forEachExc {S A : Type} (body : S -> A -> Exc S) (l : list A) (s : S) : Exc S :=
  match l with
  | [] => Return s
  | a :: rest => s' ← body s a; forEachExc body rest s'
  end.

(** [array.some(pred)] with a predicate that may throw. *)
Fixpoint someExc {A : Type} (pred : A -> Exc bool) (l : list A) : Exc bool :=
  match l with
  | [] => Return false
  | a :: rest => b ← pred a; if b : bool then Return true else someExc pred rest
  end.

(** [array.filter(pred)] with a predicate that may throw. *)
Fixpoint filterExc {A : Type} (pred : A -> Exc bool) (l : list A) : Exc (list A) :=
  match l with
  | [] => Return []
  | a :: rest =>
      b ← pred a;
      kept ← filterExc pred rest;
      Return (if b : bool then a :: kept else kept)
  end.

(** [array.find(pred)] with a predicate that may throw. *)
Fixpoint findExc {A : Type} (pred : A -> Exc bool) (l : list A) : Exc (option A) :=
  match l with
  | [] => Return None
  | a :: rest => b ← pred a; if b : bool then Return (Some a) else findExc pred rest
  end.

(** [list && list.length > 0] for a property that may be absent. *)
Definition nonEmptyList {A : Type} (o : option (list A)) : bool :=
  match o with
  | Some l => (0 <? length l)%nat
  | None => false
  end.

(** ** The parsed document

    [parseXml] runs xml2js with [explicitArray: false], [mergeAttrs: true]
    and [xmlns: true].  Under these options every element is an object,
    its character data sits in [_] (absent when empty or white space), a
    child that occurs once is that child and a child that occurs several
    times is an array, and an attribute is the object sax builds for it in
    namespace mode.  The records below give the elements that the
    extractors read, each with the children and attributes that are read;
    an [ifl:property] has at most one [key] and one [value]. *)
Inductive Child (A : Type) : Type :=
| Absent
| Single (a : A)
| Several (l : list A).
Arguments Absent {A}.
Arguments Single {A} a.
Arguments Several {A} l.

Record Attr : Type := mkAttr {
  attr_name : string;
  attr_value : string;
  attr_prefix : string;
  attr_local : string;
  attr_uri : string
}.

Record TextElement : Type := mkText { charData : option string }.

Record IflProperty : Type := mkProperty {
  prop_key : option TextElement;
  prop_value : option TextElement
}.

Record ExtensionElements : Type := mkExtension {
  ifl_property : Child IflProperty
}.

Record MessageFlow : Type := mkMessageFlow {
  flow_id : option Attr;
  flow_name : option Attr;
  flow_extensionElements : option ExtensionElements
}.

Record Collaboration : Type := mkCollaboration {
  collaboration_extensionElements : option ExtensionElements;
  collaboration_messageFlow : Child MessageFlow
}.

Record ErrorEventDefinition : Type := mkErrorEventDefinition {
  errorRef : option Attr
}.

Record StartEvent : Type := mkStartEvent {
  startEvent_id : option Attr;
  startEvent_name : option Attr;
  startEvent_errorEventDefinition : option ErrorEventDefinition
}.

Record EndEvent : Type := mkEndEvent {
  endEvent_messageEventDefinition : bool;
  endEvent_escalationEventDefinition : bool
}.

Record SubProcess : Type := mkSubProcess {
  subProcess_id : option Attr;
  subProcess_name : option Attr;
  subProcess_extensionElements : option ExtensionElements;
  subProcess_startEvent : Child StartEvent;
  subProcess_endEvent : Child EndEvent
}.

(** [task['bpmn2:script']]: the code asks for [typeof script === 'string'];
    the parser delivers an element. *)
Inductive ScriptChild : Type :=
| ScriptString (s : string)
| ScriptElement (e : TextElement).

Record Task : Type := mkTask {
  task_id : option Attr;
  task_name : option Attr;
  task_extensionElements : option ExtensionElements;
  task_script : option ScriptChild
}.

Record CallActivity : Type := mkCallActivity {
  callActivity_id : option Attr;
  callActivity_name : option Attr;
  callActivity_calledElement : option Attr
}.

Record Process : Type := mkProcess {
  process_id : option Attr;
  process_name : option Attr;
  process_extensionElements : option ExtensionElements;
  process_subProcess : Child SubProcess;
  process_scriptTask : Child Task;
  process_serviceTask : Child Task;
  process_callActivity : Child CallActivity
}.

Record Definitions : Type := mkDefinitions {
  definitions_collaboration : option Collaboration;
  definitions_process : Child Process
}.

Record ParsedXml : Type := mkParsedXml {
  bpmn2_definitions : option Definitions
}.

Module Xml.

(** The normalisation idiom of the extractors,
    [x = c[k] || []; if (!Array.isArray(x)) x = x ? [x] : []] and its
    variants [Array.isArray(x) ? x : [x].filter(Boolean)] and
    [Array.isArray(x) ? x : [x]] after a test that [x] is there. *)
Definition toArray {A : Type} (c : Child A) : list A :=
  match c with
  | Absent => []
  | Single a => [a]
  | Several l => l
  end.

Definition attrObject (a : Attr) : JsVal :=
  JObj [("name", JStr (attr_name a));
        ("value", JStr (attr_value a));
        ("prefix", JStr (attr_prefix a));
        ("local", JStr (attr_local a));
        ("uri", JStr (attr_uri a))].

(** [node.attr || fallback] *)
Definition attrOr (a : option Attr) (fallback : JsVal) : JsVal :=
  match a with
  | Some x => attrObject x
  | None => fallback
  end.

(** [prop.key._] when [prop.key] is there. *)
Definition keyText (p : IflProperty) : option string :=
  match prop_key p with
  | Some t => charData t
  | None => None
  end.

(** [prop.key && prop.key._] as a condition. *)
Definition hasKey (p : IflProperty) : bool :=
  match keyText p with
  | Some k => JsString.truthy k
  | None => false
  end.

(** [prop.key._] once [hasKey] holds. *)
Definition keyOf (p : IflProperty) : string :=
  match keyText p with
  | Some k => k
  | None => ""
  end.

(** [prop.value ? prop.value._ : ''] *)
Definition valueOf (p : IflProperty) : JsVal :=
  match prop_value p with
  | Some t => match charData t with Some s => JStr s | None => JUndefined end
  | None => JStr ""
  end.

(** [prop.value?._ || ''] *)
Definition valueOrEmpty (p : IflProperty) : string :=
  match prop_value p with
  | Some t => match charData t with Some s => s | None => "" end
  | None => ""
  end.

(** [propsArray.find(prop => prop.key?._ === name)?.value?._] *)
Definition findText (propsArray : list IflProperty) (name : string) : option string :=
  match List.find (fun prop =>
                     match keyText prop with
                     | Some k => JsString.eqb k name
                     | None => false
                     end) propsArray with
  | Some prop => prop_value prop ≫= charData
  | None => None
  end.

(** [node['bpmn2:extensionElements']?.['ifl:property'] || []] made an array. *)
Definition propsArrayOf (ext : option ExtensionElements) : list IflProperty :=
  match ext with
  | Some e => toArray (ifl_property e)
  | None => []
  end.

(** [prop.key?._.toLowerCase().includes(n1) || ... ]: undefined without a
    key, a TypeError on a key without character data. *)
Definition keyMentions (needles : list string) (prop : IflProperty) : Exc bool :=
  match prop_key prop with
  | None => Return false
  | Some t =>
      match charData t with
      | None => Throw "TypeError: Cannot read properties of undefined (reading 'toLowerCase')"
      | Some k => Return (existsb (JsString.includes (JsString.toLowerCase k)) needles)
      end
  end.

End Xml.

(** ** services/xmlExtraction/baseExtractor.js *)
Module BaseXmlExtractor.

(** [getPropertyValue(propertyArray, targetKey)] *)
Definition getPropertyValue (propertyArray : list IflProperty) (targetKey : string) : string :=
  match List.find (fun prop =>
                     match Xml.keyText prop with
                     | Some k => JsString.eqb k targetKey
                     | None => false
                     end) propertyArray with
  | Some property =>
      match prop_value property with
      | Some v => match charData v with Some s => s | None => "" end
      | None => ""
      end
  | None => ""
  end.

(** [getMessageFlows(parsedXml)] *)
Definition getMessageFlows (parsedXml : option ParsedXml) : list MessageFlow :=
  match parsedXml with
  | None => []
  | Some root =>
      match bpmn2_definitions root with
      | None => []
      | Some definitions =>
          match definitions_collaboration definitions with
          | None => []
          | Some collaboration => Xml.toArray (collaboration_messageFlow collaboration)
          end
      end
  end.

(** [getCollaborationProperties(parsedXml)] *)
Definition getCollaborationProperties (parsedXml : option ParsedXml) : list IflProperty :=
  match parsedXml with
  | None => []
  | Some root =>
      match bpmn2_definitions root with
      | None => []
      | Some definitions =>
          match definitions_collaboration definitions with
          | None => []
          | Some collaboration =>
              match collaboration_extensionElements collaboration with
              | None => []
              | Some ext => Xml.toArray (ifl_property ext)
              end
          end
      end
  end.

(** [getPropertyValue(properties, 'Name') || flow.id || `Adapter_${index}`] *)
Definition adapterNameOf (properties : list IflProperty) (flow : MessageFlow) (index : nat) : JsVal :=
  let name := getPropertyValue properties "Name" in
  if JsString.truthy name then JStr name
  else Xml.attrOr (flow_id flow) (JStr ("Adapter_" +:+ pretty index)).

(** The properties of a node that has extension elements. *)
Definition propertiesOf (ext : ExtensionElements) : list IflProperty :=
  Xml.toArray (ifl_property ext).

End BaseXmlExtractor.

(** ** The logger

    A call [logger.level(message, payload)] is recorded with its level, its
    message and, of the payload, the list of property keys that the adapter
    extractor attaches for diagnosis ([availableKeys],
    [availableProperties]); identifiers and names in the payload are left
    out. *)
Inductive LogLevel : Type := LogDebug | LogInfo | LogWarn | LogError.

Record LogEntry : Type := mkLog {
  log_level : LogLevel;
  log_message : string;
  log_keys : list string
}.

(** ** services/xmlExtraction/adapterExtractor.js *)
Record ResourceMetadata : Type := mkResourceMetadata {
  metadata_name : JsVal;
  metadata_cmdVariantUri : string;
  metadata_componentType : string
}.

Record AdapterConfiguration : Type := mkAdapterConfiguration {
  configuration_content : string;
  configuration_resourceMetadata : ResourceMetadata
}.

Record Adapter : Type := mkAdapter {
  adapter_name : JsVal;
  adapter_type : string;
  adapter_category : string;
  adapter_direction : string;
  adapter_configuration : AdapterConfiguration
}.

Module AdapterExtractor.
Import BaseXmlExtractor.

Section WithBuiltins.

(** [JSON.stringify], a built-in of the runtime. *)
Variable JSON_stringify : JsVal -> string.

(** [properties.map(p => p.key ? p.key._ : 'Unknown').filter(k => k)] *)
Definition availableKeys (properties : list IflProperty) : list string :=
  List.filter JsString.truthy
    (omap (fun p => match prop_key p with
                    | Some t => charData t
                    | None => Some "Unknown"
                    end) properties).

(** The [forEach] that fills [contentProps]. *)
Definition collectContent (properties : list IflProperty) : JsObject :=
  fold_left
    (fun contentProps prop =>
       if Xml.hasKey prop && bool_decide (is_Some (prop_value prop))
       then Js.objSet contentProps (Xml.keyOf prop) (JStr (Xml.valueOrEmpty prop))
       else contentProps)
    properties [].

(** [processMessageFlow(flow, index, flowId)]: the adapter, or [None] for
    [null], together with the log lines written on the way. *)
Definition processMessageFlow (flow : MessageFlow) (index : nat) (flowId : string)
  : list LogEntry * option Adapter :=
  let log0 := [mkLog LogDebug "Processing message flow" []] in
  match flow_extensionElements flow with
  | None =>
      (log0 ++ [mkLog LogDebug "No extensionElements found in message flow" []], None)
  | Some extensionElements =>
      let properties := propertiesOf extensionElements in
      let adapterName := adapterNameOf properties flow index in
      let adapterType := JsString.orElse (getPropertyValue properties "ComponentType") "Unknown" in
      let adapterCategory := JsString.orElse (getPropertyValue properties "direction") "Unknown" in
      let log1 := log0 ++ [mkLog LogDebug "Extracted properties" (availableKeys properties)] in
      if JsString.eqb adapterType "Unknown" && JsString.eqb adapterCategory "Unknown"
      then
        (log1 ++ [mkLog LogWarn "Skipping adapter due to missing ComponentType and direction"
                    (availableKeys properties)],
         None)
      else
        let cmdVariantUri := JsString.orElse (getPropertyValue properties "cmdVariantUri") "N/A" in
        let contentProps0 := collectContent properties in
        let contentProps1 :=
          match flow_id flow with
          | Some id => Js.objSet contentProps0 "id" (Xml.attrObject id)
          | None => contentProps0
          end in
        let contentProps :=
          if Js.truthy adapterName then Js.objSet contentProps1 "name" adapterName
          else contentProps1 in
        let content := JSON_stringify (JObj contentProps) in
        (log1 ++ [mkLog LogDebug "Processed adapter resource" []],
         Some {| adapter_name := adapterName;
                 adapter_type := adapterType;
                 adapter_category := adapterCategory;
                 adapter_direction := adapterCategory;
                 adapter_configuration :=
                   {| configuration_content := content;
                      configuration_resourceMetadata :=
                        {| metadata_name := adapterName;
                           metadata_cmdVariantUri := cmdVariantUri;
                           metadata_componentType := adapterType |} |} |})
  end.

(** [messageFlows.map((flow, index) => ...)], left to right. *)
Fixpoint mapFlows (flows : list MessageFlow) (index : nat) (flowId : string)
  : list LogEntry * list (option Adapter) :=
  match flows with
  | [] => ([], [])
  | flow :: rest =>
      let '(logs, r) := processMessageFlow flow index flowId in
      let '(logs', rs) := mapFlows rest (S index) flowId in
      (logs ++ logs', r :: rs)
  end.

(** [extractAdapters(parsedXml, flowId)].  No step of the body throws on a
    parsed document, so the [catch] branch is not reached. *)
Definition extractAdapters (parsedXml : option ParsedXml) (flowId : string)
  : list LogEntry * list Adapter :=
  match parsedXml ≫= bpmn2_definitions with
  | None => ([mkLog LogWarn "Invalid or missing parsed XML" []], [])
  | Some _ =>
      let messageFlows := getMessageFlows parsedXml in
      let log0 := [mkLog LogDebug "Extracted message flows" []] in
      if (length messageFlows =? 0)%nat
      then (log0 ++ [mkLog LogWarn "No message flows found in XML" []], [])
      else
        let '(logs, results) := mapFlows messageFlows 0 flowId in
        (log0 ++ logs, omap id results)
  end.

End WithBuiltins.
End AdapterExtractor.

(** ** services/xmlExtraction/securityExtractor.js *)
Record SecurityMechanism : Type := mkMechanism {
  mechanism_name : JsVal;
  mechanism_type : JsVal;
  direction : JsVal;
  configuration : JsVal
}.

Module SecurityExtractor.
Import BaseXmlExtractor.

(** The key test of [collectSecurityConfiguration].  The needles are the
    literals of the source, upper-case letters included. *)
Definition isSecurityKey (key : string) : bool :=
  let k := JsString.toLowerCase key in
  JsString.includes k "auth" ||
  JsString.includes k "certificate" ||
  JsString.includes k "credential" ||
  JsString.includes k "security" ||
  JsString.includes k "ssl" ||
  JsString.includes k "tls" ||
  JsString.includes k "userRole" ||
  JsString.includes k "clientCertificates" ||
  JsString.includes k "xsrf" ||
  JsString.includes k "maximumBodySize".

(** [collectSecurityConfiguration(properties)] *)
Definition collectSecurityConfiguration (properties : list IflProperty) : JsObject :=
  fold_left
    (fun securityConfig prop =>
       if Xml.hasKey prop
       then
         let key := Xml.keyOf prop in
         let value := Xml.valueOf prop in
         if isSecurityKey key then Js.objSet securityConfig key value else securityConfig
       else securityConfig)
    properties [].

(** The normalisation cascade on [authMethod]. *)
Definition authMechanismType (authMethod : string) : string :=
  if JsString.includes authMethod "ClientCertificate" || JsString.includes authMethod "Client Certificate"
  then "Client Certificate"
  else if JsString.includes authMethod "Basic" then "Basic Authentication"
  else if JsString.includes authMethod "OAuth" then "OAuth"
  else if JsString.includes authMethod "SAML" then "SAML"
  else if JsString.includes authMethod "JWT" then "JWT"
  else authMethod.

(** [processAuthenticationMechanism(authMethod, adapterName, direction,
    componentType, properties, flowId)] *)
Definition processAuthenticationMechanism (authMethod : string) (adapterName : JsVal)
    (direction componentType : string) (properties : list IflProperty) (flowId : string)
  : list SecurityMechanism :=
  if JsString.truthy authMethod && negb (JsString.eqb authMethod "None")
  then
    let mechanismType := authMechanismType authMethod in
    let mechanismName := Js.toStr adapterName +:+ "_" +:+ authMethod in
    let securityConfig :=
      Js.objSet (collectSecurityConfiguration properties) "componentType" (JStr componentType) in
    let securityDirection := if JsString.eqb direction "Sender" then "Inbound" else "Outbound" in
    [ {| mechanism_name := JStr mechanismName;
         mechanism_type := JStr mechanismType;
         direction := JStr securityDirection;
         configuration := JObj securityConfig |} ]
  else [].

(** [processAdditionalSecurity(properties, adapterName, direction,
    componentType, flowId)] *)
Definition processAdditionalSecurity (properties : list IflProperty) (adapterName : JsVal)
    (direction componentType flowId : string) : list SecurityMechanism :=
  let isCSRFEnabled := getPropertyValue properties "isCSRFEnabled" in
  let csrf :=
    if JsString.eqb isCSRFEnabled "true"
    then [ {| mechanism_name := JStr (Js.toStr adapterName +:+ "_CSRF");
              mechanism_type := JStr "CSRF Protection";
              direction := JStr "Outbound";
              configuration := JObj [("csrfEnabled", JBool true);
                                     ("componentType", JStr componentType)] |} ]
    else [] in
  let privateKeyAlias :=
    JsString.orElse (getPropertyValue properties "privateKeyAlias")
                    (getPropertyValue properties "odataCertAuthPrivateKeyAlias") in
  let clientCert :=
    if JsString.truthy privateKeyAlias && JsString.eqb direction "Receiver"
    then [ {| mechanism_name := JStr (Js.toStr adapterName +:+ "_ClientCert");
              mechanism_type := JStr "Client Certificate";
              direction := JStr "Outbound";
              configuration := JObj [("privateKeyAlias", JStr privateKeyAlias);
                                     ("certificateAuthentication", JBool true);
                                     ("componentType", JStr componentType)] |} ]
    else [] in
  let xsrfProtection := getPropertyValue properties "xsrfProtection" in
  let xsrf :=
    if JsString.eqb xsrfProtection "0" && JsString.eqb direction "Sender"
    then [ {| mechanism_name := JStr (Js.toStr adapterName +:+ "_XSRF_Disabled");
              mechanism_type := JStr "XSRF Protection";
              direction := JStr "Inbound";
              configuration := JObj [("xsrfProtection", JBool false);
                                     ("componentType", JStr componentType)] |} ]
    else [] in
  let userRole := getPropertyValue properties "userRole" in
  let authorization :=
    if JsString.truthy userRole && JsString.eqb direction "Sender"
    then [ {| mechanism_name := JStr (Js.toStr adapterName +:+ "_Authorization");
              mechanism_type := JStr "Role-Based Authorization";
              direction := JStr "Inbound";
              configuration := JObj [("userRole", JStr userRole);
                                     ("componentType", JStr componentType)] |} ]
    else [] in
  csrf ++ clientCert ++ xsrf ++ authorization.

(** The body of the [forEach] of [extractMessageFlowSecurity]: what one
    message flow pushes onto [securityMechanisms]. *)
Definition messageFlowSecurity (flow : MessageFlow) (index : nat) (flowId : string)
  : list SecurityMechanism :=
  match flow_extensionElements flow with
  | None => []
  | Some extensionElements =>
      let properties := propertiesOf extensionElements in
      let direction := JsString.orElse (getPropertyValue properties "direction") "Unknown" in
      let adapterName := BaseXmlExtractor.adapterNameOf properties flow index in
      let componentType := JsString.orElse (getPropertyValue properties "ComponentType") "Unknown" in
      let authMethod :=
        if JsString.eqb direction "Sender" then getPropertyValue properties "senderAuthType"
        else if JsString.eqb direction "Receiver" then getPropertyValue properties "authenticationMethod"
        else "" in
      processAuthenticationMechanism authMethod adapterName direction componentType properties flowId
      ++ processAdditionalSecurity properties adapterName direction componentType flowId
  end.

Fixpoint forEachFlow (flows : list MessageFlow) (index : nat) (flowId : string)
  : list SecurityMechanism :=
  match flows with
  | [] => []
  | flow :: rest => messageFlowSecurity flow index flowId ++ forEachFlow rest (S index) flowId
  end.

(** [extractMessageFlowSecurity(parsedXml, flowId)] *)
Definition extractMessageFlowSecurity (parsedXml : option ParsedXml) (flowId : string)
  : list SecurityMechanism :=
  forEachFlow (getMessageFlows parsedXml) 0 flowId.

(** What one collaboration property pushes in [extractCollaborationSecurity]. *)
Definition collaborationPropertySecurity (prop : IflProperty) (flowId : string)
  : list SecurityMechanism :=
  if Xml.hasKey prop
  then
    let key := Xml.keyOf prop in
    let value := Xml.valueOf prop in
    (if JsString.eqb key "corsEnabled" && Js.strictEqStr value "true"
     then [ {| mechanism_name := JStr (flowId +:+ "_CORS");
               mechanism_type := JStr "CORS";
               direction := JStr "Inbound";
               configuration := JObj [("corsEnabled", JBool true)] |} ]
     else [])
    ++
    (if JsString.eqb key "returnExceptionToSender"
     then [ {| mechanism_name := JStr (flowId +:+ "_ExceptionHandling");
               mechanism_type := JStr "Exception Handling";
               direction := JStr "Inbound";
               configuration :=
                 JObj [("returnExceptionToSender", JBool (Js.strictEqStr value "true"));
                       ("securityImplication",
                        JStr (if Js.strictEqStr value "false"
                              then "Prevents information disclosure"
                              else "May expose internal errors"))] |} ]
     else [])
    ++
    (if JsString.eqb key "log"
     then [ {| mechanism_name := JStr (flowId +:+ "_SecurityLogging");
               mechanism_type := JStr "Security Logging";
               direction := JStr "Inbound";
               configuration := JObj [("logLevel", value); ("auditTrail", JBool true)] |} ]
     else [])
    ++
    (if JsString.eqb key "ServerTrace"
     then [ {| mechanism_name := JStr (flowId +:+ "_ServerTrace");
               mechanism_type := JStr "Debug Security";
               direction := JStr "Inbound";
               configuration :=
                 JObj [("serverTrace", JBool (Js.strictEqStr value "true"));
                       ("securityRisk",
                        JStr (if Js.strictEqStr value "true"
                              then "May expose sensitive data in traces"
                              else "Safe for production"))] |} ]
     else [])
  else [].

(** [extractCollaborationSecurity(parsedXml, flowId)] *)
Definition extractCollaborationSecurity (parsedXml : option ParsedXml) (flowId : string)
  : list SecurityMechanism :=
  flat_map (fun prop => collaborationPropertySecurity prop flowId)
           (getCollaborationProperties parsedXml).

(** [extractSecurity(parsedXml, flowId)].  No step of the body throws on a
    parsed document, so the [catch] branch is not reached. *)
Definition extractSecurity (parsedXml : option ParsedXml) (flowId : string)
  : list SecurityMechanism :=
  match parsedXml ≫= bpmn2_definitions with
  | None => []
  | Some _ =>
      extractMessageFlowSecurity parsedXml flowId
      ++ extractCollaborationSecurity parsedXml flowId
  end.

End SecurityExtractor.

(** ** services/xmlExtraction/errorHandlingExtractor.js *)
Record ErrorStartEvent : Type := mkErrorStartEvent {
  errorStartEvent_id : JsVal;
  errorStartEvent_name : JsVal;
  errorStartEvent_errorRef : JsVal
}.

Record ErrorSubprocess : Type := mkErrorSubprocess {
  errorSubprocess_id : JsVal;
  errorSubprocess_name : JsVal;
  errorSubprocess_type : string;
  errorSubprocess_errorStartEvents : list ErrorStartEvent;
  errorSubprocess_classification : string
}.

Record TryCatchPattern : Type := mkTryCatchPattern {
  tryCatch_id : JsVal;
  tryCatch_name : JsVal;
  tryCatch_type : string;
  tryCatch_errorHandlingProps : list (string * string)
}.

Record TransactionInfo : Type := mkTransactionInfo {
  transactionTimeout : string;
  transactionalHandling : string;
  supportsRollback : bool
}.

(** One entry of [processDetails]; an absent property is [None]. *)
Record ProcessErrorDetail : Type := mkProcessErrorDetail {
  detail_processName : JsVal;
  detail_errorSubprocesses : option (list ErrorSubprocess);
  detail_hasErrorHandling : bool;
  detail_tryCatchPatterns : option (list TryCatchPattern);
  detail_transactionHandling : option TransactionInfo
}.

(** [error_handling_details]; an absent property is [None]. *)
Record ErrorHandlingDetails : Type := mkErrorHandlingDetails {
  details_returnExceptionToSender : option bool;
  details_logLevel : option JsVal;
  details_serverTrace : option bool;
  details_processDetails : option (gmap string ProcessErrorDetail)
}.

Record ErrorHandling : Type := mkErrorHandling {
  detection_enabled : bool;
  logging_enabled : bool;
  classification_enabled : bool;
  reporting_enabled : bool;
  error_handling_details : ErrorHandlingDetails
}.

(** The object that [extractCollaborationErrorHandling] starts as [{}] and
    fills; an absent property is [None]. *)
Record CollaborationErrorHandling : Type := mkCollaborationErrorHandling {
  collab_detection_enabled : option bool;
  collab_logging_enabled : option bool;
  collab_reporting_enabled : option bool;
  collab_error_handling_details : option ErrorHandlingDetails
}.

Module ErrorHandlingExtractor.
Import BaseXmlExtractor.

Definition emptyDetails : ErrorHandlingDetails :=
  {| details_returnExceptionToSender := None;
     details_logLevel := None;
     details_serverTrace := None;
     details_processDetails := None |}.

(** [getDefaultErrorHandling()] *)
Definition getDefaultErrorHandling : ErrorHandling :=
  {| detection_enabled := false;
     logging_enabled := false;
     classification_enabled := false;
     reporting_enabled := false;
     error_handling_details := emptyDetails |}.

(** The collaboration keys that [extractCollaborationErrorHandling] reads. *)
Definition errorHandlingKeys : list string := ["returnExceptionToSender"; "log"; "ServerTrace"].

Definition cannotSet (property : string) : string :=
  "TypeError: Cannot set properties of undefined (setting '" +:+ property +:+ "')".

(** [errorHandling.error_handling_details.name = ...]: the write needs the
    object [errorHandling.error_handling_details] to be there. *)
Definition setDetail (errorHandling : CollaborationErrorHandling) (name : string)
    (update : ErrorHandlingDetails -> ErrorHandlingDetails) : Exc CollaborationErrorHandling :=
  match collab_error_handling_details errorHandling with
  | None => Throw (cannotSet name)
  | Some details =>
      Return {| collab_detection_enabled := collab_detection_enabled errorHandling;
                collab_logging_enabled := collab_logging_enabled errorHandling;
                collab_reporting_enabled := collab_reporting_enabled errorHandling;
                collab_error_handling_details := Some (update details) |}
  end.

(** The body of the [forEach] of [extractCollaborationErrorHandling]. *)
Definition collaborationProperty (errorHandling : CollaborationErrorHandling) (prop : IflProperty)
  : Exc CollaborationErrorHandling :=
  if Xml.hasKey prop
  then
    let key := Xml.keyOf prop in
    let value := Xml.valueOf prop in
    e1 ← (if JsString.eqb key "returnExceptionToSender"
          then
            let e := {| collab_detection_enabled := collab_detection_enabled errorHandling;
                        collab_logging_enabled := collab_logging_enabled errorHandling;
                        collab_reporting_enabled := Some (Js.strictEqStr value "true");
                        collab_error_handling_details := collab_error_handling_details errorHandling |} in
            setDetail e "returnExceptionToSender"
              (fun d => {| details_returnExceptionToSender := Some (Js.strictEqStr value "true");
                           details_logLevel := details_logLevel d;
                           details_serverTrace := details_serverTrace d;
                           details_processDetails := details_processDetails d |})
          else Return errorHandling);
    e2 ← (if JsString.eqb key "log"
          then
            let e := {| collab_detection_enabled := collab_detection_enabled e1;
                        collab_logging_enabled :=
                          Some (negb (Js.strictEqStr value "None") && negb (Js.strictEqStr value ""));
                        collab_reporting_enabled := collab_reporting_enabled e1;
                        collab_error_handling_details := collab_error_handling_details e1 |} in
            setDetail e "logLevel"
              (fun d => {| details_returnExceptionToSender := details_returnExceptionToSender d;
                           details_logLevel := Some value;
                           details_serverTrace := details_serverTrace d;
                           details_processDetails := details_processDetails d |})
          else Return e1);
    (if JsString.eqb key "ServerTrace"
     then
       let e := {| collab_detection_enabled := Some (Js.strictEqStr value "true");
                   collab_logging_enabled := collab_logging_enabled e2;
                   collab_reporting_enabled := collab_reporting_enabled e2;
                   collab_error_handling_details := collab_error_handling_details e2 |} in
       setDetail e "serverTrace"
         (fun d => {| details_returnExceptionToSender := details_returnExceptionToSender d;
                      details_logLevel := details_logLevel d;
                      details_serverTrace := Some (Js.strictEqStr value "true");
                      details_processDetails := details_processDetails d |})
     else Return e2)
  else Return errorHandling.

(** [extractCollaborationErrorHandling(parsedXml, flowId)] *)
Definition extractCollaborationErrorHandling (parsedXml : option ParsedXml) (flowId : string)
  : Exc CollaborationErrorHandling :=
  let errorHandling :=
    {| collab_detection_enabled := None;
       collab_logging_enabled := None;
       collab_reporting_enabled := None;
       collab_error_handling_details := None |} in
  forEachExc collaborationProperty (getCollaborationProperties parsedXml) errorHandling.

(** [Object.assign(errorHandling, collaborationErrorHandling)] *)
Definition assignCollaboration (errorHandling : ErrorHandling) (c : CollaborationErrorHandling)
  : ErrorHandling :=
  {| detection_enabled := default (detection_enabled errorHandling) (collab_detection_enabled c);
     logging_enabled := default (logging_enabled errorHandling) (collab_logging_enabled c);
     classification_enabled := classification_enabled errorHandling;
     reporting_enabled := default (reporting_enabled errorHandling) (collab_reporting_enabled c);
     error_handling_details :=
       default (error_handling_details errorHandling) (collab_error_handling_details c) |}.

(** [findErrorStartEvents(subProcess)] *)
Definition findErrorStartEvents (subProcess : SubProcess) : list ErrorStartEvent :=
  flat_map
    (fun startEvent =>
       match startEvent_errorEventDefinition startEvent with
       | Some errorEventDef =>
           [ {| errorStartEvent_id := Xml.attrOr (startEvent_id startEvent) (JStr "UnknownErrorEvent");
                errorStartEvent_name := Xml.attrOr (startEvent_name startEvent) (JStr "Error Start Event");
                errorStartEvent_errorRef := Xml.attrOr (errorRef errorEventDef) (JStr "UnknownError") |} ]
       | None => []
       end)
    (Xml.toArray (subProcess_startEvent subProcess)).

(** [classifyErrorHandling(subProcess)] *)
Definition classifyErrorHandling (subProcess : SubProcess) : string :=
  match subProcess_endEvent subProcess with
  | Absent => "Basic"
  | endEvents =>
      let endEventArray := Xml.toArray endEvents in
      if existsb endEvent_messageEventDefinition endEventArray then "Response-based"
      else if existsb endEvent_escalationEventDefinition endEventArray then "Escalation-based"
      else "Standard"
  end.

(** [subProcess['bpmn2:extensionElements']?.['ifl:property']?.find(...)
    ?.value?._]: the property list is used as it comes, so a single
    property, which is not an array, has no [find]. *)
Definition subProcessActivityType (subProcess : SubProcess) : Exc (option string) :=
  match subProcess_extensionElements subProcess with
  | None => Return None
  | Some ext =>
      match ifl_property ext with
      | Absent => Return None
      | Single _ => Throw "TypeError: find is not a function"
      | Several l => Return (Xml.findText l "activityType")
      end
  end.

(** [findErrorSubprocesses(process, flowId)] *)
Definition findErrorSubprocesses (process : Process) (flowId : string) : list ErrorSubprocess :=
  pushEach
    (fun subProcess =>
       activityType ← subProcessActivityType subProcess;
       match activityType with
       | Some t =>
           if JsString.truthy t && JsString.includes t "Error"
           then
             let subProcessId := Xml.attrOr (subProcess_id subProcess) (JStr "UnknownSubProcess") in
             let subProcessName := Xml.attrOr (subProcess_name subProcess) subProcessId in
             Return [ {| errorSubprocess_id := subProcessId;
                         errorSubprocess_name := subProcessName;
                         errorSubprocess_type := t;
                         errorSubprocess_errorStartEvents := findErrorStartEvents subProcess;
                         errorSubprocess_classification := classifyErrorHandling subProcess |} ]
           else Return []
       | None => Return []
       end)
    (Xml.toArray (process_subProcess process)).

Definition errorNeedles : list string := ["error"; "exception"; "retry"].

(** [findTryCatchPatterns(process, flowId)] *)
Definition findTryCatchPatterns (process : Process) (flowId : string) : list TryCatchPattern :=
  pushEach
    (fun task =>
       let propsArray := Xml.propsArrayOf (task_extensionElements task) in
       hasErrorHandling ← someExc (Xml.keyMentions errorNeedles) propsArray;
       if hasErrorHandling : bool
       then
         kept ← filterExc (Xml.keyMentions errorNeedles) propsArray;
         Return [ {| tryCatch_id := Xml.attrOr (task_id task) (JStr "UnknownTask");
                     tryCatch_name := Xml.attrOr (task_name task) (JStr "Service Task");
                     tryCatch_type := "ServiceTask";
                     tryCatch_errorHandlingProps :=
                       map (fun prop => (Xml.keyOf prop, Xml.valueOrEmpty prop)) kept |} ]
       else Return [])
    (Xml.toArray (process_serviceTask process)).

(** [extractTransactionInfo(process, flowId)] *)
Definition extractTransactionInfo (process : Process) (flowId : string) : option TransactionInfo :=
  let propsArray := Xml.propsArrayOf (process_extensionElements process) in
  let timeout := Xml.findText propsArray "transactionTimeout" in
  let handling := Xml.findText propsArray "transactionalHandling" in
  let isTruthy := fun o : option string =>
                    match o with Some s => JsString.truthy s | None => false end in
  if isTruthy timeout || isTruthy handling
  then Some {| transactionTimeout := if isTruthy timeout then default "" timeout else "Not specified";
               transactionalHandling := if isTruthy handling then default "" handling else "Not specified";
               supportsRollback := bool_decide (handling = Some "Required") |}
  else None.

(** The body of the [forEach] of [extractProcessErrorHandling]. *)
Definition processErrorHandling (flowId : string)
    (processDetails : gmap string ProcessErrorDetail) (process : Process) (index : nat)
  : gmap string ProcessErrorDetail :=
  let processId := Xml.attrOr (process_id process) (JStr ("Process_" +:+ pretty index)) in
  let processName := Xml.attrOr (process_name process) processId in
  let key := Js.toStr processId in
  let errorSubprocesses := findErrorSubprocesses process flowId in
  let d1 :=
    if (0 <? length errorSubprocesses)%nat
    then <[key := {| detail_processName := processName;
                     detail_errorSubprocesses := Some errorSubprocesses;
                     detail_hasErrorHandling := true;
                     detail_tryCatchPatterns := None;
                     detail_transactionHandling := None |}]> processDetails
    else processDetails in
  let tryCatchPatterns := findTryCatchPatterns process flowId in
  let d2 :=
    if (0 <? length tryCatchPatterns)%nat
    then
      let entry := default {| detail_processName := processName;
                              detail_errorSubprocesses := None;
                              detail_hasErrorHandling := true;
                              detail_tryCatchPatterns := None;
                              detail_transactionHandling := None |} (d1 !! key) in
      <[key := {| detail_processName := detail_processName entry;
                  detail_errorSubprocesses := detail_errorSubprocesses entry;
                  detail_hasErrorHandling := detail_hasErrorHandling entry;
                  detail_tryCatchPatterns := Some tryCatchPatterns;
                  detail_transactionHandling := detail_transactionHandling entry |}]> d1
    else d1 in
  match extractTransactionInfo process flowId with
  | Some transactionInfo =>
      let entry := default {| detail_processName := processName;
                              detail_errorSubprocesses := None;
                              detail_hasErrorHandling := false;
                              detail_tryCatchPatterns := None;
                              detail_transactionHandling := None |} (d2 !! key) in
      <[key := {| detail_processName := detail_processName entry;
                  detail_errorSubprocesses := detail_errorSubprocesses entry;
                  detail_hasErrorHandling := detail_hasErrorHandling entry;
                  detail_tryCatchPatterns := detail_tryCatchPatterns entry;
                  detail_transactionHandling := Some transactionInfo |}]> d2
  | None => d2
  end.

Fixpoint forEachProcess (flowId : string) (processes : list Process) (index : nat)
    (processDetails : gmap string ProcessErrorDetail) : gmap string ProcessErrorDetail :=
  match processes with
  | [] => processDetails
  | process :: rest =>
      forEachProcess flowId rest (S index) (processErrorHandling flowId processDetails process index)
  end.

(** [extractProcessErrorHandling(parsedXml, flowId)], called with a document
    that has its definitions. *)
Definition extractProcessErrorHandling (parsedXml : option ParsedXml) (flowId : string)
  : gmap string ProcessErrorDetail :=
  match parsedXml ≫= bpmn2_definitions with
  | None => ∅
  | Some definitions =>
      forEachProcess flowId (Xml.toArray (definitions_process definitions)) 0 ∅
  end.

Definition someValue (pred : ProcessErrorDetail -> bool)
    (processDetails : gmap string ProcessErrorDetail) : bool :=
  existsb (fun kv => pred kv.2) (map_to_list processDetails).

(** [mergeErrorHandlingDetails(errorHandling, processDetails)] *)
Definition mergeErrorHandlingDetails (errorHandling : ErrorHandling)
    (processDetails : gmap string ProcessErrorDetail) : ErrorHandling :=
  if (0 <? size processDetails)%nat
  then
    let hasErrorSubprocesses :=
      someValue (fun process => nonEmptyList (detail_errorSubprocesses process)) processDetails in
    let hasTryCatch :=
      someValue (fun process => nonEmptyList (detail_tryCatchPatterns process)) processDetails in
    let details := error_handling_details errorHandling in
    {| detection_enabled := if hasErrorSubprocesses then true else detection_enabled errorHandling;
       logging_enabled := if hasTryCatch then true else logging_enabled errorHandling;
       classification_enabled :=
         if hasErrorSubprocesses then true else classification_enabled errorHandling;
       reporting_enabled := reporting_enabled errorHandling;
       error_handling_details :=
         {| details_returnExceptionToSender := details_returnExceptionToSender details;
            details_logLevel := details_logLevel details;
            details_serverTrace := details_serverTrace details;
            details_processDetails := Some processDetails |} |}
  else errorHandling.

(** [extractErrorHandling(parsedXml, flowId)] *)
Definition extractErrorHandling (parsedXml : option ParsedXml) (flowId : string) : ErrorHandling :=
  match parsedXml ≫= bpmn2_definitions with
  | None => getDefaultErrorHandling
  | Some _ =>
      tryCatch
        (let errorHandling := getDefaultErrorHandling in
         collaborationErrorHandling ← extractCollaborationErrorHandling parsedXml flowId;
         let errorHandling := assignCollaboration errorHandling collaborationErrorHandling in
         let processErrorHandling := extractProcessErrorHandling parsedXml flowId in
         Return (mergeErrorHandlingDetails errorHandling processErrorHandling))
        (fun _ => getDefaultErrorHandling)
  end.

End ErrorHandlingExtractor.

(** ** services/xmlExtraction/persistenceExtractor.js *)
Record JmsAdapter : Type := mkJmsAdapter {
  jms_name : JsVal;
  jms_type : string;
  jms_properties : JsObject
}.

Record MessagePersistence : Type := mkMessagePersistence {
  messagePersistence_adapterName : JsVal;
  messagePersistence_componentType : string;
  messagePersistence_enabled : bool;
  messagePersistence_configuration : JsObject
}.

Record DataStoreOperation : Type := mkDataStoreOperation {
  dataStore_adapterName : JsVal;
  dataStore_componentType : string;
  dataStore_operation : string;
  dataStore_enabled : bool;
  dataStore_configuration : JsObject
}.

Record DataStoreActivity : Type := mkDataStoreActivity {
  activity_id : JsVal;
  activity_name : JsVal;
  activity_type : string;
  activity_activityType : option string;
  activity_properties : list (option string * string)
}.

Record VariableOperation : Type := mkVariableOperation {
  variable_id : JsVal;
  variable_name : JsVal;
  variable_type : string;
  variable_operation : string
}.

Record ExternalCall : Type := mkExternalCall {
  call_id : JsVal;
  call_name : JsVal;
  call_calledElement : option JsVal;
  call_activityType : option string
}.

Record PersistenceDetails : Type := mkPersistenceDetails {
  jmsAdapters : list JmsAdapter;
  messagePersistence : list MessagePersistence;
  dataStoreOperations : list DataStoreOperation;
  dataStoreActivities : list DataStoreActivity;
  variableOperations : list VariableOperation;
  externalCalls : list ExternalCall;
  details_transactionalHandling : JsVal;
  details_processType : JsVal;
  details_directCall : bool
}.

(** The persistence object.  The last three properties are the ones that
    [Object.assign] copies from the collaboration level to the top of the
    object; an absent property is [None]. *)
Record Persistence : Type := mkPersistence {
  jms_enabled : bool;
  data_store_enabled : bool;
  variables_enabled : bool;
  message_persistence_enabled : bool;
  persistence_details : PersistenceDetails;
  persistence_transactionalHandling : option JsVal;
  persistence_processType : option JsVal;
  persistence_directCall : option bool
}.

(** The object built by [extractCollaborationPersistence]; an absent
    property is [None]. *)
Record CollaborationPersistence : Type := mkCollaborationPersistence {
  collab_transactionalHandling : option JsVal;
  collab_processType : option JsVal;
  collab_directCall : option bool;
  collab_message_persistence_enabled : option bool
}.

(** The argument [details] of [mergePersistenceDetails]; an absent property
    is [None]. *)
Record MergeDetails : Type := mkMergeDetails {
  merge_jmsAdapters : option (list JmsAdapter);
  merge_messagePersistence : option (list MessagePersistence);
  merge_dataStoreOperations : option (list DataStoreOperation);
  merge_dataStoreActivities : option (list DataStoreActivity);
  merge_variableOperations : option (list VariableOperation);
  merge_externalCalls : option (list ExternalCall);
  merge_transactionalHandling : option JsVal;
  merge_processType : option JsVal;
  merge_directCall : option bool
}.

Module PersistenceExtractor.
Import BaseXmlExtractor.

(** [getDefaultPersistence()] *)
Definition getDefaultPersistence : Persistence :=
  {| jms_enabled := false;
     data_store_enabled := false;
     variables_enabled := false;
     message_persistence_enabled := false;
     persistence_details :=
       {| jmsAdapters := [];
          messagePersistence := [];
          dataStoreOperations := [];
          dataStoreActivities := [];
          variableOperations := [];
          externalCalls := [];
          details_transactionalHandling := JStr "None";
          details_processType := JStr "undefined";
          details_directCall := false |};
     persistence_transactionalHandling := None;
     persistence_processType := None;
     persistence_directCall := None |}.

(** The body of the [forEach] of [extractCollaborationPersistence]. *)
Definition collaborationProperty (persistence : CollaborationPersistence) (prop : IflProperty)
  : CollaborationPersistence :=
  if Xml.hasKey prop
  then
    let key := Xml.keyOf prop in
    let value := Xml.valueOf prop in
    let p1 :=
      if JsString.eqb key "transactionalHandling"
      then {| collab_transactionalHandling := Some value;
              collab_processType := collab_processType persistence;
              collab_directCall := collab_directCall persistence;
              collab_message_persistence_enabled :=
                if Js.truthy value && negb (Js.strictEqStr value "None")
                then Some true
                else collab_message_persistence_enabled persistence |}
      else persistence in
    let p2 :=
      if JsString.eqb key "processType"
      then {| collab_transactionalHandling := collab_transactionalHandling p1;
              collab_processType := Some value;
              collab_directCall := Some (Js.strictEqStr value "ProcessDirect");
              collab_message_persistence_enabled := collab_message_persistence_enabled p1 |}
      else p1 in
    if JsString.eqb key "messagePersistenceEnabled" || JsString.eqb key "persist"
    then {| collab_transactionalHandling := collab_transactionalHandling p2;
            collab_processType := collab_processType p2;
            collab_directCall := collab_directCall p2;
            collab_message_persistence_enabled := Some (Js.strictEqStr value "true") |}
    else p2
  else persistence.

(** [extractCollaborationPersistence(parsedXml, flowId)] *)
Definition extractCollaborationPersistence (parsedXml : option ParsedXml) (flowId : string)
  : CollaborationPersistence :=
  fold_left collaborationProperty (getCollaborationProperties parsedXml)
    {| collab_transactionalHandling := None;
       collab_processType := None;
       collab_directCall := None;
       collab_message_persistence_enabled := None |}.

(** [Object.assign(persistence, collaborationPersistence)] *)
Definition assignCollaboration (persistence : Persistence) (c : CollaborationPersistence)
  : Persistence :=
  {| jms_enabled := jms_enabled persistence;
     data_store_enabled := data_store_enabled persistence;
     variables_enabled := variables_enabled persistence;
     message_persistence_enabled :=
       default (message_persistence_enabled persistence) (collab_message_persistence_enabled c);
     persistence_details := persistence_details persistence;
     persistence_transactionalHandling :=
       match collab_transactionalHandling c with
       | Some v => Some v
       | None => persistence_transactionalHandling persistence
       end;
     persistence_processType :=
       match collab_processType c with
       | Some v => Some v
       | None => persistence_processType persistence
       end;
     persistence_directCall :=
       match collab_directCall c with
       | Some v => Some v
       | None => persistence_directCall persistence
       end |}.

(** [propsArray.map(prop => ({ key: prop.key?._, value: prop.value?._ || '' }))] *)
Definition keyValuePairs (propsArray : list IflProperty) : list (option string * string) :=
  map (fun prop => (Xml.keyText prop, Xml.valueOrEmpty prop)) propsArray.

Definition activityTypeOf (task : Task) : option string :=
  Xml.findText
    (Xml.propsArrayOf (task_extensionElements task)) "activityType".

(** [activityType && (activityType.includes(a) || activityType.includes(b))] *)
Definition activityTypeIs (activityType : option string) (a b : string) : bool :=
  match activityType with
  | Some t => JsString.truthy t && (JsString.includes t a || JsString.includes t b)
  | None => false
  end.

Definition dataStoreNeedles : list string := ["datastore"; "data_store"; "store"].

(** [findDataStoreActivities(process, flowId)] *)
Definition findDataStoreActivities (process : Process) (flowId : string) : list DataStoreActivity :=
  let '(fromScriptTasks, completed) :=
    pushEachUntil
      (fun task =>
         let propsArray := Xml.propsArrayOf (task_extensionElements task) in
         hasDataStore ←
           someExc
             (Xml.keyMentions dataStoreNeedles) propsArray;
         Return (if hasDataStore : bool
                 then [ {| activity_id := Xml.attrOr (task_id task) (JStr "UnknownTask");
                           activity_name := Xml.attrOr (task_name task) (JStr "Data Store Activity");
                           activity_type := "ScriptTask";
                           activity_activityType := None;
                           activity_properties := keyValuePairs propsArray |} ]
                 else []))
      (Xml.toArray (process_scriptTask process)) in
  if completed : bool
  then
    fromScriptTasks ++
    flat_map
      (fun task =>
         let propsArray := Xml.propsArrayOf (task_extensionElements task) in
         let activityType := activityTypeOf task in
         if activityTypeIs activityType "DataStore" "Store"
         then [ {| activity_id := Xml.attrOr (task_id task) (JStr "UnknownTask");
                   activity_name := Xml.attrOr (task_name task) (JStr "Data Store Operation");
                   activity_type := "ServiceTask";
                   activity_activityType := activityType;
                   activity_properties := keyValuePairs propsArray |} ]
         else [])
      (Xml.toArray (process_serviceTask process))
  else fromScriptTasks.

(** [script && typeof script === 'string'], with the string at hand. *)
Definition scriptString (script : option ScriptChild) : option string :=
  match script with
  | Some (ScriptString s) => if JsString.truthy s then Some s else None
  | _ => None
  end.

(** [determineVariableOperation(properties, script)] *)
Definition determineVariableOperation (properties : list IflProperty) (script : option ScriptChild)
  : Exc string :=
  operationProp ← findExc (Xml.keyMentions ["operation"; "action"]) properties;
  let fromProp :=
    match operationProp with
    | Some prop =>
        match prop_value prop ≫= charData with
        | Some v => if JsString.truthy v then Some v else None
        | None => None
        end
    | None => None
    end in
  match fromProp with
  | Some v => Return v
  | None =>
      match scriptString script with
      | Some s =>
          if JsString.includes s "setProperty" || JsString.includes s "setHeader"
          then Return "Set Variable"
          else if JsString.includes s "getProperty" || JsString.includes s "getHeader"
          then Return "Get Variable"
          else if JsString.includes s "removeProperty" || JsString.includes s "removeHeader"
          then Return "Remove Variable"
          else Return "Variable Operation"
      | None => Return "Variable Operation"
      end
  end.

(** [findVariableOperations(process, flowId)] *)
Definition findVariableOperations (process : Process) (flowId : string) : list VariableOperation :=
  let '(fromScriptTasks, completed) :=
    pushEachUntil
      (fun task =>
         let propsArray := Xml.propsArrayOf (task_extensionElements task) in
         hasVariables ←
           someExc
             (Xml.keyMentions ["variable"; "header"; "property"]) propsArray;
         let script := task_script task in
         let hasVariableInScript :=
           match scriptString script with
           | Some s =>
               JsString.includes s "setProperty" || JsString.includes s "getProperty" ||
               JsString.includes s "setHeader" || JsString.includes s "getHeader"
           | None => false
           end in
         if (hasVariables : bool) || hasVariableInScript
         then
           operation ← determineVariableOperation propsArray script;
           Return [ {| variable_id := Xml.attrOr (task_id task) (JStr "UnknownTask");
                       variable_name := Xml.attrOr (task_name task) (JStr "Variable Operation");
                       variable_type := "ScriptTask";
                       variable_operation := operation |} ]
         else Return [])
      (Xml.toArray (process_scriptTask process)) in
  if completed : bool
  then
    fromScriptTasks ++
    flat_map
      (fun task =>
         match activityTypeOf task with
         | Some t =>
             if activityTypeIs (Some t) "ContentModifier" "Variable"
             then [ {| variable_id := Xml.attrOr (task_id task) (JStr "UnknownTask");
                       variable_name := Xml.attrOr (task_name task) (JStr "Content Modifier");
                       variable_type := "ServiceTask";
                       variable_operation := t |} ]
             else []
         | None => []
         end)
      (Xml.toArray (process_serviceTask process))
  else fromScriptTasks.

(** [findExternalCalls(process, flowId)] *)
Definition findExternalCalls (process : Process) (flowId : string) : list ExternalCall :=
  flat_map
    (fun activity =>
       match callActivity_calledElement activity with
       | Some calledElement =>
           [ {| call_id := Xml.attrOr (callActivity_id activity) (JStr "UnknownCall");
                call_name := Xml.attrOr (callActivity_name activity) (Xml.attrObject calledElement);
                call_calledElement := Some (Xml.attrObject calledElement);
                call_activityType := None |} ]
       | None => []
       end)
    (Xml.toArray (process_callActivity process))
  ++
  flat_map
    (fun task =>
       let activityType := activityTypeOf task in
       if activityTypeIs activityType "External" "Request Reply"
       then [ {| call_id := Xml.attrOr (task_id task) (JStr "UnknownTask");
                 call_name := Xml.attrOr (task_name task) (JStr "External Call");
                 call_calledElement := None;
                 call_activityType := activityType |} ]
       else [])
    (Xml.toArray (process_serviceTask process)).

(** [extractProcessPersistence(parsedXml, flowId)], called with a document
    that has its definitions. *)
Definition extractProcessPersistence (parsedXml : option ParsedXml) (flowId : string)
  : MergeDetails :=
  let processArray :=
    match parsedXml ≫= bpmn2_definitions with
    | Some definitions => Xml.toArray (definitions_process definitions)
    | None => []
    end in
  {| merge_jmsAdapters := None;
     merge_messagePersistence := None;
     merge_dataStoreOperations := None;
     merge_dataStoreActivities :=
       Some (flat_map (fun process => findDataStoreActivities process flowId) processArray);
     merge_variableOperations :=
       Some (flat_map (fun process => findVariableOperations process flowId) processArray);
     merge_externalCalls :=
       Some (flat_map (fun process => findExternalCalls process flowId) processArray);
     merge_transactionalHandling := None;
     merge_processType := None;
     merge_directCall := None |}.

(** [key.toLowerCase().includes(n1) || key.toLowerCase().includes(n2) || ...] *)
Definition mentions (text : string) (needles : list string) : bool :=
  existsb (JsString.includes (JsString.toLowerCase text)) needles.

Definition jmsNeedles : list string := ["jms"; "queue"; "topic"].

(** The body of the [forEach] of [extractJMSConfiguration]. *)
Definition jmsStep (jmsProperties : JsObject) (prop : IflProperty) : JsObject :=
  if Xml.hasKey prop
  then
    let key := Xml.keyOf prop in
    let value := Xml.valueOf prop in
    if mentions key jmsNeedles then Js.objSet jmsProperties key value else jmsProperties
  else jmsProperties.

(** The [forEach] of [extractJMSConfiguration] that fills [jmsProperties]. *)
Definition collectJmsProperties (properties : list IflProperty) : JsObject :=
  fold_left jmsStep properties [].

(** [extractJMSConfiguration(properties, adapterName)] *)
Definition extractJMSConfiguration (properties : list IflProperty) (adapterName : JsVal)
  : option JmsAdapter :=
  let jmsProperties := collectJmsProperties properties in
  if (0 <? length jmsProperties)%nat
  then Some {| jms_name := adapterName; jms_type := "JMS"; jms_properties := jmsProperties |}
  else None.

(** [extractMessagePersistenceConfiguration(properties, adapterName,
    componentType)] *)
Definition extractMessagePersistenceConfiguration (properties : list IflProperty)
    (adapterName : JsVal) (componentType : string) : option MessagePersistence :=
  let '(hasPersistence0, persistenceConfig) :=
    fold_left
      (fun '(hasPersistence, persistenceConfig) prop =>
         if Xml.hasKey prop
         then
           let key := Xml.keyOf prop in
           let value := Xml.valueOf prop in
           if mentions key ["persist"; "durable"; "reliable"]
           then (true, Js.objSet persistenceConfig key value)
           else (hasPersistence, persistenceConfig)
         else (hasPersistence, persistenceConfig))
      properties (false, []) in
  let hasPersistence :=
    if mentions componentType ["jms"; "queue"; "reliable"] then true else hasPersistence0 in
  if hasPersistence : bool
  then Some {| messagePersistence_adapterName := adapterName;
               messagePersistence_componentType := componentType;
               messagePersistence_enabled := true;
               messagePersistence_configuration := persistenceConfig |}
  else None.

(** [extractDataStoreConfiguration(properties, adapterName, componentType)] *)
Definition extractDataStoreConfiguration (properties : list IflProperty)
    (adapterName : JsVal) (componentType : string) : option DataStoreOperation :=
  let '(hasDataStore0, dataStoreConfig, operation) :=
    fold_left
      (fun '(hasDataStore, dataStoreConfig, operation) prop =>
         if Xml.hasKey prop
         then
           let key := Xml.keyOf prop in
           let value := Xml.valueOf prop in
           if mentions key dataStoreNeedles
           then
             (true, Js.objSet dataStoreConfig key value,
              if mentions key ["get"; "select"] then "Get"
              else if mentions key ["put"; "write"] then "Put"
              else if mentions key ["delete"] then "Delete"
              else operation)
           else (hasDataStore, dataStoreConfig, operation)
         else (hasDataStore, dataStoreConfig, operation))
      properties (false, [], "Unknown") in
  let hasDataStore :=
    if mentions componentType ["datastore"; "store"] then true else hasDataStore0 in
  if hasDataStore : bool
  then Some {| dataStore_adapterName := adapterName;
               dataStore_componentType := componentType;
               dataStore_operation := operation;
               dataStore_enabled := true;
               dataStore_configuration := dataStoreConfig |}
  else None.

(** What one message flow contributes in [extractAdapterPersistence]. *)
Definition flowJms (flow : MessageFlow) (index : nat) : list JmsAdapter :=
  match flow_extensionElements flow with
  | None => []
  | Some extensionElements =>
      let properties := propertiesOf extensionElements in
      let componentType := JsString.orElse (getPropertyValue properties "ComponentType") "Unknown" in
      let adapterName := BaseXmlExtractor.adapterNameOf properties flow index in
      if JsString.includes (JsString.toLowerCase componentType) "jms"
      then
        match extractJMSConfiguration properties adapterName with
        | Some jmsConfig => [jmsConfig]
        | None => []
        end
      else []
  end.

Definition flowMessagePersistence (flow : MessageFlow) (index : nat) : list MessagePersistence :=
  match flow_extensionElements flow with
  | None => []
  | Some extensionElements =>
      let properties := propertiesOf extensionElements in
      let componentType := JsString.orElse (getPropertyValue properties "ComponentType") "Unknown" in
      let adapterName := BaseXmlExtractor.adapterNameOf properties flow index in
      match extractMessagePersistenceConfiguration properties adapterName componentType with
      | Some messagePersistenceConfig => [messagePersistenceConfig]
      | None => []
      end
  end.

Definition flowDataStore (flow : MessageFlow) (index : nat) : list DataStoreOperation :=
  match flow_extensionElements flow with
  | None => []
  | Some extensionElements =>
      let properties := propertiesOf extensionElements in
      let componentType := JsString.orElse (getPropertyValue properties "ComponentType") "Unknown" in
      let adapterName := BaseXmlExtractor.adapterNameOf properties flow index in
      match extractDataStoreConfiguration properties adapterName componentType with
      | Some dataStoreConfig => [dataStoreConfig]
      | None => []
      end
  end.

(** [messageFlows.forEach((flow, index) => ...)], for one of the three
    arrays that the loop fills. *)
Fixpoint forEachFlow {B : Type} (body : MessageFlow -> nat -> list B)
    (flows : list MessageFlow) (index : nat) : list B :=
  match flows with
  | [] => []
  | flow :: rest => body flow index ++ forEachFlow body rest (S index)
  end.

(** [extractAdapterPersistence(parsedXml, flowId)] *)
Definition extractAdapterPersistence (parsedXml : option ParsedXml) (flowId : string)
  : MergeDetails :=
  let messageFlows := getMessageFlows parsedXml in
  {| merge_jmsAdapters := Some (forEachFlow flowJms messageFlows 0);
     merge_messagePersistence := Some (forEachFlow flowMessagePersistence messageFlows 0);
     merge_dataStoreOperations := Some (forEachFlow flowDataStore messageFlows 0);
     merge_dataStoreActivities := None;
     merge_variableOperations := None;
     merge_externalCalls := None;
     merge_transactionalHandling := None;
     merge_processType := None;
     merge_directCall := None |}.

(** [mergePersistenceDetails(persistence, details)] *)
Definition mergePersistenceDetails (persistence : Persistence) (details : MergeDetails)
  : Persistence :=
  let d := persistence_details persistence in
  let has := fun (A : Type) (o : option (list A)) => nonEmptyList o in
  let pushed := fun (A : Type) (target : list A) (o : option (list A)) =>
                  if has A o then target ++ default [] o else target in
  {| jms_enabled :=
       if has _ (merge_jmsAdapters details) then true else jms_enabled persistence;
     data_store_enabled :=
       if has _ (merge_dataStoreActivities details) then true
       else if has _ (merge_dataStoreOperations details) then true
       else data_store_enabled persistence;
     variables_enabled :=
       if has _ (merge_variableOperations details) then true else variables_enabled persistence;
     message_persistence_enabled :=
       if has _ (merge_messagePersistence details) then true
       else message_persistence_enabled persistence;
     persistence_details :=
       {| jmsAdapters := pushed _ (jmsAdapters d) (merge_jmsAdapters details);
          messagePersistence := pushed _ (messagePersistence d) (merge_messagePersistence details);
          dataStoreOperations := pushed _ (dataStoreOperations d) (merge_dataStoreOperations details);
          dataStoreActivities := pushed _ (dataStoreActivities d) (merge_dataStoreActivities details);
          variableOperations := pushed _ (variableOperations d) (merge_variableOperations details);
          externalCalls := pushed _ (externalCalls d) (merge_externalCalls details);
          details_transactionalHandling :=
            match merge_transactionalHandling details with
            | Some v => if Js.truthy v then v else details_transactionalHandling d
            | None => details_transactionalHandling d
            end;
          details_processType :=
            match merge_processType details with
            | Some v => if Js.truthy v then v else details_processType d
            | None => details_processType d
            end;
          details_directCall := default (details_directCall d) (merge_directCall details) |};
     persistence_transactionalHandling := persistence_transactionalHandling persistence;
     persistence_processType := persistence_processType persistence;
     persistence_directCall := persistence_directCall persistence |}.

(** [extractPersistence(parsedXml, flowId)].  No step of the body throws on
    a parsed document, so the [catch] branch is not reached. *)
Definition extractPersistence (parsedXml : option ParsedXml) (flowId : string) : Persistence :=
  match parsedXml ≫= bpmn2_definitions with
  | None => getDefaultPersistence
  | Some _ =>
      let persistence := getDefaultPersistence in
      let collaborationPersistence := extractCollaborationPersistence parsedXml flowId in
      let persistence := assignCollaboration persistence collaborationPersistence in
      let processPersistence := extractProcessPersistence parsedXml flowId in
      let persistence := mergePersistenceDetails persistence processPersistence in
      let adapterPersistence := extractAdapterPersistence parsedXml flowId in
      mergePersistenceDetails persistence adapterPersistence
  end.

End PersistenceExtractor.

(** ** services/processing/baseProcessor.js *)
Module BaseProcessor.

(** [validateRequiredFields(data, requiredFields, context)]; [data] is given
    by its property read [data[field]]. *)
Definition validateRequiredFields (data : string -> JsVal) (requiredFields : list string)
    (context : string) : bool :=
  forallb (fun field => Js.truthy (data field)) requiredFields.

(** [sanitizeString(value, maxLength = null)] *)
Definition sanitizeString (value : JsVal) (maxLength : option nat) : string :=
  match value with
  | JStr s =>
      if JsString.truthy s
      then
        let sanitized := JsString.trim s in
        match maxLength with
        | Some n =>
            if (0 <? n)%nat && (n <? String.length sanitized)%nat
            then JsString.substring0 n sanitized
            else sanitized
        | None => sanitized
        end
      else ""
  | _ => ""
  end.

(** [ensureBoolean(value)]; [None] is [null]. *)
Definition ensureBoolean (value : JsVal) : option bool :=
  match value with
  | JUndefined | JNull => None
  | _ => Some (Js.truthy value)
  end.

Section WithBuiltins.

(** [JSON.parse], a built-in of the runtime; [Throw] is its SyntaxError. *)
Variable JSON_parse : string -> Exc JsVal.

(** [typeof data === 'object'] for a truthy [data] *)
Definition isObjectType (data : JsVal) : bool :=
  match data with
  | JArr _ | JObj _ | JBuiltin ObjectPrototype => true
  | _ => false
  end.

(** [validateJson(data, context)] *)
Definition validateJson (data : JsVal) (context : string) : JsVal :=
  if negb (Js.truthy data) then JObj []
  else if isObjectType data then data
  else
    match data with
    | JStr s => tryCatch (JSON_parse s) (fun _ => JObj [])
    | _ => JObj []
    end.

End WithBuiltins.
End BaseProcessor.

(** ** services/processing/securityProcessor.js *)
Module SecurityProcessor.
Import BaseProcessor.

(** [typeMapping], in the order of the object literal. *)
Definition typeMapping : list (string * string) :=
  [ ("ClientCertificate", "Client Certificate");
    ("Client Certificate", "Client Certificate");
    ("BasicAuthentication", "Basic Authentication");
    ("Basic Authentication", "Basic Authentication");
    ("OAuth", "OAuth");
    ("OAuth2", "OAuth");
    ("SAML", "SAML");
    ("JWT", "JWT");
    ("None", "None");
    ("CSRF Protection", "CSRF Protection");
    ("XSRF Protection", "XSRF Protection");
    ("CORS", "CORS");
    ("Role-Based Authorization", "Role-Based Authorization");
    ("Exception Handling", "Exception Handling");
    ("Security Logging", "Security Logging");
    ("Debug Security", "Debug Security") ].

(** The closed set of canonical types that the specification names. *)
Definition closedTypes : list string :=
  [ "OAuth"; "Basic Authentication"; "Client Certificate"; "SAML"; "JWT";
    "CSRF Protection"; "XSRF Protection"; "CORS"; "Role-Based Authorization";
    "Exception Handling"; "Security Logging"; "Debug Security"; "Unknown" ].

(** What [typeMapping[name]] reaches on [Object.prototype] when [name] is
    not one of the keys of the literal. *)
Definition inheritedMember (name : string) : option Builtin :=
  if JsString.eqb name "__proto__" then Some ObjectPrototype
  else if JsString.eqb name "constructor" then Some (BuiltinFunction "Object")
  else if existsb (JsString.eqb name)
            [ "__defineGetter__"; "__defineSetter__"; "hasOwnProperty";
              "__lookupGetter__"; "__lookupSetter__"; "isPrototypeOf";
              "propertyIsEnumerable"; "toString"; "valueOf"; "toLocaleString" ]
  then Some (BuiltinFunction name)
  else None.

(** [typeMapping[sanitized]] *)
Definition lookupTypeMapping (sanitized : string) : JsVal :=
  match List.find (fun entry => JsString.eqb entry.1 sanitized) typeMapping with
  | Some entry => JStr entry.2
  | None =>
      match inheritedMember sanitized with
      | Some member => JBuiltin member
      | None => JUndefined
      end
  end.

(** The loop over [Object.entries(typeMapping)] *)
Definition partialMatch (sanitized : string) : option string :=
  let lower := JsString.toLowerCase sanitized in
  match List.find
          (fun entry =>
             JsString.includes lower (JsString.toLowerCase entry.1) ||
             JsString.includes (JsString.toLowerCase entry.1) lower)
          typeMapping with
  | Some entry => Some entry.2
  | None => None
  end.

(** [normalizeSecurityType(mechanismType)] *)
Definition normalizeSecurityType (mechanismType : JsVal) : JsVal :=
  if negb (Js.truthy mechanismType) then JStr "Unknown"
  else
    let sanitized := sanitizeString mechanismType (Some 100) in
    let exact := lookupTypeMapping sanitized in
    if Js.truthy exact then exact
    else
      match partialMatch sanitized with
      | Some value => JStr value
      | None => JStr sanitized
      end.

(** [mechanism.mechanism_type?.toLowerCase() || ''] *)
Definition lowerMechanismType (mechanism_type : JsVal) : Exc string :=
  match mechanism_type with
  | JUndefined | JNull => Return ""
  | JStr s => Return (JsString.toLowerCase s)
  | _ => Throw "TypeError: mechanism.mechanism_type?.toLowerCase is not a function"
  end.

(** [determineSecurityDirection(mechanism)] *)
Definition determineSecurityDirection (mechanism : SecurityMechanism) : Exc string :=
  let explicit :=
    if Js.truthy (direction mechanism)
    then
      let d := sanitizeString (direction mechanism) (Some 50) in
      if JsString.eqb d "Inbound" || JsString.eqb d "Outbound" then Some d else None
    else None in
  match explicit with
  | Some d => Return d
  | None =>
      mechanismType ← lowerMechanismType (mechanism_type mechanism);
      let config := fun name => Js.truthy (Js.optGet (configuration mechanism) name) in
      if JsString.includes mechanismType "sender" ||
         JsString.includes mechanismType "authorization" ||
         JsString.includes mechanismType "cors" ||
         JsString.includes mechanismType "exception handling" ||
         JsString.includes mechanismType "logging"
      then Return "Inbound"
      else if JsString.includes mechanismType "receiver" ||
              JsString.includes mechanismType "csrf" ||
              (JsString.includes mechanismType "client certificate" && config "privateKeyAlias")
      then Return "Outbound"
      else if JsString.includes mechanismType "client certificate"
      then
        if config "senderAuthType" then Return "Inbound"
        else if config "authenticationMethod" || config "privateKeyAlias" then Return "Outbound"
        else Return "Inbound"
      else Return "Inbound"
  end.

(** The index keys ["0"; "1"; ...] of a string or an array. *)
Definition indexed {A : Type} (l : list A) : list (string * A) :=
  imap (fun i a => (pretty i, a)) l.

(** [Object.keys(v)] with the values [v[key]]. *)
Definition ownEntries (v : JsVal) : Exc JsObject :=
  match v with
  | JUndefined | JNull => Throw "TypeError: Cannot convert undefined or null to object"
  | JBool _ | JNum _ | JBuiltin _ => Return []
  | JStr s => Return (indexed (map (fun c => JStr (String c EmptyString)) (list_ascii_of_string s)))
  | JArr items => Return (indexed items)
  | JObj fields => Return fields
  end.

(** The clean-up of one configuration value. *)
Definition cleanValue (value : JsVal) : JsVal :=
  match value with
  | JStr s =>
      if JsString.eqb (JsString.toLowerCase s) "true" then JBool true
      else if JsString.eqb (JsString.toLowerCase s) "false" then JBool false
      else value
  | _ => value
  end.

Section WithBuiltins.

Variable JSON_parse : string -> Exc JsVal.

(** [processSecurityConfiguration(configuration)] *)
Definition processSecurityConfiguration (configuration : JsVal) : Exc JsObject :=
  if negb (Js.truthy configuration) then Return []
  else
    let processed := validateJson JSON_parse configuration "security configuration" in
    entries ← ownEntries processed;
    Return (fold_left (fun cleanedConfig entry => Js.objSet cleanedConfig entry.1 (cleanValue entry.2))
                      entries []).

(** [processIndividualSecurityMechanism(mechanism, flowId)]; [None] is
    [null]. *)
Definition processIndividualSecurityMechanism (mechanism : SecurityMechanism) (flowId : string)
  : option SecurityMechanism :=
  tryCatch
    (d ← determineSecurityDirection mechanism;
     c ← processSecurityConfiguration (configuration mechanism);
     Return (Some {| mechanism_name := JStr (sanitizeString (mechanism_name mechanism) (Some 255));
                     mechanism_type := normalizeSecurityType (mechanism_type mechanism);
                     direction := JStr d;
                     configuration := JObj c |}))
    (fun _ => None).

(** [mechanism[field]] for the fields that the processor reads. *)
Definition field (mechanism : SecurityMechanism) (name : string) : JsVal :=
  if JsString.eqb name "mechanism_name" then mechanism_name mechanism
  else if JsString.eqb name "mechanism_type" then mechanism_type mechanism
  else if JsString.eqb name "direction" then direction mechanism
  else if JsString.eqb name "configuration" then configuration mechanism
  else JUndefined.

(** [processSecurityMechanisms(flowData, securityMechanisms)] for an array
    [securityMechanisms]; [flowId] is [flowData.id]. *)
Definition processSecurityMechanisms (flowId : string) (securityMechanisms : list SecurityMechanism)
  : list SecurityMechanism :=
  flat_map
    (fun mechanism =>
       if negb (validateRequiredFields (field mechanism) ["mechanism_name"; "mechanism_type"]
                  "security processing")
       then []
       else
         match processIndividualSecurityMechanism mechanism flowId with
         | Some processedMechanism => [processedMechanism]
         | None => []
         end)
    securityMechanisms.

End WithBuiltins.

(** [`${mechanism.mechanism_name}_${mechanism.direction}`]; on a name and
    a direction that are strings, the concatenation itself (for other
    values see [Js.toStr]). *)
Definition dedupKey (mechanism : SecurityMechanism) : string :=
  Js.toStr (mechanism_name mechanism) +:+ "_" +:+ Js.toStr (direction mechanism).

(** The body of the [forEach] of [deduplicateSecurityMechanisms], on the
    pair of [seen] (the keys of the [Map]) and [deduplicated]. *)
Definition dedupStep (state : gset string * list SecurityMechanism) (mechanism : SecurityMechanism)
  : gset string * list SecurityMechanism :=
  let '(seen, deduplicated) := state in
  let key := dedupKey mechanism in
  if bool_decide (key ∈ seen)
  then (seen, deduplicated)
  else ({[ key ]} ∪ seen, deduplicated ++ [mechanism]).

(** The same loop told from the rest of the array: what is still pushed
    once the keys in [seen] have been met. *)
Fixpoint dedupFrom (seen : gset string) (rest : list SecurityMechanism)
  : list SecurityMechanism :=
  match rest with
  | [] => []
  | mechanism :: rest' =>
      if bool_decide (dedupKey mechanism ∈ seen)
      then dedupFrom seen rest'
      else mechanism :: dedupFrom ({[ dedupKey mechanism ]} ∪ seen) rest'
  end.

(** [deduplicateSecurityMechanisms(securityMechanisms)] *)
Definition deduplicateSecurityMechanisms (securityMechanisms : list SecurityMechanism)
  : list SecurityMechanism :=
  (fold_left dedupStep securityMechanisms (∅, [])).2.

(** The object that [classifySecurityMechanisms] fills. *)
Record Classification : Type := mkClassification {
  authentication : list SecurityMechanism;
  authorization : list SecurityMechanism;
  encryption : list SecurityMechanism;
  logging : list SecurityMechanism;
  protection : list SecurityMechanism;
  other : list SecurityMechanism
}.

(** [mechanism.mechanism_type.toLowerCase()], without the [?.] that
    [determineSecurityDirection] has. *)
Definition typeToLowerCase (mechanism_type : JsVal) : Exc string :=
  match mechanism_type with
  | JStr s => Return (JsString.toLowerCase s)
  | JUndefined | JNull =>
      Throw "TypeError: Cannot read properties of undefined (reading 'toLowerCase')"
  | _ => Throw "TypeError: mechanism.mechanism_type.toLowerCase is not a function"
  end.

(** The body of the [forEach] of [classifySecurityMechanisms]. *)
Definition classifyStep (classification : Classification) (mechanism : SecurityMechanism)
  : Exc Classification :=
  type ← typeToLowerCase (mechanism_type mechanism);
  let c := classification in
  Return
    (if JsString.includes type "authentication" || JsString.includes type "certificate" ||
        JsString.includes type "oauth" || JsString.includes type "saml" ||
        JsString.includes type "jwt"
     then {| authentication := authentication c ++ [mechanism];
             authorization := authorization c;
             encryption := encryption c;
             logging := logging c;
             protection := protection c;
             other := other c |}
     else if JsString.includes type "authorization" || JsString.includes type "role"
     then {| authentication := authentication c;
             authorization := authorization c ++ [mechanism];
             encryption := encryption c;
             logging := logging c;
             protection := protection c;
             other := other c |}
     else if JsString.includes type "encryption" || JsString.includes type "ssl" ||
             JsString.includes type "tls"
     then {| authentication := authentication c;
             authorization := authorization c;
             encryption := encryption c ++ [mechanism];
             logging := logging c;
             protection := protection c;
             other := other c |}
     else if JsString.includes type "logging" || JsString.includes type "audit"
     then {| authentication := authentication c;
             authorization := authorization c;
             encryption := encryption c;
             logging := logging c ++ [mechanism];
             protection := protection c;
             other := other c |}
     else if JsString.includes type "csrf" || JsString.includes type "xsrf" ||
             JsString.includes type "cors"
     then {| authentication := authentication c;
             authorization := authorization c;
             encryption := encryption c;
             logging := logging c;
             protection := protection c ++ [mechanism];
             other := other c |}
     else {| authentication := authentication c;
             authorization := authorization c;
             encryption := encryption c;
             logging := logging c;
             protection := protection c;
             other := other c ++ [mechanism] |}).

(** [classifySecurityMechanisms(securityMechanisms)]; the loop has no
    [try], so a [TypeError] of the body leaves the function. *)
Definition classifySecurityMechanisms (securityMechanisms : list SecurityMechanism)
  : Exc Classification :=
  forEachExc classifyStep securityMechanisms
    {| authentication := [];
       authorization := [];
       encryption := [];
       logging := [];
       protection := [];
       other := [] |}.

End SecurityProcessor.

(** ** services/processing/adapterProcessor.js

    An adapter as the processor reads it: the five properties, each of any
    value. *)
Record RawAdapter : Type := mkRawAdapter {
  raw_adapter_name : JsVal;
  raw_adapter_type : JsVal;
  raw_adapter_category : JsVal;
  raw_direction : JsVal;
  raw_configuration : JsVal
}.

Record ProcessedAdapter : Type := mkProcessedAdapter {
  processed_adapter_name : string;
  processed_adapter_type : string;
  processed_adapter_category : string;
  processed_direction : string;
  processed_configuration : JsObject
}.

Module AdapterProcessor.
Import BaseProcessor.

(** The object that [AdapterExtractor.processMessageFlow] returns, as the
    processor reads it. *)
Definition rawAdapter (adapter : Adapter) : RawAdapter :=
  let metadata := configuration_resourceMetadata (adapter_configuration adapter) in
  {| raw_adapter_name := adapter_name adapter;
     raw_adapter_type := JStr (adapter_type adapter);
     raw_adapter_category := JStr (adapter_category adapter);
     raw_direction := JStr (adapter_direction adapter);
     raw_configuration :=
       JObj [("content", JStr (configuration_content (adapter_configuration adapter)));
             ("resourceMetadata",
              JObj [("name", metadata_name metadata);
                    ("cmdVariantUri", JStr (metadata_cmdVariantUri metadata));
                    ("componentType", JStr (metadata_componentType metadata))])] |}.

(** [adapter.adapter_type?.toLowerCase() || ''] *)
Definition lowerAdapterType (adapter_type : JsVal) : Exc string :=
  match adapter_type with
  | JUndefined | JNull => Return ""
  | JStr s => Return (JsString.toLowerCase s)
  | _ => Throw "TypeError: adapter.adapter_type?.toLowerCase is not a function"
  end.

(** [determineDirection(adapter)] *)
Definition determineDirection (adapter : RawAdapter) : Exc string :=
  if Js.truthy (raw_direction adapter)
  then Return (sanitizeString (raw_direction adapter) (Some 50))
  else if Js.truthy (raw_adapter_category adapter)
  then Return (sanitizeString (raw_adapter_category adapter) (Some 50))
  else
    adapterType ← lowerAdapterType (raw_adapter_type adapter);
    if JsString.includes adapterType "sender" || JsString.includes adapterType "inbound"
    then Return "Sender"
    else if JsString.includes adapterType "receiver" || JsString.includes adapterType "outbound"
    then Return "Receiver"
    else Return "Unknown".

Section WithBuiltins.

Variable JSON_parse : string -> Exc JsVal.

(** [processAdapterConfiguration(configuration)] *)
Definition processAdapterConfiguration (configuration : JsVal) : Exc JsObject :=
  if negb (Js.truthy configuration) then Return []
  else
    let content := Js.optGet configuration "content" in
    let processed0 := if Js.truthy content then [("content", content)] else [] in
    let resourceMetadata := Js.optGet configuration "resourceMetadata" in
    let processed1 :=
      if Js.truthy resourceMetadata
      then processed0 ++ [("resourceMetadata",
                           validateJson JSON_parse resourceMetadata "adapter metadata")]
      else processed0 in
    entries ← SecurityProcessor.ownEntries configuration;
    Return (fold_left
              (fun processed entry =>
                 if negb (JsString.eqb entry.1 "content") &&
                    negb (JsString.eqb entry.1 "resourceMetadata")
                 then Js.objSet processed entry.1 entry.2
                 else processed)
              entries processed1).

(** [adapter.adapter_category || 'Unknown'] *)
Definition categoryOrUnknown (adapter_category : JsVal) : JsVal :=
  if Js.truthy adapter_category then adapter_category else JStr "Unknown".

(** [processIndividualAdapter(adapter, flowId)]; [None] is [null]. *)
Definition processIndividualAdapter (adapter : RawAdapter) (flowId : string)
  : option ProcessedAdapter :=
  tryCatch
    (d ← determineDirection adapter;
     c ← processAdapterConfiguration (raw_configuration adapter);
     Return (Some {| processed_adapter_name :=
                       sanitizeString (raw_adapter_name adapter) (Some 255);
                     processed_adapter_type :=
                       sanitizeString (raw_adapter_type adapter) (Some 100);
                     processed_adapter_category :=
                       sanitizeString (categoryOrUnknown (raw_adapter_category adapter))
                                      (Some 100);
                     processed_direction := d;
                     processed_configuration := c |}))
    (fun _ => None).

(** [adapter[field]] for the fields that the processor reads. *)
Definition field (adapter : RawAdapter) (name : string) : JsVal :=
  if JsString.eqb name "adapter_name" then raw_adapter_name adapter
  else if JsString.eqb name "adapter_type" then raw_adapter_type adapter
  else if JsString.eqb name "adapter_category" then raw_adapter_category adapter
  else if JsString.eqb name "direction" then raw_direction adapter
  else if JsString.eqb name "configuration" then raw_configuration adapter
  else JUndefined.

(** [processAdapters(flowData, adapters)] for an array [adapters]; [flowId]
    is [flowData.id]. *)
Definition processAdapters (flowId : string) (adapters : list RawAdapter)
  : list ProcessedAdapter :=
  flat_map
    (fun adapter =>
       if negb (validateRequiredFields (field adapter) ["adapter_name"; "adapter_type"]
                  "adapter processing")
       then []
       else
         match processIndividualAdapter adapter flowId with
         | Some processedAdapter => [processedAdapter]
         | None => []
         end)
    adapters.

End WithBuiltins.
End AdapterProcessor.

(** ** Recommendations of the processors *)
Record Recommendation : Type := mkRecommendation {
  recommendation_type : string;
  recommendation_message : string;
  recommendation_priority : string
}.

(** ** services/processing/errorHandlingProcessor.js

    The processed configuration.  An absent property is [None]; in
    [processed_transactionHandling] and in the four flags [None] is
    [null]. *)
Record ProcessedErrorSubprocess : Type := mkProcessedErrorSubprocess {
  processedSubprocess_id : string;
  processedSubprocess_name : string;
  processedSubprocess_type : string;
  processedSubprocess_classification : string;
  processedSubprocess_errorStartEvents : list ErrorStartEvent
}.

Record ProcessedTryCatchPattern : Type := mkProcessedTryCatchPattern {
  processedTryCatch_id : string;
  processedTryCatch_name : string;
  processedTryCatch_type : string;
  processedTryCatch_errorHandlingProps : list (string * string)
}.

Record ProcessedProcessDetail : Type := mkProcessedProcessDetail {
  processed_processName : string;
  processed_hasErrorHandling : bool;
  processed_errorSubprocesses : list ProcessedErrorSubprocess;
  processed_tryCatchPatterns : list ProcessedTryCatchPattern;
  processed_transactionHandling : option TransactionInfo
}.

Record ProcessedErrorHandlingDetails : Type := mkProcessedErrorHandlingDetails {
  processed_returnExceptionToSender : option bool;
  processed_logLevel : option string;
  processed_serverTrace : option bool;
  processed_processDetails : option (gmap string ProcessedProcessDetail)
}.

Record ProcessedErrorHandling : Type := mkProcessedErrorHandling {
  processed_detection_enabled : option bool;
  processed_logging_enabled : option bool;
  processed_classification_enabled : option bool;
  processed_reporting_enabled : option bool;
  processed_error_handling_details : ProcessedErrorHandlingDetails
}.

Module ErrorHandlingProcessor.
Import BaseProcessor.

(** The [map] over [process.errorSubprocesses] in [processProcessDetails]. *)
Definition processSubprocessOfProcess (subprocess : ErrorSubprocess) : ProcessedErrorSubprocess :=
  {| processedSubprocess_id := sanitizeString (errorSubprocess_id subprocess) (Some 100);
     processedSubprocess_name := sanitizeString (errorSubprocess_name subprocess) (Some 255);
     processedSubprocess_type :=
       sanitizeString (JStr (errorSubprocess_type subprocess)) (Some 100);
     processedSubprocess_classification :=
       sanitizeString (JStr (errorSubprocess_classification subprocess)) (Some 100);
     processedSubprocess_errorStartEvents := errorSubprocess_errorStartEvents subprocess |}.

(** The [map] over [process.tryCatchPatterns] in [processProcessDetails]. *)
Definition processPatternOfProcess (pattern : TryCatchPattern) : ProcessedTryCatchPattern :=
  {| processedTryCatch_id := sanitizeString (tryCatch_id pattern) (Some 100);
     processedTryCatch_name := sanitizeString (tryCatch_name pattern) (Some 255);
     processedTryCatch_type := sanitizeString (JStr (tryCatch_type pattern)) (Some 100);
     processedTryCatch_errorHandlingProps := tryCatch_errorHandlingProps pattern |}.

(** The body of the [forEach] of [processProcessDetails], for one entry as
    [extractProcessErrorHandling] builds it. *)
Definition processProcessDetail (process : ProcessErrorDetail) : ProcessedProcessDetail :=
  {| processed_processName := sanitizeString (detail_processName process) (Some 255);
     processed_hasErrorHandling := detail_hasErrorHandling process;
     processed_errorSubprocesses :=
       match detail_errorSubprocesses process with
       | Some errorSubprocesses => map processSubprocessOfProcess errorSubprocesses
       | None => []
       end;
     processed_tryCatchPatterns :=
       match detail_tryCatchPatterns process with
       | Some tryCatchPatterns => map processPatternOfProcess tryCatchPatterns
       | None => []
       end;
     processed_transactionHandling := detail_transactionHandling process |}.

(** [processProcessDetails(processDetails)]: one processed entry under
    each key of [Object.keys(processDetails)]. *)
Definition processProcessDetails (processDetails : gmap string ProcessErrorDetail)
  : gmap string ProcessedProcessDetail :=
  processProcessDetail <$> processDetails.

(** [processErrorHandlingDetails(details)], for the details object of
    [extractErrorHandling], which has neither [errorSubprocesses] nor
    [transactionHandling] at its top. *)
Definition processErrorHandlingDetails (details : ErrorHandlingDetails)
  : ProcessedErrorHandlingDetails :=
  {| processed_returnExceptionToSender := details_returnExceptionToSender details;
     processed_logLevel :=
       match details_logLevel details with
       | Some logLevel =>
           if Js.truthy logLevel then Some (sanitizeString logLevel (Some 100)) else None
       | None => None
       end;
     processed_serverTrace := details_serverTrace details;
     processed_processDetails := processProcessDetails <$> details_processDetails details |}.

(** [processErrorHandling(flowData, errorHandling)], for a configuration
    that [extractErrorHandling] returns; [flowId] is [flowData.id]. *)
Definition processErrorHandling (flowId : string) (errorHandling : ErrorHandling)
  : ProcessedErrorHandling :=
  {| processed_detection_enabled := ensureBoolean (JBool (detection_enabled errorHandling));
     processed_logging_enabled := ensureBoolean (JBool (logging_enabled errorHandling));
     processed_classification_enabled :=
       ensureBoolean (JBool (classification_enabled errorHandling));
     processed_reporting_enabled := ensureBoolean (JBool (reporting_enabled errorHandling));
     processed_error_handling_details :=
       processErrorHandlingDetails (error_handling_details errorHandling) |}.

(** [generateErrorHandlingRecommendations(errorHandling)], for a
    configuration with the properties that [extractErrorHandling] gives
    it. *)
Definition generateErrorHandlingRecommendations (errorHandling : ErrorHandling)
  : list Recommendation :=
  (if negb (detection_enabled errorHandling)
   then [mkRecommendation "improvement"
           "Consider enabling error detection for better error monitoring" "medium"]
   else [])
  ++
  (if negb (logging_enabled errorHandling)
   then [mkRecommendation "improvement"
           "Enable error logging for better troubleshooting capabilities" "high"]
   else [])
  ++
  (if detection_enabled errorHandling && negb (classification_enabled errorHandling)
   then [mkRecommendation "improvement"
           "Enable error classification to categorize different error types" "medium"]
   else [])
  ++
  (if negb (reporting_enabled errorHandling)
   then [mkRecommendation "improvement"
           "Consider enabling error reporting for better visibility" "low"]
   else [])
  ++
  (let details := error_handling_details errorHandling in
   (if bool_decide (details_returnExceptionToSender details = Some true)
    then [mkRecommendation "security"
            "Returning exceptions to sender may expose sensitive information" "high"]
    else [])
   ++
   (if bool_decide (details_serverTrace details = Some true)
    then [mkRecommendation "security"
            "Server trace is enabled which may expose sensitive data in traces" "medium"]
    else [])).

End ErrorHandlingProcessor.

(** ** services/processing/persistenceProcessor.js *)
Record PersistencePatterns : Type := mkPersistencePatterns {
  persistenceTypes : list string;
  complexity : string;
  transactional : bool;
  hasTemporaryStorage : bool;
  hasPermanentStorage : bool;
  dataFlowPattern : string
}.

(** The processed configuration.  An absent property is [None]; in the
    four flags [None] is [null]. *)
Record ProcessedJmsAdapter : Type := mkProcessedJmsAdapter {
  processedJms_name : string;
  processedJms_type : string;
  processedJms_properties : JsVal
}.

Record ProcessedMessagePersistence : Type := mkProcessedMessagePersistence {
  processedMessage_adapterName : string;
  processedMessage_componentType : string;
  processedMessage_enabled : bool;
  processedMessage_configuration : JsVal
}.

Record ProcessedDataStoreOperation : Type := mkProcessedDataStoreOperation {
  processedStore_adapterName : string;
  processedStore_componentType : string;
  processedStore_operation : string;
  processedStore_enabled : bool;
  processedStore_configuration : JsVal
}.

Record ProcessedDataStoreActivity : Type := mkProcessedDataStoreActivity {
  processedActivity_id : string;
  processedActivity_name : string;
  processedActivity_type : string;
  processedActivity_properties : list (string * string)
}.

Record ProcessedVariableOperation : Type := mkProcessedVariableOperation {
  processedVariable_id : string;
  processedVariable_name : string;
  processedVariable_type : string;
  processedVariable_operation : string
}.

Record ProcessedExternalCall : Type := mkProcessedExternalCall {
  processedCall_id : string;
  processedCall_name : string
}.

Record ProcessedPersistenceDetails : Type := mkProcessedPersistenceDetails {
  processed_jmsAdapters : list ProcessedJmsAdapter;
  processed_messagePersistence : list ProcessedMessagePersistence;
  processed_dataStoreOperations : list ProcessedDataStoreOperation;
  processed_dataStoreActivities : list ProcessedDataStoreActivity;
  processed_variableOperations : list ProcessedVariableOperation;
  processed_externalCalls : list ProcessedExternalCall;
  processed_transactionalHandling : option string;
  processed_processType : option string;
  processed_directCall : bool
}.

Record ProcessedPersistence : Type := mkProcessedPersistence {
  processed_jms_enabled : option bool;
  processed_data_store_enabled : option bool;
  processed_variables_enabled : option bool;
  processed_message_persistence_enabled : option bool;
  processed_persistence_details : ProcessedPersistenceDetails
}.

Module PersistenceProcessor.
Import BaseProcessor.

Section WithBuiltins.

Variable JSON_parse : string -> Exc JsVal.

(** [processJmsAdapters(jmsAdapters)] *)
Definition processJmsAdapters (jmsAdapters : list JmsAdapter) : list ProcessedJmsAdapter :=
  map (fun adapter =>
         {| processedJms_name := sanitizeString (jms_name adapter) (Some 255);
            processedJms_type := sanitizeString (JStr (jms_type adapter)) (Some 100);
            processedJms_properties :=
              validateJson JSON_parse (JObj (jms_properties adapter)) "JMS adapter properties" |})
      jmsAdapters.

(** [processMessagePersistence(messagePersistence)] *)
Definition processMessagePersistence (messagePersistence : list MessagePersistence)
  : list ProcessedMessagePersistence :=
  map (fun config =>
         {| processedMessage_adapterName :=
              sanitizeString (messagePersistence_adapterName config) (Some 255);
            processedMessage_componentType :=
              sanitizeString (JStr (messagePersistence_componentType config)) (Some 100);
            processedMessage_enabled := messagePersistence_enabled config;
            processedMessage_configuration :=
              validateJson JSON_parse (JObj (messagePersistence_configuration config))
                "message persistence config" |})
      messagePersistence.

(** [processDataStoreOperations(dataStoreOperations)] *)
Definition processDataStoreOperations (dataStoreOperations : list DataStoreOperation)
  : list ProcessedDataStoreOperation :=
  map (fun operation =>
         {| processedStore_adapterName := sanitizeString (dataStore_adapterName operation) (Some 255);
            processedStore_componentType :=
              sanitizeString (JStr (dataStore_componentType operation)) (Some 100);
            processedStore_operation :=
              sanitizeString (JStr (dataStore_operation operation)) (Some 100);
            processedStore_enabled := dataStore_enabled operation;
            processedStore_configuration :=
              validateJson JSON_parse (JObj (dataStore_configuration operation))
                "data store operation config" |})
      dataStoreOperations.

(** [prop.key] of an activity property as a value. *)
Definition keyValue (key : option string) : JsVal :=
  match key with
  | Some k => JStr k
  | None => JUndefined
  end.

(** [processDataStoreActivities(dataStoreActivities)] *)
Definition processDataStoreActivities (dataStoreActivities : list DataStoreActivity)
  : list ProcessedDataStoreActivity :=
  map (fun activity =>
         {| processedActivity_id := sanitizeString (activity_id activity) (Some 100);
            processedActivity_name := sanitizeString (activity_name activity) (Some 255);
            processedActivity_type := sanitizeString (JStr (activity_type activity)) (Some 100);
            processedActivity_properties :=
              map (fun prop => (sanitizeString (keyValue prop.1) (Some 100),
                                sanitizeString (JStr prop.2) (Some 500)))
                  (activity_properties activity) |})
      dataStoreActivities.

(** [processVariableOperations(variableOperations)] *)
Definition processVariableOperations (variableOperations : list VariableOperation)
  : list ProcessedVariableOperation :=
  map (fun operation =>
         {| processedVariable_id := sanitizeString (variable_id operation) (Some 100);
            processedVariable_name := sanitizeString (variable_name operation) (Some 255);
            processedVariable_type := sanitizeString (JStr (variable_type operation)) (Some 100);
            processedVariable_operation :=
              sanitizeString (JStr (variable_operation operation)) (Some 255) |})
      variableOperations.

(** [processExternalCalls(externalCalls)] *)
Definition processExternalCalls (externalCalls : list ExternalCall) : list ProcessedExternalCall :=
  map (fun call =>
         {| processedCall_id := sanitizeString (call_id call) (Some 100);
            processedCall_name := sanitizeString (call_name call) (Some 255) |})
      externalCalls.

(** [if (details.name) processed.name = sanitizeString(details.name, 100)] *)
Definition sanitizedWhenTruthy (value : JsVal) : option string :=
  if Js.truthy value then Some (sanitizeString value (Some 100)) else None.

(** [processPersistenceDetails(details)], for the details object of
    [extractPersistence], whose six lists are arrays. *)
Definition processPersistenceDetails (details : PersistenceDetails)
  : ProcessedPersistenceDetails :=
  {| processed_jmsAdapters := processJmsAdapters (jmsAdapters details);
     processed_messagePersistence := processMessagePersistence (messagePersistence details);
     processed_dataStoreOperations := processDataStoreOperations (dataStoreOperations details);
     processed_dataStoreActivities := processDataStoreActivities (dataStoreActivities details);
     processed_variableOperations := processVariableOperations (variableOperations details);
     processed_externalCalls := processExternalCalls (externalCalls details);
     processed_transactionalHandling :=
       sanitizedWhenTruthy (details_transactionalHandling details);
     processed_processType := sanitizedWhenTruthy (details_processType details);
     processed_directCall := details_directCall details |}.

(** [processPersistence(flowData, persistence)], for a configuration that
    [extractPersistence] returns; [flowId] is [flowData.id]. *)
Definition processPersistence (flowId : string) (persistence : Persistence)
  : ProcessedPersistence :=
  {| processed_jms_enabled := ensureBoolean (JBool (jms_enabled persistence));
     processed_data_store_enabled := ensureBoolean (JBool (data_store_enabled persistence));
     processed_variables_enabled := ensureBoolean (JBool (variables_enabled persistence));
     processed_message_persistence_enabled :=
       ensureBoolean (JBool (message_persistence_enabled persistence));
     processed_persistence_details :=
       processPersistenceDetails (persistence_details persistence) |}.

End WithBuiltins.

(** [extractPersistencePatterns(flowData)], for any value [flowData]. *)
Definition extractPersistencePatterns (flowData : JsVal) : PersistencePatterns :=
  if negb (Js.truthy flowData) || negb (Js.truthy (Js.optGet flowData "persistence_details"))
  then {| persistenceTypes := [];
          complexity := "Low";
          transactional := false;
          hasTemporaryStorage := false;
          hasPermanentStorage := false;
          dataFlowPattern := "Stateless" |}
  else
    let details := Js.optGet flowData "persistence_details" in
    let jms := Js.truthy (Js.optGet flowData "jms_enabled") in
    let dataStore := Js.truthy (Js.optGet flowData "data_store_enabled") in
    let variables := Js.truthy (Js.optGet flowData "variables_enabled") in
    let messagePersistence := Js.truthy (Js.optGet flowData "message_persistence_enabled") in
    let transactionalHandling := Js.optGet details "transactionalHandling" in
    let isTransactional :=
      Js.truthy transactionalHandling && negb (Js.strictEqStr transactionalHandling "None") in
    let types :=
      (if jms then ["JMS"] else []) ++
      (if dataStore then ["Data Store"] else []) ++
      (if variables then ["Variables"] else []) ++
      (if messagePersistence then ["Message Persistence"] else []) ++
      (if isTransactional then ["Transactional"] else []) in
    let permanent := jms || messagePersistence in
    let temporary := dataStore || variables in
    let typeCount := length types in
    {| persistenceTypes := types;
       complexity :=
         if (typeCount =? 0)%nat then "None"
         else if (typeCount =? 1)%nat then "Low"
         else if (typeCount <=? 2)%nat then "Medium"
         else "High";
       transactional := isTransactional;
       hasTemporaryStorage := temporary;
       hasPermanentStorage := permanent;
       dataFlowPattern :=
         if permanent && temporary then "Hybrid Persistence"
         else if permanent then "Persistent Storage"
         else if temporary then "Temporary Storage"
         else if (typeCount =? 0)%nat then "Stateless"
         else if (typeCount =? 1)%nat then "Simple Stateful"
         else if (typeCount <=? 2)%nat then "Stateful"
         else "Complex Stateful" |}.

(** [generatePersistenceRecommendations(persistence)], for a configuration
    with the properties that [extractPersistence] gives it. *)
Definition generatePersistenceRecommendations (persistence : Persistence)
  : list Recommendation :=
  let details := persistence_details persistence in
  (if jms_enabled persistence && data_store_enabled persistence
   then [mkRecommendation "performance"
           "Multiple persistence mechanisms may impact performance" "medium"]
   else [])
  ++
  (if details_directCall details && message_persistence_enabled persistence
   then [mkRecommendation "design"
           "Direct call processes typically do not need message persistence" "low"]
   else [])
  ++
  (if (jms_enabled persistence || message_persistence_enabled persistence) &&
      (negb (Js.truthy (details_transactionalHandling details)) ||
       Js.strictEqStr (details_transactionalHandling details) "None")
   then [mkRecommendation "reliability"
           "Consider enabling transactional handling for persistent operations" "high"]
   else [])
  ++
  (if (0 <? length (dataStoreOperations details))%nat && negb (data_store_enabled persistence)
   then [mkRecommendation "configuration"
           "Data store operations found but data store not enabled" "high"]
   else [])
  ++
  (if jms_enabled persistence || data_store_enabled persistence ||
      message_persistence_enabled persistence
   then [mkRecommendation "security"
           "Ensure sensitive data is encrypted when using persistence mechanisms" "high"]
   else []).

End PersistenceProcessor.

(** ** The archive unpacker of services/xmlExtraction/baseExtractor.js

    [extractXmlFromZip] writes two files under the housekeeping directory.
    The file system is a state: a set of directories and the files written
    so far; [writeFileSync] throws when the directory of the path is not
    there.  The zip reader (adm-zip) and the XML parser (xml2js) are
    libraries, taken as functions of their input. *)
Inductive FileData : Type :=
| BufferData (bytes : list Byte.byte)
| TextData (text : string).

Record FileSystem : Type := mkFileSystem {
  fs_directories : gset string;
  fs_files : gmap string FileData
}.

Record ZipEntry : Type := mkZipEntry {
  entryName : string;
  entryData : list Byte.byte
}.

Module Fs.

Fixpoint dirnameUpToSlash (path : string) : option string :=
  match path with
  | EmptyString => None
  | String c rest =>
      match dirnameUpToSlash rest with
      | Some d => Some (String c d)
      | None => if Ascii.eqb c "/" then Some EmptyString else None
      end
  end.

(** The directory part of a path: what stands before its last slash. *)
Definition dirname (path : string) : string :=
  match dirnameUpToSlash path with
  | Some EmptyString => "/"
  | Some d => d
  | None => "."
  end.

(** [fs.writeFileSync(path, data)] *)
Definition writeFileSync (path : string) (data : FileData) (fs : FileSystem) : Exc FileSystem :=
  if bool_decide (dirname path ∈ fs_directories fs)
  then Return {| fs_directories := fs_directories fs;
                 fs_files := <[path := data]> (fs_files fs) |}
  else Throw ("ENOENT: no such file or directory, open '" +:+ path +:+ "'").

End Fs.

Module ArchiveUnpacker.

Section WithLibraries.

(** [this.housekeepingDir], read from the environment by the constructor. *)
Variable housekeepingDir : string.
(** [new AdmZip(zipBuffer)] followed by [zip.getEntries()]. *)
Variable AdmZip : list Byte.byte -> Exc (list ZipEntry).
(** [zip.readAsText(entry)] *)
Variable readAsText : ZipEntry -> Exc string.
(** [parseXml(xml)], the promise awaited; [Throw] is its rejection. *)
Variable parseXml : string -> Exc ParsedXml.

(** [extractXmlFromZip(zipBuffer, flowId)]: the parsed document, or [None]
    for [null], and the file system it leaves. *)
Definition extractXmlFromZip (zipBuffer : list Byte.byte) (flowId : string) (fs : FileSystem)
  : option ParsedXml * FileSystem :=
  let zipPath := housekeepingDir +:+ "/" +:+ flowId +:+ ".zip" in
  match Fs.writeFileSync zipPath (BufferData zipBuffer) fs with
  | Throw _ => (None, fs)
  | Return fs1 =>
      match AdmZip zipBuffer with
      | Throw _ => (None, fs1)
      | Return zipEntries =>
          match List.find (fun entry => JsString.endsWith (entryName entry) ".iflw") zipEntries with
          | None => (None, fs1)
          | Some iflwEntry =>
              match readAsText iflwEntry with
              | Throw _ => (None, fs1)
              | Return xmlContent =>
                  let xmlPath := housekeepingDir +:+ "/" +:+ flowId +:+ ".iflw" in
                  match Fs.writeFileSync xmlPath (TextData xmlContent) fs1 with
                  | Throw _ => (None, fs1)
                  | Return fs2 =>
                      match parseXml xmlContent with
                      | Throw _ => (None, fs2)
                      | Return parsedXml => (Some parsedXml, fs2)
                      end
                  end
              end
          end
      end
  end.

End WithLibraries.
End ArchiveUnpacker.

(** ** The pipeline of services/dataSyncService.js for one artifact

    Unpack and parse, then the four extractors on the parsed document and
    the four processors on what the extractors return; an artifact without
    a parsed document is skipped. *)
Record PipelineOutput : Type := mkPipelineOutput {
  output_adapters : list Adapter;
  output_securityMechanisms : list SecurityMechanism;
  output_errorHandling : ErrorHandling;
  output_persistence : Persistence;
  output_processedSecurity : list SecurityMechanism;
  output_processedAdapters : list ProcessedAdapter;
  output_processedErrorHandling : ProcessedErrorHandling;
  output_processedPersistence : ProcessedPersistence
}.

Module Pipeline.

Section WithLibraries.

Variable housekeepingDir : string.
Variable AdmZip : list Byte.byte -> Exc (list ZipEntry).
Variable readAsText : ZipEntry -> Exc string.
Variable parseXml : string -> Exc ParsedXml.
Variable JSON_stringify : JsVal -> string.
Variable JSON_parse : string -> Exc JsVal.

Definition extractAll (parsedXml : ParsedXml) (flowId : string) : PipelineOutput :=
  let adapters := (AdapterExtractor.extractAdapters JSON_stringify (Some parsedXml) flowId).2 in
  let securityMechanisms := SecurityExtractor.extractSecurity (Some parsedXml) flowId in
  let errorHandling := ErrorHandlingExtractor.extractErrorHandling (Some parsedXml) flowId in
  let persistence := PersistenceExtractor.extractPersistence (Some parsedXml) flowId in
  {| output_adapters := adapters;
     output_securityMechanisms := securityMechanisms;
     output_errorHandling := errorHandling;
     output_persistence := persistence;
     output_processedSecurity :=
       SecurityProcessor.processSecurityMechanisms JSON_parse flowId securityMechanisms;
     output_processedAdapters :=
       AdapterProcessor.processAdapters JSON_parse flowId
         (map AdapterProcessor.rawAdapter adapters);
     output_processedErrorHandling :=
       ErrorHandlingProcessor.processErrorHandling flowId errorHandling;
     output_processedPersistence :=
       PersistenceProcessor.processPersistence JSON_parse flowId persistence |}.

Definition run (zipBuffer : list Byte.byte) (flowId : string) (fs : FileSystem)
  : option PipelineOutput * FileSystem :=
  let '(parsedXml, fs') :=
    ArchiveUnpacker.extractXmlFromZip housekeepingDir AdmZip readAsText parseXml zipBuffer flowId fs in
  match parsedXml with
  | Some doc => (Some (extractAll doc flowId), fs')
  | None => (None, fs')
  end.

End WithLibraries.
End Pipeline.

(** ** The older extractor of services/dataFetchService.js

    [extractSecurityFromXml] as it stood before the extractors were split
    into modules (the file with the HTTP client, [extractXmlFromZip] and
    [extractAdaptersFromXml]); the modular service delegates to
    [SecurityExtractor.extractSecurity] instead. *)
Module LegacyDataFetchService.
Import BaseXmlExtractor.

(** The [existingClientCert] search on the mechanisms pushed so far. *)
Definition existingClientCert (securityMechanisms : list SecurityMechanism) (adapterName : JsVal)
  : option SecurityMechanism :=
  List.find
    (fun sm =>
       Js.strictEqStr (mechanism_name sm) (Js.toStr adapterName +:+ "_Client Certificate") ||
       Js.strictEqStr (mechanism_name sm) (Js.toStr adapterName +:+ "_ClientCertificate"))
    securityMechanisms.

(** The body of [messageFlows.forEach]: [securityMechanisms] after the
    message flow has been looked at. *)
Definition messageFlowSecurity (securityMechanisms : list SecurityMechanism)
    (flow : MessageFlow) (index : nat) (flowId : string) : list SecurityMechanism :=
  match flow_extensionElements flow with
  | None => securityMechanisms
  | Some extensionElements =>
      let properties := propertiesOf extensionElements in
      let flowDirection := JsString.orElse (getPropertyValue properties "direction") "Unknown" in
      let adapterName := adapterNameOf properties flow index in
      let componentType := JsString.orElse (getPropertyValue properties "ComponentType") "Unknown" in
      let authMethod :=
        if JsString.eqb flowDirection "Sender" then getPropertyValue properties "senderAuthType"
        else if JsString.eqb flowDirection "Receiver" then getPropertyValue properties "authenticationMethod"
        else "" in
      let s1 :=
        if JsString.truthy authMethod && negb (JsString.eqb authMethod "None")
        then securityMechanisms ++
             [ {| mechanism_name := JStr (Js.toStr adapterName +:+ "_" +:+ authMethod);
                  mechanism_type := JStr (SecurityExtractor.authMechanismType authMethod);
                  direction :=
                    JStr (if JsString.eqb flowDirection "Sender" then "Inbound" else "Outbound");
                  configuration :=
                    JObj (SecurityExtractor.collectSecurityConfiguration properties) |} ]
        else securityMechanisms in
      let s2 :=
        if JsString.eqb (getPropertyValue properties "isCSRFEnabled") "true"
        then s1 ++
             [ {| mechanism_name := JStr (Js.toStr adapterName +:+ "_CSRF");
                  mechanism_type := JStr "CSRF Protection";
                  direction := JStr "Outbound";
                  configuration := JObj [("csrfEnabled", JBool true);
                                         ("componentType", JStr componentType)] |} ]
        else s1 in
      let privateKeyAlias :=
        JsString.orElse (getPropertyValue properties "privateKeyAlias")
                        (getPropertyValue properties "odataCertAuthPrivateKeyAlias") in
      let s3 :=
        if JsString.truthy privateKeyAlias && JsString.eqb flowDirection "Receiver"
        then
          match existingClientCert s2 adapterName with
          | Some _ => s2
          | None =>
              s2 ++
              [ {| mechanism_name := JStr (Js.toStr adapterName +:+ "_ClientCert");
                   mechanism_type := JStr "Client Certificate";
                   direction := JStr "Outbound";
                   configuration := JObj [("privateKeyAlias", JStr privateKeyAlias);
                                          ("certificateAuthentication", JBool true);
                                          ("componentType", JStr componentType)] |} ]
          end
        else s2 in
      let s4 :=
        if JsString.eqb (getPropertyValue properties "xsrfProtection") "0" &&
           JsString.eqb flowDirection "Sender"
        then s3 ++
             [ {| mechanism_name := JStr (Js.toStr adapterName +:+ "_XSRF_Disabled");
                  mechanism_type := JStr "XSRF Protection";
                  direction := JStr "Inbound";
                  configuration := JObj [("xsrfProtection", JBool false);
                                         ("componentType", JStr componentType)] |} ]
        else s3 in
      let userRole := getPropertyValue properties "userRole" in
      if JsString.truthy userRole && JsString.eqb flowDirection "Sender"
      then s4 ++
           [ {| mechanism_name := JStr (Js.toStr adapterName +:+ "_Authorization");
                mechanism_type := JStr "Role-Based Authorization";
                direction := JStr "Inbound";
                configuration := JObj [("userRole", JStr userRole);
                                       ("componentType", JStr componentType)] |} ]
      else s4
  end.

Fixpoint forEachFlow (securityMechanisms : list SecurityMechanism) (flows : list MessageFlow)
    (index : nat) (flowId : string) : list SecurityMechanism :=
  match flows with
  | [] => securityMechanisms
  | flow :: rest =>
      forEachFlow (messageFlowSecurity securityMechanisms flow index flowId) rest (S index) flowId
  end.

(** What one collaboration property pushes. *)
Definition collaborationPropertySecurity (prop : IflProperty) (flowId : string)
  : list SecurityMechanism :=
  if Xml.hasKey prop
  then
    let key := Xml.keyOf prop in
    let value := Xml.valueOf prop in
    (if JsString.eqb key "corsEnabled" && Js.strictEqStr value "true"
     then [ {| mechanism_name := JStr (flowId +:+ "_CORS");
               mechanism_type := JStr "CORS";
               direction := JStr "Inbound";
               configuration := JObj [("corsEnabled", JBool true)] |} ]
     else [])
    ++
    (if JsString.eqb key "returnExceptionToSender"
     then [ {| mechanism_name := JStr (flowId +:+ "_ExceptionHandling");
               mechanism_type := JStr "Exception Handling";
               direction := JStr "Inbound";
               configuration :=
                 JObj [("returnExceptionToSender", JBool (Js.strictEqStr value "true"));
                       ("securityImplication",
                        JStr (if Js.strictEqStr value "false"
                              then "Prevents information disclosure"
                              else "May expose internal errors"))] |} ]
     else [])
  else [].

(** [extractSecurityFromXml(parsedXml, flowId)] *)
Definition extractSecurityFromXml (parsedXml : option ParsedXml) (flowId : string)
  : list SecurityMechanism :=
  match parsedXml ≫= bpmn2_definitions with
  | None => []
  | Some definitions =>
      match definitions_collaboration definitions with
      | None => []
      | Some collaboration =>
          let messageFlows := Xml.toArray (collaboration_messageFlow collaboration) in
          forEachFlow [] messageFlows 0 flowId
          ++ flat_map (fun prop => collaborationPropertySecurity prop flowId)
                      (Xml.propsArrayOf (collaboration_extensionElements collaboration))
      end
  end.

End LegacyDataFetchService.

(** ** Sample documents *)
Module Samples.

Definition property (key value : string) : IflProperty :=
  {| prop_key := Some {| charData := Some key |};
     prop_value := Some {| charData := Some value |} |}.

Definition flowWith (properties : list IflProperty) : MessageFlow :=
  {| flow_id := None;
     flow_name := None;
     flow_extensionElements := Some {| ifl_property := Several properties |} |}.

Definition document (collaborationProperties : list IflProperty) (flows : list MessageFlow)
  : option ParsedXml :=
  Some {| bpmn2_definitions :=
            Some {| definitions_collaboration :=
                      Some {| collaboration_extensionElements :=
                                Some {| ifl_property := Several collaborationProperties |};
                              collaboration_messageFlow := Several flows |};
                    definitions_process := Absent |} |}.

(** A sender with basic authentication. *)
Definition senderBasic : MessageFlow :=
  flowWith [property "Name" "HTTPS_IN"; property "direction" "Sender";
            property "senderAuthType" "BasicAuthentication"].

(** A sender whose authentication type is the literal None. *)
Definition senderNone : MessageFlow :=
  flowWith [property "Name" "HTTPS_IN"; property "direction" "Sender";
            property "senderAuthType" "None"].

(** A receiver with client-certificate authentication and a key alias. *)
Definition receiverCertificate : MessageFlow :=
  flowWith [property "Name" "ODATA_OUT"; property "direction" "Receiver";
            property "authenticationMethod" "ClientCertificate";
            property "privateKeyAlias" "key1"].

(** A JMS adapter with a queue name. *)
Definition jmsFlow : MessageFlow :=
  flowWith [property "ComponentType" "JMS"; property "queueName" "orders.q"].

(** A fragment that names neither component type nor direction. *)
Definition unknownFlow : MessageFlow :=
  flowWith [property "ComponentType" "Unknown"; property "direction" "Unknown"].

(** Collaboration properties as an integration flow carries them. *)
Definition collaborationSettings : list IflProperty :=
  [property "returnExceptionToSender" "true"; property "log" "All events";
   property "ServerTrace" "true"].

(** A raw mechanism whose name is the number 42. *)
Definition numericName : SecurityMechanism :=
  {| mechanism_name := JNum 42;
     mechanism_type := JStr "OAuth";
     direction := JStr "Inbound";
     configuration := JUndefined |}.

Definition inboundNamed (name : string) : SecurityMechanism :=
  {| mechanism_name := JStr name;
     mechanism_type := JStr "OAuth";
     direction := JStr "Inbound";
     configuration := JObj [] |}.

Definition outboundNamed (name : string) : SecurityMechanism :=
  {| mechanism_name := JStr name;
     mechanism_type := JStr "OAuth";
     direction := JStr "Outbound";
     configuration := JObj [] |}.

Definition emptyFileSystem (directory : string) : FileSystem :=
  {| fs_directories := {[ directory ]}; fs_files := ∅ |}.

(** A subprocess whose extension elements hold the one property given. *)
Definition subProcessWith (property : IflProperty) : SubProcess :=
  {| subProcess_id := None;
     subProcess_name := None;
     subProcess_extensionElements := Some {| ifl_property := Single property |};
     subProcess_startEvent := Absent;
     subProcess_endEvent := Absent |}.

(** A process with the subprocesses and the properties given. *)
Definition processWith (subProcesses : Child SubProcess) (properties : list IflProperty)
  : Process :=
  {| process_id := None;
     process_name := None;
     process_extensionElements := Some {| ifl_property := Several properties |};
     process_subProcess := subProcesses;
     process_scriptTask := Absent;
     process_serviceTask := Absent;
     process_callActivity := Absent |}.

(** An attribute without a namespace prefix. *)
Definition attribute (name value : string) : Attr :=
  {| attr_name := name; attr_value := value; attr_prefix := ""; attr_local := name;
     attr_uri := "" |}.

(** A process with an [id] and the properties given. *)
Definition processNamed (id : string) (properties : list IflProperty) : Process :=
  {| process_id := Some (attribute "id" id);
     process_name := None;
     process_extensionElements := Some {| ifl_property := Several properties |};
     process_subProcess := Absent;
     process_scriptTask := Absent;
     process_serviceTask := Absent;
     process_callActivity := Absent |}.

(** A document that holds processes only. *)
Definition processDocument (processes : list Process) : option ParsedXml :=
  Some {| bpmn2_definitions :=
            Some {| definitions_collaboration := None;
                    definitions_process := Several processes |} |}.

(** An archive with a text file and an integration-flow definition. *)
Definition archiveEntries : list ZipEntry :=
  [ {| entryName := "META-INF/MANIFEST.MF"; entryData := [] |};
    {| entryName := "src/main/resources/scenarioflows/integrationflow/flow.iflw";
       entryData := [] |} ].

(** A document without definitions. *)
Definition emptyDocument : ParsedXml := {| bpmn2_definitions := None |}.

(** A parsed integration flow: a sender with basic authentication, a JMS
    adapter and one process with transaction handling. *)
Definition integrationFlow : ParsedXml :=
  {| bpmn2_definitions :=
       Some {| definitions_collaboration :=
                 Some {| collaboration_extensionElements := None;
                         collaboration_messageFlow := Several [senderBasic; jmsFlow] |};
               definitions_process :=
                 Single (processNamed "Process_1"
                           [property "transactionalHandling" "Required"]) |} |}.

End Samples.

(** ** Vocabulary of the properties *)
Module Vocabulary.

(** The properties of a message-flow fragment; none without extension
    elements. *)
Definition flowProperties (flow : MessageFlow) : list IflProperty :=
  match flow_extensionElements flow with
  | Some ext => BaseXmlExtractor.propertiesOf ext
  | None => []
  end.

(** A property is absent (or empty) or equal to Unknown. *)
Definition unknownOrAbsent (properties : list IflProperty) (key : string) : Prop :=
  BaseXmlExtractor.getPropertyValue properties key = "" \/
  BaseXmlExtractor.getPropertyValue properties key = "Unknown".

(** Both [ComponentType] and [direction] are absent or Unknown. *)
Definition insufficient (flow : MessageFlow) : Prop :=
  unknownOrAbsent (flowProperties flow) "ComponentType" /\
  unknownOrAbsent (flowProperties flow) "direction".

(** The log line that tells why a fragment gave no adapter. *)
Definition skipReason (flow : MessageFlow) : LogEntry :=
  match flow_extensionElements flow with
  | Some ext =>
      mkLog LogWarn "Skipping adapter due to missing ComponentType and direction"
        (AdapterExtractor.availableKeys (BaseXmlExtractor.propertiesOf ext))
  | None => mkLog LogDebug "No extensionElements found in message flow" []
  end.

(** No boolean of [before] that is true is false in [after]. *)
Definition raises (before after : Persistence) : Prop :=
  (jms_enabled before = true -> jms_enabled after = true) /\
  (data_store_enabled before = true -> data_store_enabled after = true) /\
  (variables_enabled before = true -> variables_enabled after = true) /\
  (message_persistence_enabled before = true -> message_persistence_enabled after = true).

(** Every list of [after] starts with the list of [before]. *)
Definition extends (before after : PersistenceDetails) : Prop :=
  jmsAdapters before `prefix_of` jmsAdapters after /\
  messagePersistence before `prefix_of` messagePersistence after /\
  dataStoreOperations before `prefix_of` dataStoreOperations after /\
  dataStoreActivities before `prefix_of` dataStoreActivities after /\
  variableOperations before `prefix_of` variableOperations after /\
  externalCalls before `prefix_of` externalCalls after.

(** The pair that the deduplication is said to go by. *)
Definition nameAndDirection (m : SecurityMechanism) : JsVal * JsVal :=
  (mechanism_name m, direction m).

(** A record as the extractors and the processor produce it: the name is a
    string and the direction is Inbound or Outbound. *)
Definition wellFormed (m : SecurityMechanism) : Prop :=
  (exists name, mechanism_name m = JStr name) /\
  (direction m = JStr "Inbound" \/ direction m = JStr "Outbound").

(** A security record as the extractors emit it: name and type are
    non-empty strings, the direction is Inbound or Outbound and the
    configuration is an object. *)
Definition extractedShape (m : SecurityMechanism) : Prop :=
  (exists name, mechanism_name m = JStr name /\ name <> "") /\
  (exists type, mechanism_type m = JStr type /\ type <> "") /\
  (direction m = JStr "Inbound" \/ direction m = JStr "Outbound") /\
  (exists c, configuration m = JObj c).

(** A security record as the processor returns it: the name is a string of
    at most 255 code units, the type is a string of at most 100 code units
    or a member of [Object.prototype], the direction is Inbound or Outbound
    and the configuration is an object. *)
Definition processedShape (m : SecurityMechanism) : Prop :=
  (exists name, mechanism_name m = JStr name /\ String.length name <= 255) /\
  match mechanism_type m with
  | JStr t => String.length t <= 100
  | JBuiltin _ => True
  | _ => False
  end /\
  (direction m = JStr "Inbound" \/ direction m = JStr "Outbound") /\
  (exists c, configuration m = JObj c).

(** Name, type and direction of a security record. *)
Definition summary (m : SecurityMechanism) : JsVal * JsVal * JsVal :=
  (mechanism_name m, mechanism_type m, direction m).

(** An adapter record as the extractor emits it. *)
Definition adapterShape (adapter : Adapter) : Prop :=
  Js.truthy (adapter_name adapter) = true /\
  adapter_type adapter <> "" /\
  adapter_category adapter <> "" /\
  ~ (adapter_type adapter = "Unknown" /\ adapter_category adapter = "Unknown") /\
  adapter_direction adapter = adapter_category adapter /\
  metadata_name (configuration_resourceMetadata (adapter_configuration adapter))
  = adapter_name adapter /\
  metadata_componentType (configuration_resourceMetadata (adapter_configuration adapter))
  = adapter_type adapter /\
  metadata_cmdVariantUri (configuration_resourceMetadata (adapter_configuration adapter)) <> "".

(** An adapter record as the processor returns it: every string within the
    bound that the processor gives to [sanitizeString]. *)
Definition processedAdapterShape (adapter : ProcessedAdapter) : Prop :=
  String.length (processed_adapter_name adapter) <= 255 /\
  String.length (processed_adapter_type adapter) <= 100 /\
  String.length (processed_adapter_category adapter) <= 100 /\
  String.length (processed_direction adapter) <= 50.

(** The extension elements of a subprocess hold exactly one property. *)
Definition singleProperty (subProcess : SubProcess) : Prop :=
  exists ext prop,
    subProcess_extensionElements subProcess = Some ext /\ ifl_property ext = Single prop.

(** A process with its subprocesses replaced. *)
Definition withSubProcesses (process : Process) (subProcesses : list SubProcess) : Process :=
  {| process_id := process_id process;
     process_name := process_name process;
     process_extensionElements := process_extensionElements process;
     process_subProcess := Several subProcesses;
     process_scriptTask := process_scriptTask process;
     process_serviceTask := process_serviceTask process;
     process_callActivity := process_callActivity process |}.

(** The test of the partial-match loop of [normalizeSecurityType]: the
    trimmed type contains the key or the key contains it, letter case
    aside. *)
Definition matchesKey (sanitized key : string) : bool :=
  JsString.includes (JsString.toLowerCase sanitized) (JsString.toLowerCase key) ||
  JsString.includes (JsString.toLowerCase key) (JsString.toLowerCase sanitized).

(** The name and the direction of a record are strings, as the data model
    has them. *)
Definition stringKeyed (m : SecurityMechanism) : Prop :=
  (exists name, mechanism_name m = JStr name) /\ (exists d, direction m = JStr d).

(** The code units of a string. *)
Fixpoint units (s : string) : list ascii :=
  match s with
  | EmptyString => []
  | String c s' => c :: units s'
  end.

(** An upper-case letter A-Z. *)
Definition isUpper (c : ascii) : bool :=
  ((65 <=? JsString.code c) && (JsString.code c <=? 90))%nat.

End Vocabulary.

(** * Properties *)

(** ** Strings and objects *)
Lemma eqb_true (a b : string) : JsString.eqb a b = true <-> a = b.
Proof. unfold JsString.eqb. apply bool_decide_eq_true. Qed.

Lemma eqb_false (a b : string) : JsString.eqb a b = false <-> a <> b.
Proof. unfold JsString.eqb. apply bool_decide_eq_false. Qed.

Lemma eqb_refl (a : string) : JsString.eqb a a = true.
Proof. by apply eqb_true. Qed.

Lemma truthy_true (s : string) : JsString.truthy s = true <-> s <> "".
Proof.
  unfold JsString.truthy. rewrite negb_true_iff. apply eqb_false.
Qed.

Lemma truthy_false (s : string) : JsString.truthy s = false <-> s = "".
Proof.
  unfold JsString.truthy. rewrite negb_false_iff. apply eqb_true.
Qed.

Lemma orElse_truthy (a b : string) : a <> "" -> JsString.orElse a b = a.
Proof. intros H. unfold JsString.orElse. by rewrite (proj2 (truthy_true a) H). Qed.

Lemma orElse_empty (b : string) : JsString.orElse "" b = b.
Proof. reflexivity. Qed.

(** ** The message flows of a document *)
Lemma getMessageFlows_definitions (parsedXml : option ParsedXml) (i : nat) (flow : MessageFlow) :
  BaseXmlExtractor.getMessageFlows parsedXml !! i = Some flow ->
  exists definitions, parsedXml ≫= bpmn2_definitions = Some definitions.
Proof.
  destruct parsedXml as [root|]; simpl; [|done].
  destruct (bpmn2_definitions root) as [d|]; simpl; [eauto|done].
Qed.

Lemma getMessageFlows_nil_collaboration (parsedXml : option ParsedXml) :
  parsedXml ≫= bpmn2_definitions = None ->
  BaseXmlExtractor.getMessageFlows parsedXml = [] /\
  BaseXmlExtractor.getCollaborationProperties parsedXml = [].
Proof.
  destruct parsedXml as [root|]; simpl; [|done].
  destruct (bpmn2_definitions root); simpl; [done|done].
Qed.

Lemma security_forEachFlow_elem (flowId : string) (flows : list MessageFlow) :
  forall (index i : nat) (flow : MessageFlow) (m : SecurityMechanism),
    flows !! i = Some flow ->
    m ∈ SecurityExtractor.messageFlowSecurity flow (index + i) flowId ->
    m ∈ SecurityExtractor.forEachFlow flows index flowId.
Proof.
  induction flows as [|f rest IH]; intros index i flow m Hi Hm; [done|].
  simpl. apply elem_of_app. destruct i as [|i]; simpl in Hi.
  - left. injection Hi as ->. by rewrite Nat.add_0_r in Hm.
  - right. apply (IH (S index) i flow m Hi).
    by replace (S index + i) with (index + S i) by lia.
Qed.

(** ** Security extraction from message flows *)
Section DirectionInversion.
Import BaseXmlExtractor SecurityExtractor.

Lemma authentication_record (authMethod : string) (adapterName : JsVal)
    (dir componentType : string) (properties : list IflProperty) (flowId : string) :
  authMethod <> "" -> authMethod <> "None" ->
  exists c,
    processAuthenticationMechanism authMethod adapterName dir componentType properties flowId =
    [ {| mechanism_name := JStr (Js.toStr adapterName +:+ "_" +:+ authMethod);
         mechanism_type := JStr (authMechanismType authMethod);
         direction := JStr (if JsString.eqb dir "Sender" then "Inbound" else "Outbound");
         configuration := JObj c |} ].
Proof.
  intros Hne Hnone. unfold processAuthenticationMechanism.
  rewrite (proj2 (truthy_true _) Hne), (proj2 (eqb_false _ _) Hnone). simpl. eauto.
Qed.

Lemma messageFlowSecurity_sender (flow : MessageFlow) (i : nat) (flowId : string)
    (ext : ExtensionElements) :
  flow_extensionElements flow = Some ext ->
  getPropertyValue (propertiesOf ext) "direction" = "Sender" ->
  messageFlowSecurity flow i flowId =
  let properties := propertiesOf ext in
  let adapterName := BaseXmlExtractor.adapterNameOf properties flow i in
  let componentType := JsString.orElse (getPropertyValue properties "ComponentType") "Unknown" in
  processAuthenticationMechanism (getPropertyValue properties "senderAuthType")
    adapterName "Sender" componentType properties flowId
  ++ processAdditionalSecurity properties adapterName "Sender" componentType flowId.
Proof.
  intros Hext Hdir. unfold messageFlowSecurity. rewrite Hext. cbv zeta. rewrite Hdir.
  reflexivity.
Qed.

Lemma messageFlowSecurity_receiver (flow : MessageFlow) (i : nat) (flowId : string)
    (ext : ExtensionElements) :
  flow_extensionElements flow = Some ext ->
  getPropertyValue (propertiesOf ext) "direction" = "Receiver" ->
  messageFlowSecurity flow i flowId =
  let properties := propertiesOf ext in
  let adapterName := BaseXmlExtractor.adapterNameOf properties flow i in
  let componentType := JsString.orElse (getPropertyValue properties "ComponentType") "Unknown" in
  processAuthenticationMechanism (getPropertyValue properties "authenticationMethod")
    adapterName "Receiver" componentType properties flowId
  ++ processAdditionalSecurity properties adapterName "Receiver" componentType flowId.
Proof.
  intros Hext Hdir. unfold messageFlowSecurity. rewrite Hext. cbv zeta. rewrite Hdir.
  reflexivity.
Qed.

(** C1, amended.  A message-flow fragment whose [direction] property is
    Sender and whose [senderAuthType] is neither empty nor the literal None
    yields a mechanism record for that authentication method (named after
    the adapter and the method) with direction Inbound; a fragment whose
    [direction] is Receiver and whose [authenticationMethod] is neither
    empty nor None yields such a record with direction Outbound. *)
Theorem direction_inversion (parsedXml : option ParsedXml) (flowId : string) (i : nat)
    (flow : MessageFlow) (ext : ExtensionElements) (authMethod : string) :
  getMessageFlows parsedXml !! i = Some flow ->
  flow_extensionElements flow = Some ext ->
  authMethod <> "" ->
  authMethod <> "None" ->
  let properties := propertiesOf ext in
  let name := Js.toStr (BaseXmlExtractor.adapterNameOf properties flow i) +:+ "_" +:+ authMethod in
  (getPropertyValue properties "direction" = "Sender" ->
   getPropertyValue properties "senderAuthType" = authMethod ->
   exists m, m ∈ extractSecurity parsedXml flowId /\
             mechanism_name m = JStr name /\
             mechanism_type m = JStr (authMechanismType authMethod) /\
             direction m = JStr "Inbound") /\
  (getPropertyValue properties "direction" = "Receiver" ->
   getPropertyValue properties "authenticationMethod" = authMethod ->
   exists m, m ∈ extractSecurity parsedXml flowId /\
             mechanism_name m = JStr name /\
             mechanism_type m = JStr (authMechanismType authMethod) /\
             direction m = JStr "Outbound").
Proof.
  intros Hflow Hext Hne Hnone properties name. subst properties name.
  destruct (getMessageFlows_definitions _ _ _ Hflow) as [d Hd].
  assert (Hin : forall m, m ∈ messageFlowSecurity flow i flowId ->
                          m ∈ extractSecurity parsedXml flowId).
  { intros m Hm. unfold extractSecurity. rewrite Hd. apply elem_of_app. left.
    unfold extractMessageFlowSecurity.
    by apply (security_forEachFlow_elem flowId _ 0 i flow m Hflow). }
  split; intros Hdir Hauth.
  - destruct (authentication_record authMethod (BaseXmlExtractor.adapterNameOf (propertiesOf ext) flow i)
                "Sender"
                (JsString.orElse (getPropertyValue (propertiesOf ext) "ComponentType") "Unknown")
                (propertiesOf ext) flowId Hne Hnone) as [c Hc].
    eexists. split.
    + apply Hin. rewrite (messageFlowSecurity_sender flow i flowId ext Hext Hdir).
      cbv zeta. rewrite Hauth, Hc. apply elem_of_app. left. apply list_elem_of_here.
    + done.
  - destruct (authentication_record authMethod (BaseXmlExtractor.adapterNameOf (propertiesOf ext) flow i)
                "Receiver"
                (JsString.orElse (getPropertyValue (propertiesOf ext) "ComponentType") "Unknown")
                (propertiesOf ext) flowId Hne Hnone) as [c Hc].
    eexists. split.
    + apply Hin. rewrite (messageFlowSecurity_receiver flow i flowId ext Hext Hdir).
      cbv zeta. rewrite Hauth, Hc. apply elem_of_app. left. apply list_elem_of_here.
    + done.
Qed.

Lemma direction_inversion_witness :
  exists m, m ∈ extractSecurity (Samples.document [] [Samples.senderBasic]) "flow" /\
            mechanism_name m = JStr "HTTPS_IN_BasicAuthentication" /\
            mechanism_type m = JStr "Basic Authentication" /\
            direction m = JStr "Inbound".
Proof.
  refine (proj1 (direction_inversion (Samples.document [] [Samples.senderBasic]) "flow" 0
                   Samples.senderBasic
                   {| ifl_property :=
                        Several [Samples.property "Name" "HTTPS_IN";
                                 Samples.property "direction" "Sender";
                                 Samples.property "senderAuthType" "BasicAuthentication"] |}
                   "BasicAuthentication" _ _ _ _) _ _).
  - reflexivity.
  - reflexivity.
  - discriminate.
  - discriminate.
  - reflexivity.
  - reflexivity.
Defined.

(** C1 as stated fails: a Sender fragment whose [senderAuthType] is the
    non-empty string None yields no mechanism record at all. *)
Lemma direction_inversion_counterexample :
  let doc := Samples.document [] [Samples.senderNone] in
  let properties := [Samples.property "Name" "HTTPS_IN"; Samples.property "direction" "Sender";
                     Samples.property "senderAuthType" "None"] in
  getMessageFlows doc !! 0 = Some Samples.senderNone /\
  flow_extensionElements Samples.senderNone = Some {| ifl_property := Several properties |} /\
  getPropertyValue properties "direction" = "Sender" /\
  getPropertyValue properties "senderAuthType" = "None" /\
  "None" <> "" /\
  ~ (exists m, m ∈ extractSecurity doc "flow" /\ direction m = JStr "Inbound").
Proof.
  repeat split; try reflexivity; try discriminate.
  intros [m [Hm _]]. vm_compute in Hm. by apply elem_of_nil in Hm.
Qed.

End DirectionInversion.

(** ** Client certificates from two sources *)
Section ClientCertificate.
Import BaseXmlExtractor SecurityExtractor.

Lemma security_forEachFlow_sublist (flowId : string) (flows : list MessageFlow) :
  forall (index i : nat) (flow : MessageFlow),
    flows !! i = Some flow ->
    messageFlowSecurity flow (index + i) flowId `sublist_of` forEachFlow flows index flowId.
Proof.
  induction flows as [|f rest IH]; intros index i flow Hi; [done|].
  simpl. destruct i as [|i]; simpl in Hi.
  - injection Hi as ->. rewrite Nat.add_0_r. by apply sublist_inserts_r.
  - replace (index + S i) with (S index + i) by lia.
    apply sublist_inserts_l. by apply IH.
Qed.

Lemma authMechanismType_certificate (authMethod : string) :
  authMechanismType authMethod = "Client Certificate" ->
  authMethod <> "" /\ authMethod <> "None".
Proof. intros H. split; intros ->; discriminate H. Qed.

(** C2, on the code.  For a Receiver fragment whose [authenticationMethod]
    is normalised to Client Certificate and which carries a private-key
    alias ([privateKeyAlias] or [odataCertAuthPrivateKeyAlias]),
    [extractSecurity] returns two Client Certificate records with direction
    Outbound for the adapter, first the one of the authentication method and
    later the one of the alias: [processAdditionalSecurity] pushes the
    second without looking for the first, so the alias-derived record is not
    suppressed. *)
Theorem client_certificate_twice (parsedXml : option ParsedXml) (flowId : string) (i : nat)
    (flow : MessageFlow) (ext : ExtensionElements) (authMethod alias : string) :
  getMessageFlows parsedXml !! i = Some flow ->
  flow_extensionElements flow = Some ext ->
  getPropertyValue (propertiesOf ext) "direction" = "Receiver" ->
  getPropertyValue (propertiesOf ext) "authenticationMethod" = authMethod ->
  authMechanismType authMethod = "Client Certificate" ->
  JsString.orElse (getPropertyValue (propertiesOf ext) "privateKeyAlias")
                  (getPropertyValue (propertiesOf ext) "odataCertAuthPrivateKeyAlias") = alias ->
  alias <> "" ->
  let adapterName := Js.toStr (adapterNameOf (propertiesOf ext) flow i) in
  exists fromMethod fromAlias,
    [fromMethod; fromAlias] `sublist_of` extractSecurity parsedXml flowId /\
    mechanism_name fromMethod = JStr (adapterName +:+ "_" +:+ authMethod) /\
    mechanism_type fromMethod = JStr "Client Certificate" /\
    direction fromMethod = JStr "Outbound" /\
    mechanism_name fromAlias = JStr (adapterName +:+ "_ClientCert") /\
    mechanism_type fromAlias = JStr "Client Certificate" /\
    direction fromAlias = JStr "Outbound".
Proof.
  intros Hflow Hext Hdir Hauth Htype Halias Hne adapterName.
  destruct (getMessageFlows_definitions _ _ _ Hflow) as [d Hd].
  destruct (authMechanismType_certificate _ Htype) as [Hm1 Hm2].
  destruct (authentication_record authMethod (adapterNameOf (propertiesOf ext) flow i)
              "Receiver"
              (JsString.orElse (getPropertyValue (propertiesOf ext) "ComponentType") "Unknown")
              (propertiesOf ext) flowId Hm1 Hm2) as [c Hc].
  pose proof (messageFlowSecurity_receiver flow i flowId ext Hext Hdir) as Hflowsec.
  cbv zeta in Hflowsec. rewrite Hauth, Hc in Hflowsec.
  unfold processAdditionalSecurity in Hflowsec. cbv zeta in Hflowsec.
  rewrite Halias, (proj2 (truthy_true _) Hne) in Hflowsec.
  change (JsString.eqb "Receiver" "Receiver") with true in Hflowsec.
  change (JsString.eqb "Receiver" "Sender") with false in Hflowsec.
  rewrite Htype in Hflowsec.
  cbv beta iota delta [andb] in Hflowsec.
  eexists _, _. split.
  - unfold extractSecurity. rewrite Hd. apply sublist_inserts_r.
    unfold extractMessageFlowSecurity.
    etrans; [|apply (security_forEachFlow_sublist flowId _ 0 i flow Hflow)].
    change (0 + i) with i. rewrite Hflowsec. cbn [app].
    apply sublist_skip. apply sublist_inserts_l. cbn [app].
    apply sublist_skip. apply sublist_nil_l.
  - repeat split.
Qed.

Lemma client_certificate_twice_witness :
  exists fromMethod fromAlias,
    [fromMethod; fromAlias] `sublist_of`
      extractSecurity (Samples.document [] [Samples.receiverCertificate]) "flow" /\
    mechanism_name fromMethod = JStr "ODATA_OUT_ClientCertificate" /\
    mechanism_type fromMethod = JStr "Client Certificate" /\
    direction fromMethod = JStr "Outbound" /\
    mechanism_name fromAlias = JStr "ODATA_OUT_ClientCert" /\
    mechanism_type fromAlias = JStr "Client Certificate" /\
    direction fromAlias = JStr "Outbound".
Proof.
  refine (client_certificate_twice (Samples.document [] [Samples.receiverCertificate]) "flow" 0
            Samples.receiverCertificate
            {| ifl_property :=
                 Several [Samples.property "Name" "ODATA_OUT";
                          Samples.property "direction" "Receiver";
                          Samples.property "authenticationMethod" "ClientCertificate";
                          Samples.property "privateKeyAlias" "key1"] |}
            "ClientCertificate" "key1" _ _ _ _ _ _ _); try reflexivity.
  discriminate.
Defined.

(** The same on the sample fragment: the whole output. *)
Example client_certificate_twice_evaluated :
  map (fun m => (mechanism_name m, mechanism_type m, direction m))
      (extractSecurity (Samples.document [] [Samples.receiverCertificate]) "flow") =
  [ (JStr "ODATA_OUT_ClientCertificate", JStr "Client Certificate", JStr "Outbound");
    (JStr "ODATA_OUT_ClientCert", JStr "Client Certificate", JStr "Outbound") ].
Proof. reflexivity. Qed.

(** The older [extractSecurityFromXml] gives one Client Certificate record
    on the same fragment: it looks for the record of the authentication
    method before it pushes the one of the alias. *)
Example legacy_client_certificate_once :
  map (fun m => (mechanism_name m, mechanism_type m, direction m))
      (LegacyDataFetchService.extractSecurityFromXml
         (Samples.document [] [Samples.receiverCertificate]) "flow") =
  [ (JStr "ODATA_OUT_ClientCertificate", JStr "Client Certificate", JStr "Outbound") ].
Proof. reflexivity. Qed.

End ClientCertificate.

(** ** Collaboration-level error handling *)
Section CollaborationErrorHandling.
Import BaseXmlExtractor ErrorHandlingExtractor.

Lemma collaborationProperty_other (s : CollaborationErrorHandling) (prop : IflProperty) :
  (forall k, Xml.keyText prop = Some k -> k ∉ errorHandlingKeys) ->
  collaborationProperty s prop = Return s.
Proof.
  intros Hk. unfold collaborationProperty, Xml.hasKey, Xml.keyOf.
  destruct (Xml.keyText prop) as [k|]; [|done].
  destruct (JsString.truthy k); [|done].
  specialize (Hk k eq_refl).
  assert (H1 : JsString.eqb k "returnExceptionToSender" = false).
  { apply eqb_false. intros ->. apply Hk. apply list_elem_of_In. simpl. tauto. }
  assert (H2 : JsString.eqb k "log" = false).
  { apply eqb_false. intros ->. apply Hk. apply list_elem_of_In. simpl. tauto. }
  assert (H3 : JsString.eqb k "ServerTrace" = false).
  { apply eqb_false. intros ->. apply Hk. apply list_elem_of_In. simpl. tauto. }
  rewrite H1, H2, H3. reflexivity.
Qed.

Lemma collaborationProperty_throws (s : CollaborationErrorHandling) (prop : IflProperty)
    (k : string) :
  collab_error_handling_details s = None ->
  Xml.keyText prop = Some k ->
  k ∈ errorHandlingKeys ->
  exists e, collaborationProperty s prop = Throw e.
Proof.
  intros Hs Hk Hin. unfold collaborationProperty, Xml.hasKey, Xml.keyOf. rewrite Hk.
  apply list_elem_of_In in Hin. simpl in Hin.
  destruct Hin as [<- | [<- | [<- | []]]]; unfold setDetail; simpl; rewrite Hs; simpl; eauto.
Qed.

Lemma forEach_collaboration_throws (properties : list IflProperty) :
  forall (s : CollaborationErrorHandling) (prop : IflProperty) (k : string),
    collab_error_handling_details s = None ->
    prop ∈ properties ->
    Xml.keyText prop = Some k ->
    k ∈ errorHandlingKeys ->
    exists e, forEachExc collaborationProperty properties s = Throw e.
Proof.
  induction properties as [|p rest IH]; intros s prop k Hs Hin Hk Hkey.
  - by apply elem_of_nil in Hin.
  - simpl.
    destruct (Xml.keyText p) as [kp|] eqn:Hkp.
    + destruct (decide (kp ∈ errorHandlingKeys)) as [Hp|Hp].
      * destruct (collaborationProperty_throws s p kp Hs Hkp Hp) as [e ->]. simpl. eauto.
      * rewrite collaborationProperty_other.
        2:{ intros k' Hk'. rewrite Hkp in Hk'. by injection Hk' as <-. }
        simpl. apply elem_of_cons in Hin as [-> | Hin].
        { rewrite Hkp in Hk. injection Hk as ->. done. }
        by apply (IH s prop k).
    + rewrite collaborationProperty_other.
      2:{ intros k' Hk'. by rewrite Hkp in Hk'. }
      simpl. apply elem_of_cons in Hin as [-> | Hin].
      { by rewrite Hkp in Hk. }
      by apply (IH s prop k).
Qed.

(** C3, on the code: as soon as the collaboration carries a property keyed
    [returnExceptionToSender], [log] or [ServerTrace], the write to
    [errorHandling.error_handling_details], which
    [extractCollaborationErrorHandling] never creates, throws; the [catch]
    of [extractErrorHandling] answers with the default configuration, so
    [reporting_enabled], [logging_enabled] and [detection_enabled] are all
    false whatever the values of the properties. *)
Theorem collaboration_signals_lost (parsedXml : option ParsedXml) (flowId : string)
    (prop : IflProperty) (k : string) :
  prop ∈ getCollaborationProperties parsedXml ->
  Xml.keyText prop = Some k ->
  k ∈ errorHandlingKeys ->
  extractErrorHandling parsedXml flowId = getDefaultErrorHandling /\
  reporting_enabled (extractErrorHandling parsedXml flowId) = false /\
  logging_enabled (extractErrorHandling parsedXml flowId) = false /\
  detection_enabled (extractErrorHandling parsedXml flowId) = false.
Proof.
  intros Hin Hk Hkey.
  assert (H : extractErrorHandling parsedXml flowId = getDefaultErrorHandling).
  { unfold extractErrorHandling.
    destruct (parsedXml ≫= bpmn2_definitions); [|done].
    unfold extractCollaborationErrorHandling.
    destruct (forEach_collaboration_throws (getCollaborationProperties parsedXml)
                {| collab_detection_enabled := None; collab_logging_enabled := None;
                   collab_reporting_enabled := None; collab_error_handling_details := None |}
                prop k eq_refl Hin Hk Hkey) as [e ->].
    reflexivity. }
  rewrite H. done.
Qed.

Lemma collaboration_signals_lost_witness :
  let doc := Samples.document Samples.collaborationSettings [] in
  extractErrorHandling doc "flow" = getDefaultErrorHandling /\
  reporting_enabled (extractErrorHandling doc "flow") = false /\
  logging_enabled (extractErrorHandling doc "flow") = false /\
  detection_enabled (extractErrorHandling doc "flow") = false.
Proof.
  refine (collaboration_signals_lost (Samples.document Samples.collaborationSettings []) "flow"
            (Samples.property "returnExceptionToSender" "true") "returnExceptionToSender" _ _ _).
  - apply list_elem_of_here.
  - reflexivity.
  - apply list_elem_of_here.
Defined.

End CollaborationErrorHandling.

(** ** Documents without message flows *)
Section NoMessageFlows.
Import BaseXmlExtractor.

(** C4, amended.  For a parsed document with no message-flow fragment,
    adapter extraction returns the empty list, the message-flow pass of
    security extraction contributes nothing, so that security extraction
    returns exactly the records of its collaboration pass, which is the
    empty list when the collaboration has no properties; both functions
    return (neither has an exception to raise). *)
Theorem no_message_flows (JSON_stringify : JsVal -> string) (parsedXml : option ParsedXml)
    (flowId : string) :
  getMessageFlows parsedXml = [] ->
  (AdapterExtractor.extractAdapters JSON_stringify parsedXml flowId).2 = [] /\
  SecurityExtractor.extractMessageFlowSecurity parsedXml flowId = [] /\
  SecurityExtractor.extractSecurity parsedXml flowId =
    SecurityExtractor.extractCollaborationSecurity parsedXml flowId /\
  (getCollaborationProperties parsedXml = [] ->
   SecurityExtractor.extractSecurity parsedXml flowId = []).
Proof.
  intros Hflows.
  assert (Hsec : SecurityExtractor.extractSecurity parsedXml flowId =
                 SecurityExtractor.extractCollaborationSecurity parsedXml flowId).
  { unfold SecurityExtractor.extractSecurity, SecurityExtractor.extractMessageFlowSecurity.
    rewrite Hflows. simpl.
    destruct (parsedXml ≫= bpmn2_definitions) eqn:Hd; [done|].
    unfold SecurityExtractor.extractCollaborationSecurity.
    by rewrite (proj2 (getMessageFlows_nil_collaboration parsedXml Hd)). }
  repeat split.
  - unfold AdapterExtractor.extractAdapters. rewrite Hflows.
    by destruct (parsedXml ≫= bpmn2_definitions).
  - unfold SecurityExtractor.extractMessageFlowSecurity. by rewrite Hflows.
  - exact Hsec.
  - intros Hprops. rewrite Hsec. unfold SecurityExtractor.extractCollaborationSecurity.
    by rewrite Hprops.
Qed.

Lemma no_message_flows_witness :
  (AdapterExtractor.extractAdapters (fun _ => "") (Samples.document [] []) "flow").2 = [] /\
  SecurityExtractor.extractMessageFlowSecurity (Samples.document [] []) "flow" = [] /\
  SecurityExtractor.extractSecurity (Samples.document [] []) "flow" =
    SecurityExtractor.extractCollaborationSecurity (Samples.document [] []) "flow" /\
  (getCollaborationProperties (Samples.document [] []) = [] ->
   SecurityExtractor.extractSecurity (Samples.document [] []) "flow" = []).
Proof.
  apply (no_message_flows (fun _ => "") (Samples.document [] []) "flow"). reflexivity.
Defined.

(** C4 as stated fails: a document with no message flow whose collaboration
    carries a [log] property has a non-empty security list. *)
Lemma no_message_flows_counterexample :
  let doc := Samples.document [Samples.property "log" "All events"] [] in
  getMessageFlows doc = [] /\
  SecurityExtractor.extractSecurity doc "flow" =
    [ {| mechanism_name := JStr "flow_SecurityLogging";
         mechanism_type := JStr "Security Logging";
         direction := JStr "Inbound";
         configuration := JObj [("logLevel", JStr "All events"); ("auditTrail", JBool true)] |} ] /\
  SecurityExtractor.extractSecurity doc "flow" <> [].
Proof. repeat split. discriminate. Qed.

End NoMessageFlows.

(** ** Security-type normalisation *)
Section TypeNormalisation.
Import BaseProcessor SecurityProcessor Vocabulary.

Lemma typeMapping_values :
  Forall (fun entry : string * string => entry.2 ∈ closedTypes \/ entry.2 = "None") typeMapping.
Proof.
  unfold typeMapping, closedTypes.
  repeat (apply Forall_cons; split;
          [first [by right | left; apply list_elem_of_In; simpl; tauto]|]).
  apply Forall_nil. done.
Qed.

Lemma typeMapping_find (f : string * string -> bool) (entry : string * string) :
  List.find f typeMapping = Some entry ->
  entry.2 ∈ closedTypes \/ entry.2 = "None".
Proof.
  intros H. apply find_some in H as [Hin _].
  pose proof typeMapping_values as Hall. rewrite Forall_forall in Hall.
  apply Hall. by apply list_elem_of_In.
Qed.

Lemma typeMapping_truthy :
  Forall (fun entry : string * string => Js.truthy (JStr entry.2) = true) typeMapping.
Proof. unfold typeMapping. repeat (apply Forall_cons; split; [reflexivity|]). apply Forall_nil. done. Qed.

Lemma lookupTypeMapping_cases (x : string) :
  (exists t, lookupTypeMapping x = JStr t /\ Js.truthy (JStr t) = true /\
             (t ∈ closedTypes \/ t = "None")) \/
  (exists member, lookupTypeMapping x = JBuiltin member /\ inheritedMember x = Some member) \/
  lookupTypeMapping x = JUndefined.
Proof.
  unfold lookupTypeMapping.
  destruct (List.find (fun entry => JsString.eqb entry.1 x) typeMapping) as [entry|] eqn:Hfind.
  - left. exists entry.2. repeat split.
    + apply find_some in Hfind as [Hin _].
      pose proof typeMapping_truthy as Hall. rewrite Forall_forall in Hall.
      apply Hall. by apply list_elem_of_In.
    + by apply (typeMapping_find _ _ Hfind).
  - destruct (inheritedMember x) as [member|]; [right; left; eauto | right; right; reflexivity].
Qed.

Lemma partialMatch_cases (x : string) (value : string) :
  partialMatch x = Some value -> value ∈ closedTypes \/ value = "None".
Proof.
  unfold partialMatch.
  destruct (List.find _ typeMapping) as [entry|] eqn:Hfind; [|done].
  intros [= <-]. by apply (typeMapping_find _ _ Hfind).
Qed.

Lemma startsWith_self (x : string) : JsString.startsWith x x = true.
Proof. induction x as [|c x IH]; [done|]. simpl. by rewrite Ascii.eqb_refl. Qed.

Lemma matchesKey_self (x : string) : matchesKey x x = true.
Proof.
  unfold matchesKey. destruct (JsString.toLowerCase x) as [|c l] eqn:E; [done|].
  cbn [JsString.includes]. by rewrite startsWith_self.
Qed.

(** The keys of the table are pairwise distinct: the exact lookup of a key
    finds its own entry. *)
Lemma typeMapping_exact (entry : string * string) :
  entry ∈ typeMapping ->
  List.find (fun e : string * string => JsString.eqb e.1 entry.1) typeMapping = Some entry.
Proof.
  unfold typeMapping. intros H.
  repeat (apply elem_of_cons in H as [-> | H]; [reflexivity|]).
  by apply elem_of_nil in H.
Qed.

Lemma find_typeMapping (f : string * string -> bool) :
  match List.find f typeMapping with
  | Some entry => entry ∈ typeMapping /\ f entry = true
  | None => forall entry, entry ∈ typeMapping -> f entry = false
  end.
Proof.
  destruct (List.find f typeMapping) as [entry|] eqn:Hfind.
  - apply find_some in Hfind as [Hin Hf]. split; [by apply list_elem_of_In|done].
  - intros entry Hin. apply (find_none _ _ Hfind). by apply list_elem_of_In.
Qed.

(** C5, amended.  For every input string whose trimmed text, cut to 100
    code units, is not the name of a member of [Object.prototype],
    [normalizeSecurityType] returns a string: Unknown for the empty input;
    the value of the key when the trimmed text is a key of the mapping
    table; the value of a key that it matches, a member of the closed set
    or the string None, whenever it matches a key by containment in either
    direction, letter case aside; and the trimmed text itself, unmapped,
    when it matches no key. *)
Theorem normalizeSecurityType_range (s : string) :
  let sanitized := sanitizeString (JStr s) (Some 100) in
  inheritedMember sanitized = None ->
  exists t : string,
    normalizeSecurityType (JStr s) = JStr t /\
    (s = "" -> t = "Unknown") /\
    (s <> "" ->
     (forall entry, entry ∈ typeMapping -> entry.1 = sanitized -> t = entry.2) /\
     ((exists entry, entry ∈ typeMapping /\ matchesKey sanitized entry.1 = true) ->
      (t ∈ closedTypes \/ t = "None") /\
      exists entry, entry ∈ typeMapping /\ matchesKey sanitized entry.1 = true /\ t = entry.2) /\
     ((forall entry, entry ∈ typeMapping -> matchesKey sanitized entry.1 = false) ->
      t = sanitized)).
Proof.
  intros sanitized Hinherited.
  destruct (decide (s = "")) as [-> | Hs].
  { exists "Unknown". split; [reflexivity|]. split; [done|]. by intros H. }
  unfold normalizeSecurityType. fold sanitized.
  assert (Htruthy : Js.truthy (JStr s) = true).
  { unfold Js.truthy, JsString.truthy, JsString.eqb. by rewrite bool_decide_eq_false_2. }
  rewrite Htruthy. cbv beta iota delta [negb].
  unfold lookupTypeMapping. rewrite Hinherited.
  pose proof (find_typeMapping (fun e => JsString.eqb e.1 sanitized)) as Hexact.
  destruct (List.find (fun e : string * string => JsString.eqb e.1 sanitized) typeMapping)
    as [exact|].
  - destruct Hexact as [Hin Hkey]. apply bool_decide_eq_true in Hkey.
    pose proof typeMapping_truthy as Hall. rewrite Forall_forall in Hall.
    rewrite (Hall exact Hin).
    exists exact.2. split; [reflexivity|]. split; [done|]. intros _.
    assert (Hmatch : matchesKey sanitized exact.1 = true)
      by (rewrite Hkey; apply matchesKey_self).
    split; [|split].
    + intros entry Hentry Heq. pose proof (typeMapping_exact entry Hentry) as H1.
      pose proof (typeMapping_exact exact Hin) as H2.
      rewrite Heq in H1. rewrite Hkey in H2. congruence.
    + intros _. split; [|by exists exact].
      pose proof typeMapping_values as Hvalues. rewrite Forall_forall in Hvalues.
      by apply Hvalues.
    + intros Hnone. rewrite (Hnone exact Hin) in Hmatch. discriminate Hmatch.
  - assert (Hnokey : forall entry, entry ∈ typeMapping -> entry.1 <> sanitized).
    { intros entry Hentry Heq. specialize (Hexact entry Hentry).
      apply bool_decide_eq_false in Hexact. done. }
    cbv beta iota delta [Js.truthy]. unfold partialMatch.
    pose proof (find_typeMapping (fun e => matchesKey sanitized e.1)) as Hpartial.
    change (fun e : string * string => matchesKey sanitized e.1)
      with (fun entry : string * string =>
              JsString.includes (JsString.toLowerCase sanitized) (JsString.toLowerCase entry.1) ||
              JsString.includes (JsString.toLowerCase entry.1) (JsString.toLowerCase sanitized))
      in Hpartial.
    destruct (List.find _ typeMapping) as [partial|].
    + destruct Hpartial as [Hin Hmatch].
      exists partial.2. split; [reflexivity|]. split; [done|]. intros _.
      split; [|split].
      * intros entry Hentry Heq. by destruct (Hnokey entry Hentry).
      * intros _. split; [|by exists partial].
        pose proof typeMapping_values as Hvalues. rewrite Forall_forall in Hvalues.
        by apply Hvalues.
      * intros Hnone. specialize (Hnone partial Hin). unfold matchesKey in Hnone.
        rewrite Hnone in Hmatch. discriminate Hmatch.
    + exists sanitized. split; [reflexivity|]. split; [done|]. intros _.
      split; [|split].
      * intros entry Hentry Heq. by destruct (Hnokey entry Hentry).
      * intros (entry & Hentry & Hmatch). specialize (Hpartial entry Hentry).
        unfold matchesKey in Hmatch. rewrite Hpartial in Hmatch. discriminate Hmatch.
      * done.
Qed.

Lemma normalizeSecurityType_range_witness :
  let s := " oauth token " in
  let sanitized := sanitizeString (JStr s) (Some 100) in
  inheritedMember sanitized = None /\
  exists t : string,
    normalizeSecurityType (JStr s) = JStr t /\
    (s = "" -> t = "Unknown") /\
    (s <> "" ->
     (forall entry, entry ∈ typeMapping -> entry.1 = sanitized -> t = entry.2) /\
     ((exists entry, entry ∈ typeMapping /\ matchesKey sanitized entry.1 = true) ->
      (t ∈ closedTypes \/ t = "None") /\
      exists entry, entry ∈ typeMapping /\ matchesKey sanitized entry.1 = true /\ t = entry.2) /\
     ((forall entry, entry ∈ typeMapping -> matchesKey sanitized entry.1 = false) ->
      t = sanitized)).
Proof.
  split; [reflexivity|].
  apply (normalizeSecurityType_range " oauth token "). reflexivity.
Defined.

(** The names left aside above: the exact lookup [typeMapping[sanitized]]
    reaches [Object.prototype], and what it finds there is returned. *)
Remark normalizeSecurityType_inherited_member :
  normalizeSecurityType (JStr "constructor") = JBuiltin (BuiltinFunction "Object").
Proof. reflexivity. Qed.

(** C5 as stated fails: a type that matches no key of the table passes
    through unchanged, and the table maps None to None. *)
Lemma normalizeSecurityType_counterexample :
  normalizeSecurityType (JStr "Kerberos") = JStr "Kerberos" /\
  ("Kerberos" ∉ closedTypes) /\
  normalizeSecurityType (JStr "None") = JStr "None" /\
  ("None" ∉ closedTypes).
Proof.
  repeat split; try reflexivity;
    intros H; apply list_elem_of_In in H; simpl in H;
    repeat (destruct H as [H | H]; [discriminate H|]); exact H.
Qed.

End TypeNormalisation.

(** ** Required fields and sanitisation *)
Section TruthyNames.
Import BaseProcessor SecurityProcessor.

(** C10.  Required-field validation checks truthiness only, string
    sanitisation maps every value that is not a string to the empty string,
    and there is a raw record whose [mechanism_name] is truthy and not a
    string (the number 42) which the processor does not reject and whose
    processed record has the empty string as its [mechanism_name]. *)
Theorem truthy_name_becomes_empty :
  (forall (m : SecurityMechanism) (context : string),
     validateRequiredFields (field m) ["mechanism_name"; "mechanism_type"] context =
     Js.truthy (mechanism_name m) && Js.truthy (mechanism_type m)) /\
  (forall (v : JsVal) (maxLength : option nat),
     match v with JStr _ => True | _ => sanitizeString v maxLength = "" end) /\
  (exists m : SecurityMechanism,
     Js.truthy (mechanism_name m) = true /\
     Js.isString (mechanism_name m) = false /\
     forall (JSON_parse : string -> Exc JsVal) (flowId : string),
       processSecurityMechanisms JSON_parse flowId [m] =
       [ {| mechanism_name := JStr "";
            mechanism_type := JStr "OAuth";
            direction := JStr "Inbound";
            configuration := JObj [] |} ]).
Proof.
  split; [|split].
  - intros m context. unfold validateRequiredFields, field. simpl.
    by rewrite andb_true_r.
  - intros v maxLength. by destruct v.
  - exists Samples.numericName. repeat split.
Qed.

End TruthyNames.

(** ** Fragments without component type and direction *)
Section UnknownFragments.
Import BaseXmlExtractor AdapterExtractor Vocabulary.

Variable JSON_stringify : JsVal -> string.

Lemma unknownOrAbsent_orElse (properties : list IflProperty) (key : string) :
  unknownOrAbsent properties key ->
  JsString.orElse (getPropertyValue properties key) "Unknown" = "Unknown".
Proof. by intros [-> | ->]. Qed.

Lemma processMessageFlow_insufficient (flow : MessageFlow) (index : nat) (flowId : string) :
  insufficient flow ->
  (processMessageFlow JSON_stringify flow index flowId).2 = None /\
  skipReason flow ∈ (processMessageFlow JSON_stringify flow index flowId).1.
Proof.
  unfold insufficient, flowProperties, skipReason, processMessageFlow.
  destruct (flow_extensionElements flow) as [ext|]; intros [Htype Hdir].
  - cbv zeta.
    rewrite (unknownOrAbsent_orElse _ _ Htype), (unknownOrAbsent_orElse _ _ Hdir).
    change (JsString.eqb "Unknown" "Unknown") with true. cbv beta iota delta [andb].
    split; [reflexivity|]. apply list_elem_of_In. simpl. tauto.
  - split; [reflexivity|]. apply list_elem_of_In. simpl. tauto.
Qed.

Lemma mapFlows_insufficient (flowId : string) (flows : list MessageFlow) :
  forall index : nat,
    Forall insufficient flows ->
    omap id (mapFlows JSON_stringify flows index flowId).2 = [].
Proof.
  induction flows as [|flow rest IH]; intros index Hall; [done|].
  apply Forall_cons in Hall as [Hflow Hrest]. simpl.
  destruct (processMessageFlow_insufficient flow index flowId Hflow) as [Hnone _].
  destruct (processMessageFlow JSON_stringify flow index flowId) as [logs r].
  simpl in Hnone. subst r.
  specialize (IH (S index) Hrest).
  destruct (mapFlows JSON_stringify rest (S index) flowId) as [logs' rs]. simpl in *.
  exact IH.
Qed.

Lemma mapFlows_logs (flowId : string) (flows : list MessageFlow) :
  forall (index i : nat) (flow : MessageFlow) (entry : LogEntry),
    flows !! i = Some flow ->
    entry ∈ (processMessageFlow JSON_stringify flow (index + i) flowId).1 ->
    entry ∈ (mapFlows JSON_stringify flows index flowId).1.
Proof.
  induction flows as [|f rest IH]; intros index i flow entry Hi Hentry; [done|].
  simpl.
  destruct (processMessageFlow JSON_stringify f index flowId) as [logs r] eqn:Hf.
  destruct (mapFlows JSON_stringify rest (S index) flowId) as [logs' rs] eqn:Hrest.
  simpl. apply elem_of_app. destruct i as [|i]; simpl in Hi.
  - left. injection Hi as ->. rewrite Nat.add_0_r, Hf in Hentry. exact Hentry.
  - right. replace (index + S i) with (S index + i) in Hentry by lia.
    pose proof (IH (S index) i flow entry Hi Hentry) as H. by rewrite Hrest in H.
Qed.

(** C8.  A message-flow fragment in which both the [ComponentType] and the
    [direction] property are absent or equal to Unknown gives no adapter
    record, and the reason is logged (the warning lists the property keys
    that are there); a document whose fragments are all of that kind has an
    empty adapter list. *)
Theorem unknown_fragment_skipped (parsedXml : option ParsedXml) (flowId : string) (i : nat)
    (flow : MessageFlow) :
  getMessageFlows parsedXml !! i = Some flow ->
  insufficient flow ->
  (processMessageFlow JSON_stringify flow i flowId).2 = None /\
  skipReason flow ∈ (processMessageFlow JSON_stringify flow i flowId).1 /\
  skipReason flow ∈ (extractAdapters JSON_stringify parsedXml flowId).1 /\
  (Forall insufficient (getMessageFlows parsedXml) ->
   (extractAdapters JSON_stringify parsedXml flowId).2 = []).
Proof.
  intros Hflow Hins.
  destruct (processMessageFlow_insufficient flow i flowId Hins) as [Hnone Hlog].
  destruct (getMessageFlows_definitions _ _ _ Hflow) as [d Hd].
  repeat split; [exact Hnone | exact Hlog | | ].
  - unfold extractAdapters. rewrite Hd.
    destruct (getMessageFlows parsedXml) as [|f rest] eqn:Hflows; [done|].
    cbv beta iota zeta delta [length Nat.eqb].
    pose proof (mapFlows_logs flowId (f :: rest) 0 i flow (skipReason flow) Hflow Hlog) as H.
    destruct (mapFlows JSON_stringify (f :: rest) 0 flowId) as [logs results].
    simpl in *. apply elem_of_cons. by right.
  - intros Hall. unfold extractAdapters. rewrite Hd.
    destruct (length (getMessageFlows parsedXml) =? 0)%nat; [done|].
    pose proof (mapFlows_insufficient flowId (getMessageFlows parsedXml) 0 Hall) as H.
    destruct (mapFlows JSON_stringify (getMessageFlows parsedXml) 0 flowId) as [logs results].
    exact H.
Qed.

End UnknownFragments.

Lemma unknown_fragment_skipped_witness :
  let doc := Samples.document [] [Samples.unknownFlow] in
  (AdapterExtractor.processMessageFlow (fun _ => "") Samples.unknownFlow 0 "flow").2 = None /\
  Vocabulary.skipReason Samples.unknownFlow ∈
    (AdapterExtractor.processMessageFlow (fun _ => "") Samples.unknownFlow 0 "flow").1 /\
  Vocabulary.skipReason Samples.unknownFlow ∈
    (AdapterExtractor.extractAdapters (fun _ => "") doc "flow").1 /\
  (Forall Vocabulary.insufficient (BaseXmlExtractor.getMessageFlows doc) ->
   (AdapterExtractor.extractAdapters (fun _ => "") doc "flow").2 = []).
Proof.
  apply (unknown_fragment_skipped (fun _ => "")
           (Samples.document [] [Samples.unknownFlow]) "flow" 0 Samples.unknownFlow).
  - reflexivity.
  - split; right; reflexivity.
Defined.

(** ** Persistence: JMS adapters and the merge of the three sources *)
Section JmsPersistence.
Import BaseXmlExtractor PersistenceExtractor Vocabulary.

Lemma objHas_replace (o : JsObject) (k k' : string) (v : JsVal) :
  Js.objHas (Js.objReplace o k v) k' = Js.objHas o k'.
Proof.
  induction o as [|[k0 v0] o IH]; [done|]. simpl.
  destruct (JsString.eqb k0 k); simpl; [done|]. by rewrite IH.
Qed.

Lemma objHas_app (o : JsObject) (k k' : string) (v : JsVal) :
  Js.objHas (o ++ [(k, v)]) k' = Js.objHas o k' || JsString.eqb k k'.
Proof.
  induction o as [|[k0 v0] o IH]; simpl; [by rewrite orb_false_r|].
  by rewrite IH, orb_assoc.
Qed.

Lemma objHas_set_keeps (o : JsObject) (k k' : string) (v : JsVal) :
  Js.objHas o k' = true -> Js.objHas (Js.objSet o k v) k' = true.
Proof.
  intros H. unfold Js.objSet.
  destruct (JsString.eqb k "__proto__"); [done|].
  destruct (Js.objHas o k).
  - by rewrite objHas_replace.
  - by rewrite objHas_app, H.
Qed.

Lemma objHas_set_new (o : JsObject) (k : string) (v : JsVal) :
  k <> "__proto__" -> Js.objHas (Js.objSet o k v) k = true.
Proof.
  intros Hk. unfold Js.objSet. rewrite (proj2 (eqb_false _ _) Hk).
  destruct (Js.objHas o k) eqn:Hhas.
  - by rewrite objHas_replace.
  - by rewrite objHas_app, eqb_refl, orb_true_r.
Qed.

Lemma objHas_length (o : JsObject) (k : string) :
  Js.objHas o k = true -> (0 <? length o)%nat = true.
Proof. by destruct o. Qed.

Lemma jmsStep_keeps (properties : list IflProperty) (k : string) :
  forall acc : JsObject,
    Js.objHas acc k = true -> Js.objHas (fold_left jmsStep properties acc) k = true.
Proof.
  induction properties as [|p rest IH]; intros acc Hacc; [done|].
  simpl. apply IH. unfold jmsStep.
  destruct (Xml.hasKey p); [|done].
  destruct (mentions (Xml.keyOf p) jmsNeedles); [|done].
  by apply objHas_set_keeps.
Qed.

Lemma collectJmsProperties_queueName (properties : list IflProperty) (prop : IflProperty) :
  prop ∈ properties ->
  Xml.keyText prop = Some "queueName" ->
  Js.objHas (collectJmsProperties properties) "queueName" = true.
Proof.
  unfold collectJmsProperties.
  generalize ([] : JsObject).
  induction properties as [|p rest IH]; intros acc Hin Hkey.
  - by apply elem_of_nil in Hin.
  - simpl. apply elem_of_cons in Hin as [<- | Hin].
    + apply jmsStep_keeps. unfold jmsStep, Xml.hasKey, Xml.keyOf. rewrite Hkey.
      change (JsString.truthy "queueName") with true.
      change (mentions "queueName" jmsNeedles) with true. cbv iota zeta.
      by apply objHas_set_new.
    + by apply IH.
Qed.

Lemma persistence_forEachFlow_elem {B : Type} (body : MessageFlow -> nat -> list B)
    (flows : list MessageFlow) :
  forall (index i : nat) (flow : MessageFlow) (b : B),
    flows !! i = Some flow ->
    b ∈ body flow (index + i) ->
    b ∈ forEachFlow body flows index.
Proof.
  induction flows as [|f rest IH]; intros index i flow b Hi Hb; [done|].
  simpl. apply elem_of_app. destruct i as [|i]; simpl in Hi.
  - left. injection Hi as ->. by rewrite Nat.add_0_r in Hb.
  - right. apply (IH (S index) i flow b Hi).
    by replace (S index + i) with (index + S i) by lia.
Qed.

Lemma nonEmpty_elem {A : Type} (l : list A) (a : A) :
  a ∈ l -> nonEmptyList (Some l) = true.
Proof. destruct l; [by intros H%elem_of_nil | done]. Qed.

Lemma includes_empty_jms : JsString.includes (JsString.toLowerCase "") "jms" = false.
Proof. reflexivity. Qed.

Lemma mergePersistenceDetails_monotone (persistence : Persistence) (details : MergeDetails) :
  raises persistence (mergePersistenceDetails persistence details) /\
  extends (persistence_details persistence)
          (persistence_details (mergePersistenceDetails persistence details)).
Proof.
  unfold raises, extends, mergePersistenceDetails. simpl.
  repeat split;
    try (intros ->;
         repeat match goal with |- context [if ?b then _ else _] => destruct b end; done);
    match goal with
    | |- _ `prefix_of` (if ?b then _ else _) =>
        destruct b; [by apply prefix_app_r | done]
    end.
Qed.

Lemma extractPersistence_sources (parsedXml : option ParsedXml) (flowId : string)
    (definitions : Definitions) :
  parsedXml ≫= bpmn2_definitions = Some definitions ->
  let persistence := extractPersistence parsedXml flowId in
  let collaboration := extractCollaborationPersistence parsedXml flowId in
  let processes := extractProcessPersistence parsedXml flowId in
  let adapters := extractAdapterPersistence parsedXml flowId in
  jms_enabled persistence = nonEmptyList (merge_jmsAdapters adapters) /\
  jmsAdapters (persistence_details persistence) = default [] (merge_jmsAdapters adapters) /\
  messagePersistence (persistence_details persistence) =
    default [] (merge_messagePersistence adapters) /\
  dataStoreOperations (persistence_details persistence) =
    default [] (merge_dataStoreOperations adapters) /\
  dataStoreActivities (persistence_details persistence) =
    default [] (merge_dataStoreActivities processes) /\
  variableOperations (persistence_details persistence) =
    default [] (merge_variableOperations processes) /\
  externalCalls (persistence_details persistence) = default [] (merge_externalCalls processes) /\
  data_store_enabled persistence =
    nonEmptyList (merge_dataStoreActivities processes) ||
    nonEmptyList (merge_dataStoreOperations adapters) /\
  variables_enabled persistence =
    nonEmptyList (merge_variableOperations processes) /\
  message_persistence_enabled persistence =
    default false (collab_message_persistence_enabled collaboration) ||
    nonEmptyList (merge_messagePersistence adapters).
Proof.
  intros Hd. cbv zeta. unfold extractPersistence. rewrite Hd.
  unfold extractAdapterPersistence, extractProcessPersistence. rewrite Hd.
  generalize (forEachFlow flowJms (getMessageFlows parsedXml) 0).
  generalize (forEachFlow flowMessagePersistence (getMessageFlows parsedXml) 0).
  generalize (forEachFlow flowDataStore (getMessageFlows parsedXml) 0).
  generalize (flat_map (fun process => findDataStoreActivities process flowId)
                (Xml.toArray (definitions_process definitions))).
  generalize (flat_map (fun process => findVariableOperations process flowId)
                (Xml.toArray (definitions_process definitions))).
  generalize (flat_map (fun process => findExternalCalls process flowId)
                (Xml.toArray (definitions_process definitions))).
  generalize (extractCollaborationPersistence parsedXml flowId).
  intros c calls variables activities stores messages jms.
  destruct (collab_message_persistence_enabled c) as [[]|] eqn:Hc;
    destruct calls, variables, activities, stores, messages, jms;
    unfold mergePersistenceDetails, assignCollaboration; simpl; rewrite ?Hc; simpl;
    repeat split; reflexivity.
Qed.

(** C7.  When a message-flow fragment has a [ComponentType] that contains
    JMS, letter case aside, and carries a property keyed [queueName], the
    extracted persistence configuration has [jms_enabled] true and its
    details hold the one JMS adapter record of that fragment, whose
    properties include [queueName].  Merging only appends records and only
    raises booleans: the details are the lists of the three sources put
    together and each boolean is the disjunction of what the sources say. *)
Theorem jms_adapter_persistence (parsedXml : option ParsedXml) (flowId : string) (i : nat)
    (flow : MessageFlow) (ext : ExtensionElements) (prop : IflProperty) :
  getMessageFlows parsedXml !! i = Some flow ->
  flow_extensionElements flow = Some ext ->
  JsString.includes
    (JsString.toLowerCase (getPropertyValue (propertiesOf ext) "ComponentType")) "jms" = true ->
  prop ∈ propertiesOf ext ->
  Xml.keyText prop = Some "queueName" ->
  let persistence := extractPersistence parsedXml flowId in
  let collaboration := extractCollaborationPersistence parsedXml flowId in
  let processes := extractProcessPersistence parsedXml flowId in
  let adapters := extractAdapterPersistence parsedXml flowId in
  jms_enabled persistence = true /\
  (exists record,
     flowJms flow i = [record] /\
     record ∈ jmsAdapters (persistence_details persistence) /\
     jms_type record = "JMS" /\
     jms_name record = BaseXmlExtractor.adapterNameOf (propertiesOf ext) flow i /\
     Js.objHas (jms_properties record) "queueName" = true) /\
  (forall (p : Persistence) (d : MergeDetails),
     raises p (mergePersistenceDetails p d) /\
     extends (persistence_details p) (persistence_details (mergePersistenceDetails p d))) /\
  jmsAdapters (persistence_details persistence) = default [] (merge_jmsAdapters adapters) /\
  messagePersistence (persistence_details persistence) =
    default [] (merge_messagePersistence adapters) /\
  dataStoreOperations (persistence_details persistence) =
    default [] (merge_dataStoreOperations adapters) /\
  dataStoreActivities (persistence_details persistence) =
    default [] (merge_dataStoreActivities processes) /\
  variableOperations (persistence_details persistence) =
    default [] (merge_variableOperations processes) /\
  externalCalls (persistence_details persistence) = default [] (merge_externalCalls processes) /\
  data_store_enabled persistence =
    nonEmptyList (merge_dataStoreActivities processes) ||
    nonEmptyList (merge_dataStoreOperations adapters) /\
  variables_enabled persistence =
    nonEmptyList (merge_variableOperations processes) /\
  message_persistence_enabled persistence =
    default false (collab_message_persistence_enabled collaboration) ||
    nonEmptyList (merge_messagePersistence adapters).
Proof.
  intros Hflow Hext Hjms Hprop Hkey persistence collaboration processes adapters.
  destruct (getMessageFlows_definitions _ _ _ Hflow) as [d Hd].
  assert (Hct : getPropertyValue (propertiesOf ext) "ComponentType" <> "").
  { intros H. rewrite H in Hjms. discriminate Hjms. }
  pose proof (collectJmsProperties_queueName _ _ Hprop Hkey) as Hqueue.
  set (record := {| jms_name := BaseXmlExtractor.adapterNameOf (propertiesOf ext) flow i;
                    jms_type := "JMS";
                    jms_properties := collectJmsProperties (propertiesOf ext) |}).
  assert (Hrecord : flowJms flow i = [record]).
  { unfold flowJms. rewrite Hext. cbv zeta. rewrite (orElse_truthy _ _ Hct), Hjms.
    unfold extractJMSConfiguration. by rewrite (objHas_length _ _ Hqueue). }
  assert (Hin : record ∈ forEachFlow flowJms (getMessageFlows parsedXml) 0).
  { apply (persistence_forEachFlow_elem flowJms _ 0 i flow record Hflow).
    change (0 + i) with i. rewrite Hrecord. apply list_elem_of_here. }
  destruct (extractPersistence_sources parsedXml flowId d Hd)
    as (Hjms_enabled & Hjms_list & Hrest).
  fold persistence collaboration processes adapters in Hjms_enabled, Hjms_list, Hrest.
  split; [|split; [|split]].
  - rewrite Hjms_enabled. apply (nonEmpty_elem _ _ Hin).
  - exists record. rewrite Hjms_list. done.
  - apply mergePersistenceDetails_monotone.
  - split; [exact Hjms_list | exact Hrest].
Qed.

End JmsPersistence.

Lemma jms_adapter_persistence_witness :
  jms_enabled
    (PersistenceExtractor.extractPersistence (Samples.document [] [Samples.jmsFlow]) "flow") = true /\
  jmsAdapters
    (persistence_details
       (PersistenceExtractor.extractPersistence (Samples.document [] [Samples.jmsFlow]) "flow")) =
  [ {| jms_name := JStr "Adapter_0";
       jms_type := "JMS";
       jms_properties := [("queueName", JStr "orders.q")] |} ].
Proof.
  pose proof (jms_adapter_persistence (Samples.document [] [Samples.jmsFlow]) "flow" 0
                Samples.jmsFlow
                {| ifl_property := Several [Samples.property "ComponentType" "JMS";
                                            Samples.property "queueName" "orders.q"] |}
                (Samples.property "queueName" "orders.q")
                eq_refl eq_refl eq_refl) as H.
  cbv zeta in H.
  refine (let H' := H _ eq_refl in conj (proj1 H') (proj1 (proj2 (proj2 (proj2 H'))))).
  apply list_elem_of_In. simpl. tauto.
Defined.

(** ** Deduplication of security mechanisms *)
Section Deduplication.
Import SecurityProcessor Vocabulary.

Lemma fold_dedupStep (l : list SecurityMechanism) :
  forall (seen : gset string) (acc : list SecurityMechanism),
    (fold_left dedupStep l (seen, acc)).2 = acc ++ dedupFrom seen l.
Proof.
  induction l as [|m rest IH]; intros seen acc; simpl.
  - by rewrite app_nil_r.
  - destruct (bool_decide (dedupKey m ∈ seen)).
    + apply IH.
    + rewrite IH. by rewrite <- app_assoc.
Qed.

Lemma deduplicate_dedupFrom (l : list SecurityMechanism) :
  deduplicateSecurityMechanisms l = dedupFrom ∅ l.
Proof. unfold deduplicateSecurityMechanisms. by rewrite fold_dedupStep. Qed.

Lemma dedupFrom_sublist (l : list SecurityMechanism) :
  forall seen : gset string, dedupFrom seen l `sublist_of` l.
Proof.
  induction l as [|m rest IH]; intros seen; simpl; [done|].
  destruct (bool_decide (dedupKey m ∈ seen)).
  - by apply sublist_cons.
  - by apply sublist_skip.
Qed.

Lemma dedupFrom_fresh (l : list SecurityMechanism) :
  forall (seen : gset string) (m : SecurityMechanism),
    m ∈ dedupFrom seen l -> dedupKey m ∉ seen.
Proof.
  induction l as [|x rest IH]; intros seen m Hm; simpl in Hm.
  - by apply elem_of_nil in Hm.
  - destruct (bool_decide (dedupKey x ∈ seen)) eqn:Hx.
    + by apply IH.
    + apply bool_decide_eq_false in Hx.
      apply elem_of_cons in Hm as [-> | Hm]; [done|].
      apply IH in Hm. intros H. apply Hm. apply elem_of_union. by right.
Qed.

Lemma dedupFrom_NoDup (l : list SecurityMechanism) :
  forall seen : gset string, NoDup (map dedupKey (dedupFrom seen l)).
Proof.
  induction l as [|x rest IH]; intros seen; simpl; [constructor|].
  destruct (bool_decide (dedupKey x ∈ seen)) eqn:Hx; [apply IH|].
  simpl. constructor; [|apply IH].
  intros Hin. apply list_elem_of_fmap in Hin as (m & Hkey & Hm).
  apply dedupFrom_fresh in Hm. apply Hm. apply elem_of_union. left.
  by apply elem_of_singleton.
Qed.

(** A record is kept when its key is new and no earlier record has it. *)
Lemma dedupFrom_first (l : list SecurityMechanism) :
  forall (seen : gset string) (i : nat) (m : SecurityMechanism),
    l !! i = Some m ->
    dedupKey m ∉ seen ->
    (forall j m', (j < i)%nat -> l !! j = Some m' -> dedupKey m' <> dedupKey m) ->
    m ∈ dedupFrom seen l.
Proof.
  induction l as [|x rest IH]; intros seen i m Hi Hseen Hfirst; [discriminate Hi|].
  simpl. destruct i as [|i]; simpl in Hi.
  - injection Hi as ->. rewrite bool_decide_eq_false_2 by done. apply list_elem_of_here.
  - assert (Hx : dedupKey x <> dedupKey m) by (apply (Hfirst 0%nat x); [lia|done]).
    assert (Hrest : forall j m', (j < i)%nat -> rest !! j = Some m' -> dedupKey m' <> dedupKey m).
    { intros j m' Hj Hm'. apply (Hfirst (S j) m'); [lia|done]. }
    destruct (bool_decide (dedupKey x ∈ seen)).
    + by apply (IH seen i).
    + apply elem_of_cons. right. apply (IH _ i); [done| |done].
      intros [H%elem_of_singleton | H]%elem_of_union; [congruence|done].
Qed.

(** Every record that is kept is the first of its key. *)
Lemma dedupFrom_is_first (l : list SecurityMechanism) :
  forall (seen : gset string) (m : SecurityMechanism),
    m ∈ dedupFrom seen l ->
    exists i, l !! i = Some m /\
              forall j m', (j < i)%nat -> l !! j = Some m' -> dedupKey m' <> dedupKey m.
Proof.
  induction l as [|x rest IH]; intros seen m Hm; simpl in Hm.
  - by apply elem_of_nil in Hm.
  - destruct (bool_decide (dedupKey x ∈ seen)) eqn:Hx.
    + apply bool_decide_eq_true in Hx.
      pose proof (dedupFrom_fresh _ _ _ Hm) as Hfresh.
      destruct (IH seen m Hm) as (i & Hi & Hfirst).
      exists (S i). split; [done|]. intros [|j] m' Hj Hm'; simpl in Hm'.
      * injection Hm' as <-. intros Heq. rewrite Heq in Hx. done.
      * apply (Hfirst j m'); [lia|done].
    + apply bool_decide_eq_false in Hx.
      apply elem_of_cons in Hm as [-> | Hm].
      * exists 0%nat. split; [done|]. intros j m' Hj. lia.
      * pose proof (dedupFrom_fresh _ _ _ Hm) as Hfresh.
        destruct (IH _ m Hm) as (i & Hi & Hfirst).
        exists (S i). split; [done|]. intros [|j] m' Hj Hm'; simpl in Hm'.
        -- injection Hm' as <-. intros Heq. apply Hfresh. apply elem_of_union. left.
           by apply elem_of_singleton.
        -- apply (Hfirst j m'); [lia|done].
Qed.

(** Every key of the input is the key of a record that is kept. *)
Lemma dedupFrom_covers (l : list SecurityMechanism) :
  forall (seen : gset string) (m : SecurityMechanism),
    m ∈ l ->
    dedupKey m ∉ seen ->
    exists m', m' ∈ dedupFrom seen l /\ dedupKey m' = dedupKey m.
Proof.
  induction l as [|x rest IH]; intros seen m Hm Hseen.
  - by apply elem_of_nil in Hm.
  - simpl. destruct (bool_decide (dedupKey x ∈ seen)) eqn:Hx.
    + apply bool_decide_eq_true in Hx.
      apply elem_of_cons in Hm as [-> | Hm]; [done|]. by apply IH.
    + destruct (decide (dedupKey x = dedupKey m)) as [Heq|Hne].
      * exists x. split; [apply list_elem_of_here|done].
      * apply elem_of_cons in Hm as [-> | Hm]; [done|].
        destruct (IH ({[dedupKey x]} ∪ seen) m Hm) as (m' & Hm' & Hkey).
        { intros [H%elem_of_singleton | H]%elem_of_union; [congruence|done]. }
        exists m'. split; [|done]. apply elem_of_cons. by right.
Qed.

Lemma append_cons (c : ascii) (a b : string) : String c a +:+ b = String c (a +:+ b).
Proof. reflexivity. Qed.

Lemma append_empty (b : string) : "" +:+ b = b.
Proof. reflexivity. Qed.

Lemma length_append (a b : string) :
  String.length (a +:+ b) = (String.length a + String.length b)%nat.
Proof.
  induction a as [|c a IH]; [done|].
  rewrite append_cons. simpl. by rewrite IH.
Qed.

Lemma append_suffix_inj (a b s t : string) :
  String.length s = String.length t -> a +:+ s = b +:+ t -> a = b /\ s = t.
Proof.
  revert b. induction a as [|c a IH]; intros [|c' b] Hlen Heq;
    rewrite ?append_cons, ?append_empty in Heq.
  - done.
  - exfalso. rewrite Heq in Hlen. simpl in Hlen. rewrite length_append in Hlen. lia.
  - exfalso. rewrite <- Heq in Hlen. simpl in Hlen. rewrite length_append in Hlen. lia.
  - injection Heq as -> Heq. destruct (IH b Hlen Heq) as [-> ->]. done.
Qed.

Lemma append_assoc (a b c : string) : (a +:+ b) +:+ c = a +:+ (b +:+ c).
Proof.
  induction a as [|x a IH]; [done|].
  rewrite !append_cons. by rewrite IH.
Qed.

(** On well-formed records the key tells the pair. *)
Lemma dedupKey_inj (m1 m2 : SecurityMechanism) :
  wellFormed m1 -> wellFormed m2 ->
  dedupKey m1 = dedupKey m2 -> nameAndDirection m1 = nameAndDirection m2.
Proof.
  intros [[n1 Hn1] Hd1] [[n2 Hn2] Hd2]. unfold dedupKey, nameAndDirection.
  rewrite Hn1, Hn2. simpl.
  destruct Hd1 as [-> | ->], Hd2 as [-> | ->]; simpl; intros Heq.
  - apply (append_suffix_inj n1 n2 "_Inbound" "_Inbound") in Heq as [-> _]; done.
  - exfalso. change (n2 +:+ "_Outbound") with (n2 +:+ "_" +:+ "Outbound") in Heq.
    rewrite <- (append_assoc n2 "_" "Outbound") in Heq.
    apply (append_suffix_inj n1 (n2 +:+ "_") "_Inbound" "Outbound") in Heq as [_ Heq]; done.
  - exfalso. change (n1 +:+ "_Outbound") with (n1 +:+ "_" +:+ "Outbound") in Heq.
    rewrite <- (append_assoc n1 "_" "Outbound") in Heq.
    apply (append_suffix_inj (n1 +:+ "_") n2 "Outbound" "_Inbound") in Heq as [_ Heq]; done.
  - apply (append_suffix_inj n1 n2 "_Outbound" "_Outbound") in Heq as [-> _]; done.
Qed.

Lemma dedupKey_of_pair (m1 m2 : SecurityMechanism) :
  nameAndDirection m1 = nameAndDirection m2 -> dedupKey m1 = dedupKey m2.
Proof. unfold nameAndDirection, dedupKey. by intros [= -> ->]. Qed.

(** C6.  On a list of security records (names are strings, directions are
    Inbound or Outbound) the deduplication keeps, in input order, exactly
    one record for each distinct pair of name and direction, and it is the
    first record of the input with that pair; no two records of the output
    share both name and direction. *)
Theorem deduplicate_one_per_pair (l : list SecurityMechanism) :
  Forall wellFormed l ->
  let out := deduplicateSecurityMechanisms l in
  out `sublist_of` l /\
  NoDup (map nameAndDirection out) /\
  (forall m, m ∈ l -> exists m', m' ∈ out /\ nameAndDirection m' = nameAndDirection m) /\
  (forall m', m' ∈ out ->
     exists i, l !! i = Some m' /\
               forall j m, (j < i)%nat -> l !! j = Some m ->
                           nameAndDirection m <> nameAndDirection m').
Proof.
  intros Hwf out. unfold out. rewrite deduplicate_dedupFrom.
  assert (Hsub := dedupFrom_sublist l ∅).
  repeat split.
  - exact Hsub.
  - apply (NoDup_fmap_1 (fun p : JsVal * JsVal => Js.toStr p.1 +:+ "_" +:+ Js.toStr p.2)).
    rewrite <- list_fmap_compose. apply (dedupFrom_NoDup l ∅).
  - intros m Hm.
    destruct (dedupFrom_covers l ∅ m Hm) as (m' & Hm' & Hkey); [apply not_elem_of_empty|].
    exists m'. split; [done|].
    rewrite Forall_forall in Hwf.
    apply dedupKey_inj; [| |done].
    + apply Hwf. by apply (elem_of_sublist _ _ _ Hm' Hsub).
    + by apply Hwf.
  - intros m' Hm'. destruct (dedupFrom_is_first l ∅ m' Hm') as (i & Hi & Hfirst).
    exists i. split; [done|]. intros j m Hj Hm Heq.
    apply (Hfirst j m Hj Hm). by apply dedupKey_of_pair.
Qed.

Lemma deduplicate_one_per_pair_witness :
  let l := [Samples.inboundNamed "A_Basic"; Samples.outboundNamed "A_Basic";
            Samples.inboundNamed "A_Basic"] in
  let out := SecurityProcessor.deduplicateSecurityMechanisms l in
  out `sublist_of` l /\
  NoDup (map nameAndDirection out) /\
  (forall m, m ∈ l -> exists m', m' ∈ out /\ nameAndDirection m' = nameAndDirection m) /\
  (forall m', m' ∈ out ->
     exists i, l !! i = Some m' /\
               forall j m, (j < i)%nat -> l !! j = Some m ->
                           nameAndDirection m <> nameAndDirection m').
Proof.
  apply (deduplicate_one_per_pair
           [Samples.inboundNamed "A_Basic"; Samples.outboundNamed "A_Basic";
            Samples.inboundNamed "A_Basic"]).
  repeat (apply Forall_cons; split; [split; [eexists; reflexivity | simpl; tauto]|]).
  apply Forall_nil. exact I.
Defined.

(** Outside the well-formed records the key, a concatenation, can be the
    same for two different pairs; the second record is then dropped. *)
Remark dedupKey_collision :
  let first := {| mechanism_name := JStr "a_b"; mechanism_type := JStr "OAuth";
                  direction := JStr "c"; configuration := JObj [] |} in
  let second := {| mechanism_name := JStr "a"; mechanism_type := JStr "OAuth";
                   direction := JStr "b_c"; configuration := JObj [] |} in
  nameAndDirection first <> nameAndDirection second /\
  dedupKey first = dedupKey second /\
  deduplicateSecurityMechanisms [first; second] = [first].
Proof. repeat split. discriminate. Qed.

End Deduplication.

(** ** Running the pipeline twice *)
Section Determinism.

Variable housekeepingDir : string.
Variable AdmZip : list Byte.byte -> Exc (list ZipEntry).
Variable readAsText : ZipEntry -> Exc string.
Variable parseXml : string -> Exc ParsedXml.
Variable JSON_stringify : JsVal -> string.
Variable JSON_parse : string -> Exc JsVal.

Abbreviation unpack := (ArchiveUnpacker.extractXmlFromZip housekeepingDir AdmZip readAsText parseXml).
Abbreviation run := (Pipeline.run housekeepingDir AdmZip readAsText parseXml JSON_stringify JSON_parse).

Lemma writeFileSync_directories (path : string) (data : FileData) (fs fs' : FileSystem) :
  Fs.writeFileSync path data fs = Return fs' -> fs_directories fs' = fs_directories fs.
Proof.
  unfold Fs.writeFileSync. destruct (bool_decide _); [|done]. by intros [= <-].
Qed.

Lemma writeFileSync_same_directories (path : string) (data : FileData) (fs fs' : FileSystem) :
  fs_directories fs = fs_directories fs' ->
  match Fs.writeFileSync path data fs, Fs.writeFileSync path data fs' with
  | Return _, Return _ => True
  | Throw _, Throw _ => True
  | _, _ => False
  end.
Proof.
  intros H. unfold Fs.writeFileSync. rewrite H. by destruct (bool_decide _).
Qed.

(** What the unpacker returns depends on the file system through its
    directories only. *)
Lemma extractXmlFromZip_result (zipBuffer : list Byte.byte) (flowId : string)
    (fs fs' : FileSystem) :
  fs_directories fs = fs_directories fs' ->
  (unpack zipBuffer flowId fs).1 = (unpack zipBuffer flowId fs').1.
Proof.
  intros Hdirs. unfold ArchiveUnpacker.extractXmlFromZip.
  pose proof (writeFileSync_same_directories
                (housekeepingDir +:+ "/" +:+ flowId +:+ ".zip") (BufferData zipBuffer)
                fs fs' Hdirs) as Hw1.
  destruct (Fs.writeFileSync _ (BufferData zipBuffer) fs) as [fs1|] eqn:H1;
    destruct (Fs.writeFileSync _ (BufferData zipBuffer) fs') as [fs1'|] eqn:H1';
    try done.
  apply writeFileSync_directories in H1, H1'.
  destruct (AdmZip zipBuffer) as [zipEntries|]; [|done].
  destruct (List.find _ zipEntries) as [iflwEntry|]; [|done].
  destruct (readAsText iflwEntry) as [xmlContent|]; [|done].
  assert (Hdirs1 : fs_directories fs1 = fs_directories fs1') by congruence.
  pose proof (writeFileSync_same_directories
                (housekeepingDir +:+ "/" +:+ flowId +:+ ".iflw") (TextData xmlContent)
                fs1 fs1' Hdirs1) as Hw2.
  destruct (Fs.writeFileSync _ (TextData xmlContent) fs1) as [fs2|];
    destruct (Fs.writeFileSync _ (TextData xmlContent) fs1') as [fs2'|];
    try done.
  by destruct (parseXml xmlContent).
Qed.

Lemma paths_differ (stem : string) : stem +:+ ".zip" <> stem +:+ ".iflw".
Proof.
  induction stem as [|c stem IH]; [done|].
  rewrite !append_cons. intros [= H]. by apply IH.
Qed.

(** Writing a file again with the same content changes nothing. *)
Lemma writeFileSync_again (path : string) (data : FileData) (fs fs1 : FileSystem) :
  Fs.writeFileSync path data fs = Return fs1 -> Fs.writeFileSync path data fs1 = Return fs1.
Proof.
  unfold Fs.writeFileSync. destruct (bool_decide _) eqn:Hdir; [|done].
  intros [= <-]. simpl. rewrite Hdir. by rewrite insert_insert_eq.
Qed.

(** Nor does writing again the first of two files that were written. *)
Lemma writeFileSync_first_again (path1 path2 : string) (data1 data2 : FileData)
    (fs fs1 fs2 : FileSystem) :
  path1 <> path2 ->
  Fs.writeFileSync path1 data1 fs = Return fs1 ->
  Fs.writeFileSync path2 data2 fs1 = Return fs2 ->
  Fs.writeFileSync path1 data1 fs2 = Return fs2.
Proof.
  intros Hne. unfold Fs.writeFileSync.
  destruct (bool_decide (Fs.dirname path1 ∈ _)) eqn:Hdir1; [|done]. intros [= <-]. simpl.
  destruct (bool_decide (Fs.dirname path2 ∈ _)) eqn:Hdir2; [|done]. intros [= <-]. simpl.
  rewrite Hdir1. rewrite (insert_insert_ne _ path1 path2); [|done].
  by rewrite insert_insert_eq.
Qed.

(** The unpacker, run again in the file system that it leaves, returns what
    it returned and leaves what it left, at whichever step it stopped. *)
Lemma extractXmlFromZip_twice (zipBuffer : list Byte.byte) (flowId : string) (fs : FileSystem) :
  unpack zipBuffer flowId (unpack zipBuffer flowId fs).2 = unpack zipBuffer flowId fs.
Proof.
  assert (Hne : housekeepingDir +:+ "/" +:+ flowId +:+ ".zip"
                <> housekeepingDir +:+ "/" +:+ flowId +:+ ".iflw").
  { rewrite <- !append_assoc. apply paths_differ. }
  unfold ArchiveUnpacker.extractXmlFromZip.
  destruct (Fs.writeFileSync _ (BufferData zipBuffer) fs) as [fs1|] eqn:H1;
    cbn [snd]; [|by rewrite H1].
  pose proof (writeFileSync_again _ _ _ _ H1) as H1'.
  destruct (AdmZip zipBuffer) as [zipEntries|]; cbn [snd]; [|by rewrite H1'].
  destruct (List.find _ zipEntries) as [iflwEntry|]; cbn [snd]; [|by rewrite H1'].
  destruct (readAsText iflwEntry) as [xmlContent|]; cbn [snd]; [|by rewrite H1'].
  destruct (Fs.writeFileSync _ (TextData xmlContent) fs1) as [fs2|] eqn:H2;
    cbn [snd]; [|by rewrite H1', H2].
  pose proof (writeFileSync_first_again _ _ _ _ _ _ _ Hne H1 H2) as H1''.
  pose proof (writeFileSync_again _ _ _ _ H2) as H2'.
  destruct (parseXml xmlContent); cbn [snd]; by rewrite H1'', H2'.
Qed.

(** C9.  Running the pipeline a second time on the same archive bytes and
    artifact identifier, in the file system that the first run leaves,
    yields the same outputs as the first run, or the same failure: the
    same extracted and processed adapter lists, security-mechanism lists,
    error-handling and persistence configurations, element order included.
    The second run also leaves the file system as the first run left it,
    and what a run returns does not depend on the files that are there,
    only on the directories.  The zip reader, the XML parser and JSON are
    taken as functions of their input. *)
Theorem pipeline_deterministic (zipBuffer : list Byte.byte) (flowId : string)
    (fs : FileSystem) :
  let first := run zipBuffer flowId fs in
  let second := run zipBuffer flowId first.2 in
  second.1 = first.1 /\
  second.2 = first.2 /\
  (forall fs' : FileSystem,
     fs_directories fs' = fs_directories fs -> (run zipBuffer flowId fs').1 = first.1).
Proof.
  cbv zeta.
  assert (Hstate : (run zipBuffer flowId fs).2 = (unpack zipBuffer flowId fs).2).
  { unfold Pipeline.run. by destruct (unpack zipBuffer flowId fs) as [[doc|] fs1]. }
  assert (Htwice : run zipBuffer flowId (run zipBuffer flowId fs).2 = run zipBuffer flowId fs).
  { rewrite Hstate. unfold Pipeline.run. by rewrite extractXmlFromZip_twice. }
  split; [by rewrite Htwice|]. split; [by rewrite Htwice|].
  intros fs' Hdirs. unfold Pipeline.run.
  pose proof (extractXmlFromZip_result zipBuffer flowId fs' fs Hdirs) as Hsame.
  destruct (unpack zipBuffer flowId fs') as [doc' fs1'].
  destruct (unpack zipBuffer flowId fs) as [doc fs1].
  simpl in Hsame. subst doc'. by destruct doc.
Qed.

End Determinism.

(** A run that returns outputs: an archive with a definition file whose
    document has a sender with basic authentication, a JMS adapter and a
    process with transaction handling. *)
Lemma pipeline_deterministic_witness :
  let run := Pipeline.run "/housekeeping"
               (fun _ : list Byte.byte => Return Samples.archiveEntries)
               (fun entry : ZipEntry => Return (entryName entry))
               (fun _ : string => Return Samples.integrationFlow)
               (fun _ : JsVal => "{}") (fun _ : string => Throw "SyntaxError") in
  let fs := Samples.emptyFileSystem "/housekeeping" in
  let first := run [] "flow" fs in
  let second := run [] "flow" first.2 in
  (second.1 = first.1 /\
   second.2 = first.2 /\
   (forall fs' : FileSystem,
      fs_directories fs' = fs_directories fs -> (run [] "flow" fs').1 = first.1)) /\
  exists out : PipelineOutput,
    first.1 = Some out /\
    map processed_adapter_name (output_processedAdapters out) = ["HTTPS_IN"; "Adapter_1"] /\
    map Vocabulary.summary (output_processedSecurity out)
    = [(JStr "HTTPS_IN_BasicAuthentication", JStr "Basic Authentication", JStr "Inbound")] /\
    processed_jms_enabled (output_processedPersistence out) = Some true /\
    map processedJms_name
      (processed_jmsAdapters (processed_persistence_details (output_processedPersistence out)))
    = ["Adapter_1"] /\
    processed_detection_enabled (output_processedErrorHandling out) = Some false /\
    (processed_transactionHandling <$>
       (processed_processDetails
          (processed_error_handling_details (output_processedErrorHandling out))
        ≫= lookup "[object Object]"))
    = Some (Some {| transactionTimeout := "Not specified";
                    transactionalHandling := "Required";
                    supportsRollback := true |}).
Proof.
  split.
  - apply (pipeline_deterministic "/housekeeping"
             (fun _ : list Byte.byte => Return Samples.archiveEntries)
             (fun entry : ZipEntry => Return (entryName entry))
             (fun _ : string => Return Samples.integrationFlow)
             (fun _ : JsVal => "{}") (fun _ : string => Throw "SyntaxError")
             [] "flow" (Samples.emptyFileSystem "/housekeeping")).
  - eexists. split; [vm_compute; reflexivity|]. vm_compute. repeat split.
Defined.

(** * Further properties of the extractors and the processors *)

(** ** Strings *)
Lemma append_empty_r (a : string) : a +:+ "" = a.
Proof. induction a as [|c a IH]; [done|]. rewrite append_cons. by rewrite IH. Qed.

Lemma append_nonempty (a b : string) : b <> "" -> a +:+ b <> "".
Proof.
  intros Hb H. apply (f_equal String.length) in H. rewrite length_append in H.
  destruct b; [done|]. simpl in H. lia.
Qed.

Lemma append_nonempty_l (a b : string) : a <> "" -> a +:+ b <> "".
Proof. intros Ha. destruct a; [done|]. by rewrite append_cons. Qed.

Lemma orElse_nonempty (a b : string) : b <> "" -> JsString.orElse a b <> "".
Proof.
  intros Hb. unfold JsString.orElse. destruct (JsString.truthy a) eqn:Ha; [|done].
  by apply truthy_true.
Qed.

Lemma substring0_length (n : nat) (s : string) :
  String.length (JsString.substring0 n s) = Nat.min n (String.length s).
Proof.
  unfold JsString.substring0. revert n.
  induction s as [|c s IH]; intros [|n]; simpl; try done.
  by rewrite IH.
Qed.

Lemma substring0_prefix (n : nat) (s : string) :
  exists rest, s = JsString.substring0 n s +:+ rest.
Proof.
  unfold JsString.substring0. revert n.
  induction s as [|c s IH]; intros [|n]; simpl.
  - by exists "".
  - by exists "".
  - by exists (String c s).
  - destruct (IH n) as [rest Hrest]. exists rest.
    rewrite append_cons. by rewrite <- Hrest.
Qed.

Lemma trimStart_clean (s : string) (c : ascii) (t : string) :
  JsString.trimStart s = String c t -> JsString.isWhiteSpace c = false.
Proof.
  induction s as [|a s IH]; simpl; [done|].
  destruct (JsString.isWhiteSpace a) eqn:Ha; [done|].
  by intros [= <- <-].
Qed.

Lemma trimEnd_head (c : ascii) (s : string) :
  JsString.isWhiteSpace c = false ->
  exists t, JsString.trimEnd (String c s) = String c t.
Proof.
  intros Hc. simpl. destruct (JsString.trimEnd s); rewrite ?Hc; eauto.
Qed.

Lemma trim_clean (s : string) (c : ascii) (t : string) :
  JsString.trim s = String c t -> JsString.isWhiteSpace c = false.
Proof.
  unfold JsString.trim. destruct (JsString.trimStart s) as [|a u] eqn:Hs; [done|].
  pose proof (trimStart_clean s a u Hs) as Ha.
  destruct (trimEnd_head a u Ha) as [v ->]. by intros [= <- <-].
Qed.

Lemma find_none_forall {A : Type} (f : A -> bool) (l : list A) :
  (forall a, a ∈ l -> f a = false) -> List.find f l = None.
Proof.
  intros H. induction l as [|a rest IH]; [done|]. simpl.
  rewrite (H a); [|apply list_elem_of_here]. apply IH. intros b Hb. apply H.
  by apply list_elem_of_further.
Qed.

Lemma find_first {A : Type} (f : A -> bool) (before after : list A) (a : A) :
  (forall b, b ∈ before -> f b = false) -> f a = true ->
  List.find f (before ++ a :: after) = Some a.
Proof.
  intros H Ha. induction before as [|b rest IH]; simpl; [by rewrite Ha|].
  rewrite (H b); [|apply list_elem_of_here]. apply IH. intros c Hc. apply H.
  by apply list_elem_of_further.
Qed.

(** ** Property lookup *)
Section PropertyLookup.
Import BaseXmlExtractor.

Lemma keyText_differs (q : IflProperty) (key : string) :
  Xml.keyText q <> Some key ->
  match Xml.keyText q with
  | Some k => JsString.eqb k key
  | None => false
  end = false.
Proof.
  intros H. destruct (Xml.keyText q) as [k|]; [|done].
  apply eqb_false. intros ->. by apply H.
Qed.

(** X1.  [getPropertyValue] answers with the value of the first property
    that carries the key, whatever follows it, and with the empty string
    when no property carries the key: a missing key and an empty value
    cannot be told apart. *)
Theorem getPropertyValue_first_match (before : list IflProperty) (key : string) :
  (forall q, q ∈ before -> Xml.keyText q <> Some key) ->
  getPropertyValue before key = "" /\
  forall (p : IflProperty) (after : list IflProperty),
    Xml.keyText p = Some key ->
    getPropertyValue (before ++ p :: after) key = Xml.valueOrEmpty p.
Proof.
  intros H. split.
  - unfold getPropertyValue. rewrite find_none_forall; [done|].
    intros q Hq. apply keyText_differs. by apply H.
  - intros p after Hp. unfold getPropertyValue.
    rewrite (find_first _ before after p); [done| |by rewrite Hp, eqb_refl].
    intros q Hq. apply keyText_differs. by apply H.
Qed.

Lemma getPropertyValue_first_match_witness :
  getPropertyValue [Samples.property "Name" "A"] "direction" = "" /\
  forall (p : IflProperty) (after : list IflProperty),
    Xml.keyText p = Some "direction" ->
    getPropertyValue ([Samples.property "Name" "A"] ++ p :: after) "direction"
    = Xml.valueOrEmpty p.
Proof.
  apply (getPropertyValue_first_match [Samples.property "Name" "A"] "direction").
  intros q Hq. apply list_elem_of_singleton in Hq. subst q. simpl. discriminate.
Defined.

End PropertyLookup.

(** ** Sanitised strings *)
Section Sanitising.
Import BaseProcessor.

Lemma sanitizeString_length (value : JsVal) (n : nat) :
  0 < n -> String.length (sanitizeString value (Some n)) <= n.
Proof.
  intros Hn. unfold sanitizeString.
  destruct value as [| |b|z|s|items|fields|f]; try (simpl; lia).
  destruct (JsString.truthy s); [|simpl; lia].
  destruct ((0 <? n)%nat && (n <? String.length (JsString.trim s))%nat) eqn:Hcut.
  - rewrite substring0_length. lia.
  - apply andb_false_iff in Hcut as [H0 | Hlen].
    + apply Nat.ltb_ge in H0. lia.
    + by apply Nat.ltb_ge in Hlen.
Qed.

(** X2.  With a positive bound, [sanitizeString] returns at most that many
    code units; what it returns does not begin with white space, and for a
    string it is a prefix of the trimmed input. *)
Theorem sanitizeString_bounded (value : JsVal) (n : nat) :
  0 < n ->
  String.length (sanitizeString value (Some n)) <= n /\
  (forall c rest,
     sanitizeString value (Some n) = String c rest -> JsString.isWhiteSpace c = false) /\
  (forall s, value = JStr s ->
             exists rest, JsString.trim s = sanitizeString value (Some n) +:+ rest).
Proof.
  intros Hn. split; [by apply sanitizeString_length|].
  unfold sanitizeString.
  destruct value as [| |b|z|s|items|fields|f]; try (split; [done|done]).
  destruct (JsString.truthy s) eqn:Hs.
  2:{ split; [done|]. intros s' [= <-].
      apply truthy_false in Hs. subst s. by exists "". }
  destruct (0 <? n)%nat eqn:H0; [|apply Nat.ltb_ge in H0; lia].
  simpl. destruct (n <? String.length (JsString.trim s))%nat eqn:Hlen.
  - split.
    + intros c rest Hr. destruct n as [|n]; [lia|].
      destruct (JsString.trim s) as [|a u] eqn:Ht; [done|].
      unfold JsString.substring0 in Hr. simpl in Hr.
      injection Hr as <- _. by apply (trim_clean s a u).
    + intros s' [= <-]. apply substring0_prefix.
  - split.
    + intros c rest. apply trim_clean.
    + intros s' [= <-]. exists "". by rewrite append_empty_r.
Qed.

Lemma sanitizeString_bounded_witness :
  String.length (sanitizeString (JStr "  Basic Authentication ") (Some 5)) <= 5 /\
  (forall c rest,
     sanitizeString (JStr "  Basic Authentication ") (Some 5) = String c rest ->
     JsString.isWhiteSpace c = false) /\
  (forall s, JStr "  Basic Authentication " = JStr s ->
             exists rest,
               JsString.trim s
               = sanitizeString (JStr "  Basic Authentication ") (Some 5) +:+ rest).
Proof. apply (sanitizeString_bounded (JStr "  Basic Authentication ") 5). lia. Defined.

End Sanitising.

(** ** The security processor on any array *)
Section ProcessedMechanisms.
Import BaseProcessor SecurityProcessor Vocabulary.

Variable JSON_parse : string -> Exc JsVal.

(** X3.  Every canonical type, and the string None, is a fixed point of
    [normalizeSecurityType]: normalising an already normalised type
    changes nothing. *)
Theorem normalizeSecurityType_canonical (t : string) :
  t ∈ closedTypes \/ t = "None" ->
  normalizeSecurityType (JStr t) = JStr t.
Proof.
  intros [H | ->]; [|reflexivity].
  apply list_elem_of_In in H. simpl in H.
  repeat (destruct H as [<- | H]; [vm_compute; reflexivity|]). destruct H.
Qed.

Lemma normalizeSecurityType_canonical_witness :
  normalizeSecurityType (JStr "Client Certificate") = JStr "Client Certificate".
Proof.
  apply (normalizeSecurityType_canonical "Client Certificate").
  left. apply list_elem_of_In. simpl. tauto.
Defined.

Lemma determineSecurityDirection_returned (mechanism : SecurityMechanism) (d : string) :
  determineSecurityDirection mechanism = Return d -> d = "Inbound" \/ d = "Outbound".
Proof.
  unfold determineSecurityDirection.
  destruct (Js.truthy (direction mechanism)).
  - destruct (JsString.eqb (sanitizeString (direction mechanism) (Some 50)) "Inbound") eqn:Hi.
    { apply eqb_true in Hi. simpl. intros [= <-]. tauto. }
    destruct (JsString.eqb (sanitizeString (direction mechanism) (Some 50)) "Outbound") eqn:Ho.
    { apply eqb_true in Ho. simpl. intros [= <-]. tauto. }
    simpl. destruct (lowerMechanismType (mechanism_type mechanism)); [|done]. simpl.
    repeat match goal with |- context [if ?b then _ else _] => destruct b end;
      intros [= <-]; tauto.
  - destruct (lowerMechanismType (mechanism_type mechanism)); [|done]. simpl.
    repeat match goal with |- context [if ?b then _ else _] => destruct b end;
      intros [= <-]; tauto.
Qed.

Lemma lowerMechanismType_string (mechanism_type : JsVal) :
  Js.isString mechanism_type = true \/ Js.isNullish mechanism_type = true ->
  exists t, lowerMechanismType mechanism_type = Return t.
Proof. destruct mechanism_type; simpl; intros [H | H]; try done; eauto. Qed.

(** X4.  [determineSecurityDirection] returns Inbound or Outbound and
    nothing else; it throws only for a type that is neither a string nor
    null nor undefined (and then only without a valid explicit
    direction). *)
Theorem determineSecurityDirection_range (mechanism : SecurityMechanism) :
  match determineSecurityDirection mechanism with
  | Return d => d = "Inbound" \/ d = "Outbound"
  | Throw _ =>
      Js.isString (mechanism_type mechanism) = false /\
      Js.isNullish (mechanism_type mechanism) = false
  end.
Proof.
  destruct (determineSecurityDirection mechanism) as [d|e] eqn:Hd.
  - by apply (determineSecurityDirection_returned mechanism).
  - destruct (Js.isString (mechanism_type mechanism)) eqn:Hs;
      destruct (Js.isNullish (mechanism_type mechanism)) eqn:Hn; try done; exfalso.
    all: destruct (lowerMechanismType_string (mechanism_type mechanism)) as [t Ht];
      [rewrite ?Hs, ?Hn; tauto|].
    all: unfold determineSecurityDirection in Hd; rewrite Ht in Hd; simpl in Hd.
    all: repeat match type of Hd with context [if ?b then _ else _] => destruct b end;
      simpl in Hd; discriminate Hd.
Qed.

Lemma closedTypes_length (t : string) :
  t ∈ closedTypes \/ t = "None" -> String.length t <= 100.
Proof.
  intros [H | ->]; [|simpl; lia].
  apply list_elem_of_In in H. simpl in H.
  repeat (destruct H as [<- | H]; [simpl; lia|]). destruct H.
Qed.

Lemma normalizeSecurityType_shape (mechanismType : JsVal) :
  match normalizeSecurityType mechanismType with
  | JStr t => String.length t <= 100
  | JBuiltin _ => True
  | _ => False
  end.
Proof.
  unfold normalizeSecurityType.
  destruct (Js.truthy mechanismType); cbv beta iota delta [negb]; [|simpl; lia].
  pose proof (sanitizeString_length mechanismType 100 ltac:(lia)) as Hlen.
  revert Hlen. generalize (sanitizeString mechanismType (Some 100)). intros sanitized Hlen.
  destruct (lookupTypeMapping_cases sanitized) as [(t & -> & -> & Ht) | [(member & -> & Hm) | Hu]].
  - by apply closedTypes_length.
  - done.
  - rewrite Hu. cbv beta iota delta [Js.truthy].
    destruct (partialMatch sanitized) as [value|] eqn:Hp; [|done].
    apply closedTypes_length. by apply (partialMatch_cases sanitized).
Qed.

Lemma processIndividualSecurityMechanism_shape (mechanism processed : SecurityMechanism)
    (flowId : string) :
  processIndividualSecurityMechanism JSON_parse mechanism flowId = Some processed ->
  processedShape processed.
Proof.
  unfold processIndividualSecurityMechanism.
  destruct (determineSecurityDirection mechanism) as [d|] eqn:Hd; [|done].
  apply determineSecurityDirection_returned in Hd.
  simpl. destruct (processSecurityConfiguration JSON_parse (configuration mechanism)) as [c|];
    [|done].
  simpl. intros [= <-]. unfold processedShape. simpl. repeat split.
  - eexists. split; [reflexivity|]. apply sanitizeString_length. lia.
  - apply normalizeSecurityType_shape.
  - destruct Hd as [-> | ->]; tauto.
  - eauto.
Qed.

(** X5.  Whatever array the security processor is given, every record it
    returns has a string name of at most 255 code units, a type that is a
    string of at most 100 code units (or a member of [Object.prototype]),
    a direction that is Inbound or Outbound and an object as
    configuration; and it returns no more records than it was given. *)
Theorem processSecurityMechanisms_shape (flowId : string)
    (securityMechanisms : list SecurityMechanism) :
  Forall processedShape (processSecurityMechanisms JSON_parse flowId securityMechanisms) /\
  length (processSecurityMechanisms JSON_parse flowId securityMechanisms)
    <= length securityMechanisms.
Proof.
  unfold processSecurityMechanisms.
  induction securityMechanisms as [|m rest [IH1 IH2]]; [split; [constructor|done]|].
  cbn [flat_map length]. rewrite length_app.
  match goal with |- context [?x ++ flat_map _ rest] => set (now := x) end.
  assert (Hnow : Forall processedShape now /\ length now <= 1).
  { subst now. destruct (negb _); [split; [constructor|simpl; lia]|].
    destruct (processIndividualSecurityMechanism JSON_parse m flowId) as [p|] eqn:Hp;
      [|split; [constructor|simpl; lia]].
    split; [|simpl; lia]. constructor; [|constructor].
    by apply (processIndividualSecurityMechanism_shape m p flowId). }
  destruct Hnow as [H1 H2]. split; [by apply Forall_app|lia].
Qed.

Lemma fold_objSet_fresh (f : JsVal -> JsVal) (fields : JsObject) :
  forall acc : JsObject,
    NoDup (map fst fields) ->
    (forall k, k ∈ map fst fields -> k <> "__proto__" /\ Js.objHas acc k = false) ->
    fold_left (fun cleanedConfig entry => Js.objSet cleanedConfig entry.1 (f entry.2)) fields acc
    = acc ++ map (fun entry => (entry.1, f entry.2)) fields.
Proof.
  induction fields as [|[k v] rest IH]; intros acc Hnd Hfresh; simpl.
  - by rewrite app_nil_r.
  - simpl in Hnd. apply NoDup_cons in Hnd as [Hk Hnd].
    destruct (Hfresh k) as [Hproto Hhas]; [simpl; apply list_elem_of_here|].
    unfold Js.objSet at 2. rewrite (proj2 (eqb_false _ _) Hproto), Hhas.
    rewrite IH; [by rewrite <- app_assoc|done|].
    intros k' Hk'. destruct (Hfresh k') as [Hp' Hh']; [simpl; by apply list_elem_of_further|].
    split; [done|]. rewrite objHas_app, Hh'. simpl. apply eqb_false. by intros ->.
Qed.

(** X6.  On an object configuration (distinct keys, none of them
    [__proto__]) [processSecurityConfiguration] keeps every key in its
    place and cleans each value: the strings true and false, in any letter
    case, become booleans and every other value stays as it is. *)
Theorem processSecurityConfiguration_object (fields : JsObject) :
  NoDup (map fst fields) ->
  "__proto__" ∉ map fst fields ->
  processSecurityConfiguration JSON_parse (JObj fields)
  = Return (map (fun entry => (entry.1, cleanValue entry.2)) fields).
Proof.
  intros Hnd Hproto. unfold processSecurityConfiguration. simpl.
  f_equal. rewrite (fold_objSet_fresh cleanValue fields [] Hnd); [done|].
  intros k Hk. split; [|done]. by intros ->.
Qed.

(** X7.  A configuration that is a string holding JSON text for null
    passes [validateJson] as null, [Object.keys] throws on it, and the
    mechanism is dropped: the processor returns nothing for it. *)
Theorem null_configuration_drops_mechanism (mechanism : SecurityMechanism)
    (flowId text : string) :
  configuration mechanism = JStr text ->
  text <> "" ->
  JSON_parse text = Return JNull ->
  processSecurityConfiguration JSON_parse (configuration mechanism)
  = Throw "TypeError: Cannot convert undefined or null to object" /\
  processIndividualSecurityMechanism JSON_parse mechanism flowId = None /\
  processSecurityMechanisms JSON_parse flowId [mechanism] = [].
Proof.
  intros Hc Ht Hp.
  assert (H1 : processSecurityConfiguration JSON_parse (configuration mechanism)
               = Throw "TypeError: Cannot convert undefined or null to object").
  { unfold processSecurityConfiguration, validateJson. rewrite Hc. simpl.
    rewrite (proj2 (truthy_true _) Ht). simpl. by rewrite Hp. }
  assert (H2 : processIndividualSecurityMechanism JSON_parse mechanism flowId = None).
  { unfold processIndividualSecurityMechanism. rewrite H1.
    by destruct (determineSecurityDirection mechanism). }
  split; [done|]. split; [done|].
  unfold processSecurityMechanisms. simpl. rewrite H2. by destruct (negb _).
Qed.

(** X29.  A truthy type that sanitises to the empty string (a value that
    is not a string, or a string of white space only) is not mapped to
    Unknown: the empty string is contained in every key of the table, so
    the partial match answers with the first entry, and
    [normalizeSecurityType] returns Client Certificate. *)
Theorem blank_type_becomes_client_certificate (mechanismType : JsVal) :
  Js.truthy mechanismType = true ->
  Js.isString mechanismType = false \/
  (exists s, mechanismType = JStr s /\ JsString.trim s = "") ->
  sanitizeString mechanismType (Some 100) = "" /\
  normalizeSecurityType mechanismType = JStr "Client Certificate".
Proof.
  intros Ht Hblank.
  assert (Hs : sanitizeString mechanismType (Some 100) = "").
  { destruct Hblank as [Hn | (s & -> & Hs)].
    - by destruct mechanismType.
    - unfold sanitizeString. simpl in Ht. by rewrite Ht, Hs. }
  split; [done|].
  unfold normalizeSecurityType. rewrite Ht, Hs. reflexivity.
Qed.

Lemma blank_type_becomes_client_certificate_witness :
  sanitizeString (JStr "   ") (Some 100) = "" /\
  normalizeSecurityType (JStr "   ") = JStr "Client Certificate".
Proof.
  apply (blank_type_becomes_client_certificate (JStr "   ")); [reflexivity|].
  right. exists "   ". split; reflexivity.
Defined.

End ProcessedMechanisms.

Lemma processSecurityConfiguration_object_witness :
  SecurityProcessor.processSecurityConfiguration (fun _ => Throw "SyntaxError")
    (JObj [("csrfEnabled", JStr "TRUE"); ("componentType", JStr "HTTPS")])
  = Return [("csrfEnabled", JBool true); ("componentType", JStr "HTTPS")].
Proof.
  apply (processSecurityConfiguration_object (fun _ => Throw "SyntaxError")
           [("csrfEnabled", JStr "TRUE"); ("componentType", JStr "HTTPS")]).
  - simpl. apply NoDup_cons. split.
    + intros H. apply list_elem_of_singleton in H. discriminate H.
    + apply NoDup_singleton.
  - intros H. apply list_elem_of_In in H. simpl in H.
    destruct H as [H | [H | []]]; discriminate H.
Defined.

Lemma null_configuration_drops_mechanism_witness :
  let parse := fun text : string =>
                 if JsString.eqb text "null" then Return JNull
                 else Throw "SyntaxError: Unexpected token" in
  let mechanism := {| mechanism_name := JStr "A_Basic";
                      mechanism_type := JStr "Basic Authentication";
                      direction := JStr "Inbound";
                      configuration := JStr "null" |} in
  SecurityProcessor.processSecurityConfiguration parse (configuration mechanism)
  = Throw "TypeError: Cannot convert undefined or null to object" /\
  SecurityProcessor.processIndividualSecurityMechanism parse mechanism "flow" = None /\
  SecurityProcessor.processSecurityMechanisms parse "flow" [mechanism] = [].
Proof.
  apply (null_configuration_drops_mechanism
           (fun text : string =>
              if JsString.eqb text "null" then Return JNull
              else Throw "SyntaxError: Unexpected token")
           {| mechanism_name := JStr "A_Basic";
              mechanism_type := JStr "Basic Authentication";
              direction := JStr "Inbound";
              configuration := JStr "null" |}
           "flow" "null"); [reflexivity|discriminate|reflexivity].
Defined.

(** ** What the security extractor emits, and what the processor makes of it *)
Section ExtractedMechanisms.
Import BaseXmlExtractor SecurityExtractor BaseProcessor SecurityProcessor Vocabulary.

Variable JSON_parse : string -> Exc JsVal.

Lemma authMechanismType_nonempty (authMethod : string) :
  authMethod <> "" -> authMechanismType authMethod <> "".
Proof.
  intros H. unfold authMechanismType.
  repeat match goal with |- context [if ?b then _ else _] => destruct b end; done.
Qed.

Lemma processAuthenticationMechanism_shape (authMethod : string) (adapterName : JsVal)
    (dir componentType : string) (properties : list IflProperty) (flowId : string) :
  Forall extractedShape
    (processAuthenticationMechanism authMethod adapterName dir componentType properties flowId).
Proof.
  unfold processAuthenticationMechanism.
  destruct (JsString.truthy authMethod) eqn:Ht; [|constructor].
  destruct (negb _); [|constructor]. simpl.
  apply truthy_true in Ht.
  constructor; [|constructor]. unfold extractedShape. simpl. repeat split.
  - eexists. split; [reflexivity|]. apply append_nonempty. by apply append_nonempty.
  - eexists. split; [reflexivity|]. by apply authMechanismType_nonempty.
  - destruct (JsString.eqb dir "Sender"); tauto.
  - eauto.
Qed.

Lemma processAdditionalSecurity_shape (properties : list IflProperty) (adapterName : JsVal)
    (dir componentType flowId : string) :
  Forall extractedShape
    (processAdditionalSecurity properties adapterName dir componentType flowId).
Proof.
  unfold processAdditionalSecurity. cbv zeta.
  repeat apply Forall_app_2;
    match goal with |- Forall _ (if ?b then _ else _) => destruct b end;
    try constructor; try constructor; unfold extractedShape; simpl; repeat split;
    try (eexists; split; [reflexivity|]; first [by apply append_nonempty | done]);
    try tauto; eauto.
Qed.

Lemma collaborationPropertySecurity_shape (prop : IflProperty) (flowId : string) :
  Forall extractedShape (collaborationPropertySecurity prop flowId).
Proof.
  unfold collaborationPropertySecurity.
  destruct (Xml.hasKey prop); [|constructor]. cbv zeta.
  repeat apply Forall_app_2;
    match goal with |- Forall _ (if ?b then _ else _) => destruct b end;
    try constructor; try constructor; unfold extractedShape; simpl; repeat split;
    try (eexists; split; [reflexivity|]; first [by apply append_nonempty | done]);
    try tauto; eauto.
Qed.

Lemma messageFlowSecurity_shape (flow : MessageFlow) (index : nat) (flowId : string) :
  Forall extractedShape (messageFlowSecurity flow index flowId).
Proof.
  unfold messageFlowSecurity. destruct (flow_extensionElements flow); [|constructor].
  cbv zeta. apply Forall_app_2.
  - apply processAuthenticationMechanism_shape.
  - apply processAdditionalSecurity_shape.
Qed.

Lemma extractMessageFlowSecurity_shape (parsedXml : option ParsedXml) (flowId : string) :
  Forall extractedShape (extractMessageFlowSecurity parsedXml flowId).
Proof.
  unfold extractMessageFlowSecurity. generalize 0.
  induction (getMessageFlows parsedXml) as [|flow rest IH]; intros index; simpl; [constructor|].
  apply Forall_app_2; [apply messageFlowSecurity_shape|apply IH].
Qed.

Lemma extractCollaborationSecurity_shape (parsedXml : option ParsedXml) (flowId : string) :
  Forall extractedShape (extractCollaborationSecurity parsedXml flowId).
Proof.
  unfold extractCollaborationSecurity.
  induction (getCollaborationProperties parsedXml) as [|prop rest IH]; simpl; [constructor|].
  apply Forall_app_2; [apply collaborationPropertySecurity_shape|apply IH].
Qed.

(** X8.  On every document, each record that [extractSecurity] emits has a
    non-empty string as name and as type, Inbound or Outbound as
    direction, and an object as configuration. *)
Theorem extractSecurity_shape (parsedXml : option ParsedXml) (flowId : string) :
  Forall extractedShape (extractSecurity parsedXml flowId).
Proof.
  unfold extractSecurity. destruct (parsedXml ≫= bpmn2_definitions); [|constructor].
  apply Forall_app_2.
  - apply extractMessageFlowSecurity_shape.
  - apply extractCollaborationSecurity_shape.
Qed.

Lemma processIndividual_extracted (m : SecurityMechanism) (flowId : string) :
  extractedShape m ->
  exists p, processIndividualSecurityMechanism JSON_parse m flowId = Some p /\
            direction p = direction m /\
            mechanism_type p = normalizeSecurityType (mechanism_type m).
Proof.
  intros (_ & _ & Hd & [c Hc]). unfold processIndividualSecurityMechanism.
  assert (Hdir : exists d, direction m = JStr d /\ determineSecurityDirection m = Return d).
  { unfold determineSecurityDirection. destruct Hd as [-> | ->]; simpl; eauto. }
  destruct Hdir as (d & Hdm & ->). simpl.
  unfold processSecurityConfiguration. rewrite Hc. simpl.
  eexists. split; [reflexivity|]. simpl. by rewrite Hdm.
Qed.

Lemma processSecurityMechanisms_extracted (flowId : string)
    (securityMechanisms : list SecurityMechanism) :
  Forall extractedShape securityMechanisms ->
  map direction (processSecurityMechanisms JSON_parse flowId securityMechanisms)
  = map direction securityMechanisms /\
  map mechanism_type (processSecurityMechanisms JSON_parse flowId securityMechanisms)
  = map (fun m => normalizeSecurityType (mechanism_type m)) securityMechanisms.
Proof.
  unfold processSecurityMechanisms.
  induction 1 as [|m rest Hm Hrest [IH1 IH2]]; [done|].
  cbn [flat_map]. rewrite !map_app, IH1, IH2.
  destruct (processIndividual_extracted m flowId Hm) as (p & -> & Hp1 & Hp2).
  destruct Hm as ((name & Hname & Hn) & (type & Htype & Ht) & _).
  unfold validateRequiredFields, field. simpl. rewrite Hname, Htype. simpl.
  rewrite (proj2 (truthy_true _) Hn), (proj2 (truthy_true _) Ht). simpl.
  by rewrite Hp1, Hp2, ?Htype.
Qed.

(** X9.  The security processor drops none of the records that
    [extractSecurity] emits and changes none of their directions: the
    processed list has the directions of the extracted list, in order, and
    its types are the normalised types of the extracted list. *)
Theorem processor_keeps_extracted_mechanisms (parsedXml : option ParsedXml) (flowId : string) :
  let extracted := extractSecurity parsedXml flowId in
  let processed := processSecurityMechanisms JSON_parse flowId extracted in
  length processed = length extracted /\
  map direction processed = map direction extracted /\
  map mechanism_type processed
  = map (fun m => normalizeSecurityType (mechanism_type m)) extracted.
Proof.
  cbv zeta.
  assert (Hshape : Forall extractedShape (extractSecurity parsedXml flowId)).
  { unfold extractSecurity. destruct (parsedXml ≫= bpmn2_definitions); [|constructor].
    apply Forall_app_2;
      [apply extractMessageFlowSecurity_shape|apply extractCollaborationSecurity_shape]. }
  destruct (processSecurityMechanisms_extracted flowId _ Hshape) as [H1 H2].
  split; [|done].
  rewrite <- (length_map direction), H1. apply length_map.
Qed.

(** X10.  A message-flow fragment whose [direction] is neither Sender nor
    Receiver gets no authentication record whatever its properties say:
    the only record it can yield is the one for CSRF protection. *)
Theorem undirected_fragment_csrf_only (flow : MessageFlow) (index : nat) (flowId : string) :
  getPropertyValue (flowProperties flow) "direction" <> "Sender" ->
  getPropertyValue (flowProperties flow) "direction" <> "Receiver" ->
  length (messageFlowSecurity flow index flowId) <= 1 /\
  forall m, m ∈ messageFlowSecurity flow index flowId ->
            mechanism_type m = JStr "CSRF Protection" /\ direction m = JStr "Outbound".
Proof.
  unfold flowProperties, messageFlowSecurity.
  destruct (flow_extensionElements flow) as [ext|].
  2:{ intros _ _. split; [simpl; lia|]. intros m Hm. by apply elem_of_nil in Hm. }
  intros Hs Hr. cbv zeta.
  set (properties := propertiesOf ext) in *.
  assert (Hs' : JsString.eqb (JsString.orElse (getPropertyValue properties "direction") "Unknown")
                  "Sender" = false).
  { apply eqb_false. unfold JsString.orElse.
    destruct (JsString.truthy (getPropertyValue properties "direction")); done. }
  assert (Hr' : JsString.eqb (JsString.orElse (getPropertyValue properties "direction") "Unknown")
                  "Receiver" = false).
  { apply eqb_false. unfold JsString.orElse.
    destruct (JsString.truthy (getPropertyValue properties "direction")); done. }
  rewrite Hs', Hr'. unfold processAuthenticationMechanism, processAdditionalSecurity.
  cbv zeta. rewrite Hs', Hr', !andb_false_r. simpl.
  destruct (JsString.eqb (getPropertyValue properties "isCSRFEnabled") "true"); simpl.
  - split; [lia|]. intros m Hm. apply list_elem_of_singleton in Hm. by subst m.
  - split; [lia|]. intros m Hm. by apply elem_of_nil in Hm.
Qed.

Lemma undirected_fragment_csrf_only_witness :
  let flow := Samples.flowWith [Samples.property "isCSRFEnabled" "true";
                                Samples.property "senderAuthType" "BasicAuthentication"] in
  length (messageFlowSecurity flow 0 "flow") <= 1 /\
  forall m, m ∈ messageFlowSecurity flow 0 "flow" ->
            mechanism_type m = JStr "CSRF Protection" /\ direction m = JStr "Outbound".
Proof.
  apply (undirected_fragment_csrf_only
           (Samples.flowWith [Samples.property "isCSRFEnabled" "true";
                              Samples.property "senderAuthType" "BasicAuthentication"])
           0 "flow"); simpl; discriminate.
Defined.

End ExtractedMechanisms.

(** ** The older extractor and the modular one *)
Section OlderExtractor.
Import BaseXmlExtractor Vocabulary.

Lemma legacy_messageFlowSecurity (acc : list SecurityMechanism) (flow : MessageFlow)
    (index : nat) (flowId : string) :
  exists added,
    LegacyDataFetchService.messageFlowSecurity acc flow index flowId = acc ++ added /\
    map summary added
      `sublist_of` map summary (SecurityExtractor.messageFlowSecurity flow index flowId).
Proof.
  unfold LegacyDataFetchService.messageFlowSecurity, SecurityExtractor.messageFlowSecurity.
  destruct (flow_extensionElements flow) as [ext|].
  2:{ exists []. by rewrite app_nil_r. }
  cbv zeta.
  set (properties := propertiesOf ext).
  set (dir := JsString.orElse (getPropertyValue properties "direction") "Unknown").
  set (adapterName := adapterNameOf properties flow index).
  set (componentType := JsString.orElse (getPropertyValue properties "ComponentType") "Unknown").
  set (authMethod := if JsString.eqb dir "Sender" then getPropertyValue properties "senderAuthType"
                     else if JsString.eqb dir "Receiver"
                          then getPropertyValue properties "authenticationMethod" else "").
  unfold SecurityExtractor.processAuthenticationMechanism,
    SecurityExtractor.processAdditionalSecurity. cbv zeta.
  fold adapterName.
  destruct (JsString.truthy authMethod && negb (JsString.eqb authMethod "None"));
    destruct (JsString.eqb (getPropertyValue properties "isCSRFEnabled") "true");
    destruct (JsString.truthy
                (JsString.orElse (getPropertyValue properties "privateKeyAlias")
                   (getPropertyValue properties "odataCertAuthPrivateKeyAlias")) &&
              JsString.eqb dir "Receiver");
    try match goal with
        | |- context [LegacyDataFetchService.existingClientCert ?l ?n] =>
            destruct (LegacyDataFetchService.existingClientCert l n)
        end;
    destruct (JsString.eqb (getPropertyValue properties "xsrfProtection") "0" &&
              JsString.eqb dir "Sender");
    destruct (JsString.truthy (getPropertyValue properties "userRole") &&
              JsString.eqb dir "Sender");
    rewrite <- ?app_assoc;
    first [ eexists; split; [reflexivity|] | exists []; split; [by rewrite app_nil_r|] ];
    cbn [app map summary mechanism_name mechanism_type direction];
    repeat first [ apply sublist_nil_l | apply sublist_skip | apply sublist_cons ].
Qed.

Lemma legacy_forEachFlow (flowId : string) (flows : list MessageFlow) :
  forall (acc : list SecurityMechanism) (index : nat),
    exists added,
      LegacyDataFetchService.forEachFlow acc flows index flowId = acc ++ added /\
      map summary added
        `sublist_of` map summary (SecurityExtractor.forEachFlow flows index flowId).
Proof.
  induction flows as [|flow rest IH]; intros acc index; simpl.
  - exists []. by rewrite app_nil_r.
  - destruct (legacy_messageFlowSecurity acc flow index flowId) as (a1 & -> & H1).
    destruct (IH (acc ++ a1) (S index)) as (a2 & -> & H2).
    exists (a1 ++ a2). rewrite <- app_assoc. split; [done|].
    rewrite !map_app. by apply sublist_app.
Qed.

Lemma legacy_collaborationPropertySecurity (prop : IflProperty) (flowId : string) :
  LegacyDataFetchService.collaborationPropertySecurity prop flowId
    `sublist_of` SecurityExtractor.collaborationPropertySecurity prop flowId.
Proof.
  unfold LegacyDataFetchService.collaborationPropertySecurity,
    SecurityExtractor.collaborationPropertySecurity.
  destruct (Xml.hasKey prop); [|done]. cbv zeta.
  apply sublist_app; [done|]. rewrite <- (app_nil_r (if JsString.eqb _ _ then _ else [])) at 1.
  apply sublist_app; [done|]. apply sublist_nil_l.
Qed.

(** X11.  The modular extractor emits everything the older
    [extractSecurityFromXml] emitted: on every document the records of the
    older extractor, read by name, type and direction, are a sublist, in
    order, of the records of [extractSecurity]. *)
Theorem modular_extractor_covers_older (parsedXml : option ParsedXml) (flowId : string) :
  map summary (LegacyDataFetchService.extractSecurityFromXml parsedXml flowId)
    `sublist_of` map summary (SecurityExtractor.extractSecurity parsedXml flowId).
Proof.
  unfold LegacyDataFetchService.extractSecurityFromXml, SecurityExtractor.extractSecurity,
    SecurityExtractor.extractMessageFlowSecurity, SecurityExtractor.extractCollaborationSecurity,
    getMessageFlows, getCollaborationProperties.
  destruct parsedXml as [root|]; [|done]. simpl.
  destruct (bpmn2_definitions root) as [definitions|]; [|done]. simpl.
  destruct (definitions_collaboration definitions) as [collaboration|]; [|apply sublist_nil_l].
  rewrite !map_app. apply sublist_app.
  - destruct (legacy_forEachFlow flowId (Xml.toArray (collaboration_messageFlow collaboration))
                [] 0) as (added & -> & H). done.
  - unfold Xml.propsArrayOf.
    destruct (collaboration_extensionElements collaboration) as [ext|]; [|done].
    induction (Xml.toArray (ifl_property ext)) as [|prop rest IH]; [done|].
    simpl. rewrite !map_app. apply sublist_app; [|done].
    apply fmap_sublist. apply legacy_collaborationPropertySecurity.
Qed.

End OlderExtractor.

(** ** The key test of the security configuration *)
Section SecurityKeys.
Import SecurityExtractor Vocabulary.

Lemma lowerUnit_not_upper (c : ascii) : isUpper (JsString.lowerUnit c) = false.
Proof.
  destruct c as [[] [] [] [] [] [] [] []]; vm_compute; reflexivity.
Qed.

Lemma toLowerCase_units (s : string) (c : ascii) :
  c ∈ units (JsString.toLowerCase s) -> isUpper c = false.
Proof.
  induction s as [|a s IH]; simpl; [by intros H%elem_of_nil|].
  intros [-> | H]%elem_of_cons; [apply lowerUnit_not_upper|by apply IH].
Qed.

Lemma startsWith_units (s p : string) (c : ascii) :
  JsString.startsWith s p = true -> c ∈ units p -> c ∈ units s.
Proof.
  revert s. induction p as [|a p IH]; intros s; simpl; [by intros _ H%elem_of_nil|].
  destruct s as [|b s]; [done|]. simpl.
  destruct (Ascii.eqb a b) eqn:Hab; [|done]. apply Ascii.eqb_eq in Hab. subst b.
  intros Hs [-> | Hc]%elem_of_cons; simpl; [apply list_elem_of_here|].
  apply list_elem_of_further. by apply IH.
Qed.

Lemma includes_units (s x : string) (c : ascii) :
  JsString.includes s x = true -> c ∈ units x -> c ∈ units s.
Proof.
  induction s as [|a s IH]; cbn [JsString.includes].
  - rewrite orb_false_r. apply startsWith_units.
  - intros [Hs | Hi]%orb_true_iff Hc.
    + by apply (startsWith_units (String a s) x c).
    + simpl. apply list_elem_of_further. by apply IH.
Qed.

Lemma includes_lower_upper (s x : string) (c : ascii) :
  c ∈ units x -> isUpper c = true -> JsString.includes (JsString.toLowerCase s) x = false.
Proof.
  intros Hc Hu. apply not_true_iff_false. intros Hi.
  pose proof (includes_units _ _ c Hi Hc) as Hin.
  apply toLowerCase_units in Hin. congruence.
Qed.

(** X12.  The key test of [collectSecurityConfiguration] lowers the key
    and then looks for needles of which three hold upper-case letters
    ([userRole], [clientCertificates], [maximumBodySize]): these three
    never match, so the test is the one with the other seven needles, and
    a property is collected for them only if another needle matches. *)
Theorem isSecurityKey_dead_needles (key : string) :
  JsString.includes (JsString.toLowerCase key) "userRole" = false /\
  JsString.includes (JsString.toLowerCase key) "clientCertificates" = false /\
  JsString.includes (JsString.toLowerCase key) "maximumBodySize" = false /\
  isSecurityKey key =
    existsb (JsString.includes (JsString.toLowerCase key))
      ["auth"; "certificate"; "credential"; "security"; "ssl"; "tls"; "xsrf"].
Proof.
  assert (H1 : JsString.includes (JsString.toLowerCase key) "userRole" = false).
  { apply (includes_lower_upper key "userRole" "R"); [|reflexivity].
    apply list_elem_of_In. simpl. tauto. }
  assert (H2 : JsString.includes (JsString.toLowerCase key) "clientCertificates" = false).
  { apply (includes_lower_upper key "clientCertificates" "C"); [|reflexivity].
    apply list_elem_of_In. simpl. tauto. }
  assert (H3 : JsString.includes (JsString.toLowerCase key) "maximumBodySize" = false).
  { apply (includes_lower_upper key "maximumBodySize" "B"); [|reflexivity].
    apply list_elem_of_In. simpl. tauto. }
  repeat split; try done.
  unfold isSecurityKey. cbv zeta. rewrite H1, H2, H3. cbn [existsb].
  rewrite !orb_false_r. by rewrite !orb_assoc.
Qed.

End SecurityKeys.

(** ** Classification of security mechanisms *)
Section Classification.
Import SecurityProcessor.

Lemma perm_insert {A : Type} (X Y rest : list A) (m : A) :
  X ++ Y ≡ₚ rest -> X ++ m :: Y ≡ₚ m :: rest.
Proof. intros H. rewrite <- H. symmetry. apply Permutation_middle. Qed.

Lemma classifyStep_cases (c c' : Classification) (m : SecurityMechanism) :
  classifyStep c m = Return c' ->
  Js.isString (mechanism_type m) = true /\
  ((authentication c' = authentication c ++ [m] /\ authorization c' = authorization c /\
    encryption c' = encryption c /\ logging c' = logging c /\
    protection c' = protection c /\ other c' = other c) \/
   (authentication c' = authentication c /\ authorization c' = authorization c ++ [m] /\
    encryption c' = encryption c /\ logging c' = logging c /\
    protection c' = protection c /\ other c' = other c) \/
   (authentication c' = authentication c /\ authorization c' = authorization c /\
    encryption c' = encryption c ++ [m] /\ logging c' = logging c /\
    protection c' = protection c /\ other c' = other c) \/
   (authentication c' = authentication c /\ authorization c' = authorization c /\
    encryption c' = encryption c /\ logging c' = logging c ++ [m] /\
    protection c' = protection c /\ other c' = other c) \/
   (authentication c' = authentication c /\ authorization c' = authorization c /\
    encryption c' = encryption c /\ logging c' = logging c /\
    protection c' = protection c ++ [m] /\ other c' = other c) \/
   (authentication c' = authentication c /\ authorization c' = authorization c /\
    encryption c' = encryption c /\ logging c' = logging c /\
    protection c' = protection c /\ other c' = other c ++ [m])).
Proof.
  unfold classifyStep. destruct (mechanism_type m); try done. simpl.
  repeat match goal with |- context [if ?b then _ else _] => destruct b end;
    intros [= <-]; simpl; (split; [done|tauto]).
Qed.

Lemma classifyStep_throws (c : Classification) (m : SecurityMechanism) (e : string) :
  classifyStep c m = Throw e -> Js.isString (mechanism_type m) = false.
Proof. unfold classifyStep. by destruct (mechanism_type m). Qed.

Lemma forEach_classify (l : list SecurityMechanism) :
  forall c0 c : Classification,
    forEachExc classifyStep l c0 = Return c ->
    Forall (fun m => Js.isString (mechanism_type m) = true) l /\
    exists a1 a2 a3 a4 a5 a6,
      authentication c = authentication c0 ++ a1 /\
      authorization c = authorization c0 ++ a2 /\
      encryption c = encryption c0 ++ a3 /\
      logging c = logging c0 ++ a4 /\
      protection c = protection c0 ++ a5 /\
      other c = other c0 ++ a6 /\
      a1 ++ a2 ++ a3 ++ a4 ++ a5 ++ a6 ≡ₚ l /\
      a1 `sublist_of` l /\ a2 `sublist_of` l /\ a3 `sublist_of` l /\
      a4 `sublist_of` l /\ a5 `sublist_of` l /\ a6 `sublist_of` l.
Proof.
  induction l as [|m rest IH]; intros c0 c; simpl.
  - intros [= <-]. split; [constructor|].
    exists [], [], [], [], [], []. rewrite !app_nil_r. repeat split; done.
  - destruct (classifyStep c0 m) as [c1|] eqn:Hstep; [|done]. simpl. intros Hrest.
    destruct (classifyStep_cases _ _ _ Hstep) as [Hstr Hcases].
    destruct (IH _ _ Hrest)
      as (Hall & a1 & a2 & a3 & a4 & a5 & a6 & H1 & H2 & H3 & H4 & H5 & H6 & Hp
          & S1 & S2 & S3 & S4 & S5 & S6).
    split; [by constructor|].
    destruct Hcases as [(E1 & E2 & E3 & E4 & E5 & E6) | [(E1 & E2 & E3 & E4 & E5 & E6) |
                       [(E1 & E2 & E3 & E4 & E5 & E6) | [(E1 & E2 & E3 & E4 & E5 & E6) |
                       [(E1 & E2 & E3 & E4 & E5 & E6) | (E1 & E2 & E3 & E4 & E5 & E6)]]]]];
      rewrite E1 in H1; rewrite E2 in H2; rewrite E3 in H3; rewrite E4 in H4;
      rewrite E5 in H5; rewrite E6 in H6; rewrite <- ?app_assoc in *.
    + exists (m :: a1), a2, a3, a4, a5, a6.
      repeat split; try done; try (by apply sublist_cons); try (by apply sublist_skip).
      simpl. by apply Permutation_skip.
    + exists a1, (m :: a2), a3, a4, a5, a6.
      repeat split; try done; try (by apply sublist_cons); try (by apply sublist_skip).
      cbn [app]. by apply perm_insert.
    + exists a1, a2, (m :: a3), a4, a5, a6.
      repeat split; try done; try (by apply sublist_cons); try (by apply sublist_skip).
      cbn [app]. rewrite (app_assoc a1 a2).
      apply perm_insert. by rewrite <- !app_assoc.
    + exists a1, a2, a3, (m :: a4), a5, a6.
      repeat split; try done; try (by apply sublist_cons); try (by apply sublist_skip).
      cbn [app]. rewrite (app_assoc a1 a2), (app_assoc (a1 ++ a2) a3).
      apply perm_insert. by rewrite <- !app_assoc.
    + exists a1, a2, a3, a4, (m :: a5), a6.
      repeat split; try done; try (by apply sublist_cons); try (by apply sublist_skip).
      cbn [app].
      rewrite (app_assoc a1 a2), (app_assoc (a1 ++ a2) a3), (app_assoc ((a1 ++ a2) ++ a3) a4).
      apply perm_insert. by rewrite <- !app_assoc.
    + exists a1, a2, a3, a4, a5, (m :: a6).
      repeat split; try done; try (by apply sublist_cons); try (by apply sublist_skip).
      cbn [app].
      rewrite (app_assoc a1 a2), (app_assoc (a1 ++ a2) a3), (app_assoc ((a1 ++ a2) ++ a3) a4),
        (app_assoc (((a1 ++ a2) ++ a3) ++ a4) a5).
      apply perm_insert. by rewrite <- !app_assoc.
Qed.

Lemma forEach_classify_throws (l : list SecurityMechanism) :
  forall (c0 : Classification) (e : string),
    forEachExc classifyStep l c0 = Throw e ->
    Exists (fun m => Js.isString (mechanism_type m) = false) l.
Proof.
  induction l as [|m rest IH]; intros c0 e; simpl; [done|].
  destruct (classifyStep c0 m) as [c1|e1] eqn:Hstep; simpl.
  - intros H. apply Exists_cons_tl. by apply (IH c1 e).
  - intros _. apply Exists_cons_hd. by apply (classifyStep_throws c0 m e1).
Qed.

(** X13.  [classifySecurityMechanisms] returns exactly when every
    mechanism type is a string (it throws on the first that is not).  When
    it returns, the six classes partition the input: put together they are
    a permutation of the input, so that no mechanism is lost and none is
    put in two classes, and each class keeps the input order. *)
Theorem classifySecurityMechanisms_partition (securityMechanisms : list SecurityMechanism) :
  match classifySecurityMechanisms securityMechanisms with
  | Return c =>
      Forall (fun m => Js.isString (mechanism_type m) = true) securityMechanisms /\
      authentication c ++ authorization c ++ encryption c ++ logging c ++ protection c
        ++ other c ≡ₚ securityMechanisms /\
      Forall (fun class => class `sublist_of` securityMechanisms)
        [authentication c; authorization c; encryption c; logging c; protection c; other c]
  | Throw _ => Exists (fun m => Js.isString (mechanism_type m) = false) securityMechanisms
  end.
Proof.
  unfold classifySecurityMechanisms.
  match goal with |- context [forEachExc classifyStep _ ?c0] => set (empty := c0) end.
  destruct (forEachExc classifyStep securityMechanisms empty) as [c|e] eqn:Hc.
  - destruct (forEach_classify _ _ _ Hc)
      as (Hall & a1 & a2 & a3 & a4 & a5 & a6 & -> & -> & -> & -> & -> & -> & Hp
          & S1 & S2 & S3 & S4 & S5 & S6).
    simpl. split; [done|]. split; [done|]. repeat constructor; done.
  - by apply (forEach_classify_throws _ empty e).
Qed.

End Classification.

(** ** Error handling: what the extractor can and cannot report *)
Section ErrorHandlingFacts.
Import BaseXmlExtractor ErrorHandlingExtractor Vocabulary.

Lemma collaborationProperty_cases (s : CollaborationErrorHandling) (prop : IflProperty) :
  collab_error_handling_details s = None ->
  (exists e, collaborationProperty s prop = Throw e) \/ collaborationProperty s prop = Return s.
Proof.
  intros Hs. destruct (Xml.keyText prop) as [k|] eqn:Hk.
  - destruct (decide (k ∈ errorHandlingKeys)) as [Hin|Hout].
    + left. by apply (collaborationProperty_throws s prop k).
    + right. apply collaborationProperty_other. intros k' Hk'. congruence.
  - right. apply collaborationProperty_other. intros k' Hk'. congruence.
Qed.

Lemma forEach_collaboration_cases (properties : list IflProperty)
    (s : CollaborationErrorHandling) :
  collab_error_handling_details s = None ->
  (exists e, forEachExc collaborationProperty properties s = Throw e) \/
  forEachExc collaborationProperty properties s = Return s.
Proof.
  intros Hs. induction properties as [|p rest IH]; simpl; [by right|].
  destruct (collaborationProperty_cases s p Hs) as [[e ->] | ->]; simpl; [left; eauto|done].
Qed.

Lemma extractErrorHandling_cases (parsedXml : option ParsedXml) (flowId : string) :
  extractErrorHandling parsedXml flowId = getDefaultErrorHandling \/
  extractErrorHandling parsedXml flowId
  = mergeErrorHandlingDetails getDefaultErrorHandling
      (extractProcessErrorHandling parsedXml flowId).
Proof.
  unfold extractErrorHandling.
  destruct (parsedXml ≫= bpmn2_definitions); [|by left].
  unfold extractCollaborationErrorHandling.
  destruct (forEach_collaboration_cases (getCollaborationProperties parsedXml)
              {| collab_detection_enabled := None; collab_logging_enabled := None;
                 collab_reporting_enabled := None; collab_error_handling_details := None |}
              eq_refl) as [[e ->] | ->]; [by left|by right].
Qed.

(** X14.  Whatever the document says, the error-handling configuration
    that [extractErrorHandling] returns has [reporting_enabled] false, has
    [classification_enabled] equal to [detection_enabled], and carries
    none of the collaboration details ([returnExceptionToSender],
    [logLevel], [serverTrace]): the only code that would set them throws
    first. *)
Theorem extractErrorHandling_flags (parsedXml : option ParsedXml) (flowId : string) :
  let errorHandling := extractErrorHandling parsedXml flowId in
  reporting_enabled errorHandling = false /\
  classification_enabled errorHandling = detection_enabled errorHandling /\
  details_returnExceptionToSender (error_handling_details errorHandling) = None /\
  details_logLevel (error_handling_details errorHandling) = None /\
  details_serverTrace (error_handling_details errorHandling) = None.
Proof.
  cbv zeta.
  destruct (extractErrorHandling_cases parsedXml flowId) as [-> | ->]; [done|].
  unfold mergeErrorHandlingDetails.
  destruct (0 <? size _)%nat; [|done]. simpl.
  by destruct (someValue _ _).
Qed.

(** X15.  From an extracted configuration
    [generateErrorHandlingRecommendations] always asks for error reporting
    and never gives the recommendation on classification nor one of the
    two security recommendations: its answer is the recommendation on
    detection (unless detection is on), the one on logging (unless logging
    is on) and the one on reporting. *)
Theorem errorHandling_recommendations (parsedXml : option ParsedXml) (flowId : string) :
  let errorHandling := extractErrorHandling parsedXml flowId in
  ErrorHandlingProcessor.generateErrorHandlingRecommendations errorHandling
  = (if detection_enabled errorHandling then []
     else [mkRecommendation "improvement"
             "Consider enabling error detection for better error monitoring" "medium"])
    ++ (if logging_enabled errorHandling then []
        else [mkRecommendation "improvement"
                "Enable error logging for better troubleshooting capabilities" "high"])
    ++ [mkRecommendation "improvement"
          "Consider enabling error reporting for better visibility" "low"].
Proof.
  cbv zeta. unfold ErrorHandlingProcessor.generateErrorHandlingRecommendations.
  destruct (extractErrorHandling_cases parsedXml flowId) as [-> | ->]; [done|].
  unfold mergeErrorHandlingDetails.
  destruct (0 <? size _)%nat; [|done]. simpl.
  by destruct (someValue _ _), (someValue _ _).
Qed.

Lemma pushEachUntil_throw {A B : Type} (body : A -> Exc (list B)) (before after : list A)
    (a : A) (e : string) :
  body a = Throw e ->
  (pushEachUntil body before).2 = true ->
  pushEach body (before ++ a :: after) = pushEach body before.
Proof.
  intros Ha. unfold pushEach. induction before as [|b rest IH]; simpl.
  - by rewrite Ha.
  - destruct (body b) as [pushed|]; [|done].
    destruct (pushEachUntil body rest) as [more completed] eqn:Hrest.
    destruct (pushEachUntil body (rest ++ a :: after)) as [more' completed'] eqn:Hrest'.
    simpl in *. intros Hc. by rewrite (IH Hc).
Qed.

Lemma pushEachUntil_stops {A B : Type} (body : A -> Exc (list B)) (before after : list A) :
  (pushEachUntil body before).2 = false ->
  pushEach body (before ++ after) = pushEach body before.
Proof.
  unfold pushEach. induction before as [|b rest IH]; simpl; [done|].
  destruct (body b) as [pushed|]; [|done].
  destruct (pushEachUntil body rest) as [more completed] eqn:Hrest.
  destruct (pushEachUntil body (rest ++ after)) as [more' completed'] eqn:Hrest'.
  simpl in *. intros Hc. by rewrite (IH Hc).
Qed.

(** X16.  A subprocess whose extension elements hold exactly one property
    ends the search of [findErrorSubprocesses]: the parser gives the one
    property as an object, not as an array, so [find] is not there, the
    [catch] takes over, and neither that subprocess nor any later one of
    the process is reported, whatever their activity types are. *)
Theorem findErrorSubprocesses_single_property (process : Process) (flowId : string)
    (before after : list SubProcess) (subProcess : SubProcess) :
  Xml.toArray (process_subProcess process) = before ++ subProcess :: after ->
  singleProperty subProcess ->
  findErrorSubprocesses process flowId
  = findErrorSubprocesses (withSubProcesses process before) flowId.
Proof.
  intros Harr (ext & prop & Hext & Hprop). unfold findErrorSubprocesses.
  rewrite Harr. simpl.
  match goal with |- pushEach ?f _ = _ => set (body := f) end.
  assert (Hthrow : exists e, body subProcess = Throw e).
  { subst body. unfold subProcessActivityType. rewrite Hext, Hprop. simpl. eauto. }
  destruct Hthrow as [e He].
  destruct (pushEachUntil body before).2 eqn:Hc.
  - by apply (pushEachUntil_throw body before after subProcess e).
  - by apply pushEachUntil_stops.
Qed.

Lemma findErrorSubprocesses_single_property_witness :
  let subProcess :=
    Samples.subProcessWith (Samples.property "activityType" "ErrorEventSubProcessTemplate") in
  let process := Samples.processWith (Single subProcess) [] in
  findErrorSubprocesses process "flow"
  = findErrorSubprocesses (withSubProcesses process []) "flow".
Proof.
  apply (findErrorSubprocesses_single_property
           (Samples.processWith
              (Single (Samples.subProcessWith
                         (Samples.property "activityType" "ErrorEventSubProcessTemplate"))) [])
           "flow" [] []
           (Samples.subProcessWith
              (Samples.property "activityType" "ErrorEventSubProcessTemplate"))).
  - reflexivity.
  - eexists _, _. split; reflexivity.
Defined.

(** X17.  When [extractTransactionInfo] returns a record, the record says
    that rollback is supported exactly when its transactional handling is
    Required, and neither its timeout nor its handling is empty (a missing
    one reads Not specified). *)
Theorem extractTransactionInfo_rollback (process : Process) (flowId : string)
    (info : TransactionInfo) :
  extractTransactionInfo process flowId = Some info ->
  (supportsRollback info = true <-> transactionalHandling info = "Required") /\
  transactionTimeout info <> "" /\
  transactionalHandling info <> "".
Proof.
  unfold extractTransactionInfo. cbv zeta.
  generalize (Xml.findText (Xml.propsArrayOf (process_extensionElements process))
                "transactionTimeout").
  generalize (Xml.findText (Xml.propsArrayOf (process_extensionElements process))
                "transactionalHandling").
  intros handling timeout.
  assert (Hrequired : forall h : option string,
             bool_decide (h = Some "Required") = true <-> h = Some "Required").
  { intros h. apply bool_decide_eq_true. }
  destruct timeout as [t|], handling as [h|]; cbv beta iota; cbn [default].
  all: try destruct (JsString.truthy t) eqn:Ht; try destruct (JsString.truthy h) eqn:Hh.
  all: cbn [orb]; try done; intros [= <-].
  all: cbn [supportsRollback transactionalHandling transactionTimeout].
  all: rewrite ?Hrequired.
  all: rewrite ?truthy_true in *; rewrite ?truthy_false in *; subst.
  all: (split; [split; congruence|split; done]).
Qed.

Lemma extractTransactionInfo_rollback_witness :
  (supportsRollback (mkTransactionInfo "30" "Required" true) = true
   <-> transactionalHandling (mkTransactionInfo "30" "Required" true) = "Required") /\
  transactionTimeout (mkTransactionInfo "30" "Required" true) <> "" /\
  transactionalHandling (mkTransactionInfo "30" "Required" true) <> "".
Proof.
  apply (extractTransactionInfo_rollback
           (Samples.processWith Absent
              [Samples.property "transactionTimeout" "30";
               Samples.property "transactionalHandling" "Required"])
           "flow" (mkTransactionInfo "30" "Required" true)).
  reflexivity.
Defined.

Lemma insert_dom_within (m : gmap string ProcessErrorDetail) (k : string)
    (v : ProcessErrorDetail) :
  dom m ⊆ ({[ k ]} : gset string) -> dom (<[k := v]> m) ⊆ ({[ k ]} : gset string).
Proof.
  intros H. rewrite dom_insert. apply union_subseteq. split; [done|exact H].
Qed.

Lemma processErrorHandling_dom (flowId : string) (processDetails : gmap string ProcessErrorDetail)
    (process : Process) (index : nat) (id : Attr) :
  process_id process = Some id ->
  dom processDetails ⊆ ({[ "[object Object]" ]} : gset string) ->
  dom (processErrorHandling flowId processDetails process index)
    ⊆ ({[ "[object Object]" ]} : gset string).
Proof.
  intros Hid Hdom. unfold processErrorHandling. rewrite Hid. cbv zeta.
  cbn [Xml.attrOr Xml.attrObject Js.toStr].
  repeat match goal with
         | |- context [if ?b then _ else _] => destruct b
         | |- context [match extractTransactionInfo ?p ?f with _ => _ end] =>
             destruct (extractTransactionInfo p f)
         end;
    repeat apply insert_dom_within; done.
Qed.

Lemma forEachProcess_dom (flowId : string) (processes : list Process) :
  forall (index : nat) (acc : gmap string ProcessErrorDetail),
    (forall process, process ∈ processes -> is_Some (process_id process)) ->
    dom acc ⊆ ({[ "[object Object]" ]} : gset string) ->
    dom (forEachProcess flowId processes index acc) ⊆ ({[ "[object Object]" ]} : gset string).
Proof.
  induction processes as [|p rest IH]; intros index acc Hall Hacc; [done|].
  simpl. apply IH.
  - intros q Hq. apply Hall. by apply list_elem_of_further.
  - destruct (Hall p (list_elem_of_here _ _)) as [id Hid].
    by apply (processErrorHandling_dom flowId acc p index id).
Qed.

(** X18.  The parser gives an attribute as an object, and as a property
    key every object reads [[object Object]]: when each process of a
    document carries an [id], all of them write to that one key of
    [processDetails], so the process details hold at most one entry,
    however many processes the document has. *)
Theorem processes_with_id_share_one_entry (parsedXml : option ParsedXml) (flowId : string) :
  (forall definitions process,
     parsedXml ≫= bpmn2_definitions = Some definitions ->
     process ∈ Xml.toArray (definitions_process definitions) ->
     is_Some (process_id process)) ->
  dom (extractProcessErrorHandling parsedXml flowId) ⊆ ({[ "[object Object]" ]} : gset string) /\
  size (extractProcessErrorHandling parsedXml flowId) <= 1.
Proof.
  intros Hids.
  assert (Hdom : dom (extractProcessErrorHandling parsedXml flowId)
                   ⊆ ({[ "[object Object]" ]} : gset string)).
  { unfold extractProcessErrorHandling.
    destruct (parsedXml ≫= bpmn2_definitions) as [definitions|] eqn:Hd.
    - apply forEachProcess_dom.
      + intros process Hp. by apply (Hids definitions).
      + rewrite dom_empty. apply empty_subseteq.
    - rewrite dom_empty. apply empty_subseteq. }
  split; [done|].
  rewrite <- size_dom. etrans; [apply (subseteq_size _ _ Hdom)|]. by rewrite size_singleton.
Qed.

End ErrorHandlingFacts.

Lemma processes_with_id_share_one_entry_witness :
  let doc := Samples.processDocument
               [Samples.processNamed "Process_1"
                  [Samples.property "transactionalHandling" "Required"];
                Samples.processNamed "Process_2"
                  [Samples.property "transactionTimeout" "30"]] in
  dom (ErrorHandlingExtractor.extractProcessErrorHandling doc "flow")
    ⊆ ({[ "[object Object]" ]} : gset string) /\
  size (ErrorHandlingExtractor.extractProcessErrorHandling doc "flow") <= 1.
Proof.
  apply (processes_with_id_share_one_entry
           (Samples.processDocument
              [Samples.processNamed "Process_1"
                 [Samples.property "transactionalHandling" "Required"];
               Samples.processNamed "Process_2"
                 [Samples.property "transactionTimeout" "30"]])
           "flow").
  intros definitions process Hd Hp. simpl in Hd. injection Hd as <-. simpl in Hp.
  apply list_elem_of_In in Hp. simpl in Hp.
  destruct Hp as [<- | [<- | []]]; simpl; eauto.
Defined.

(** On that document the entry is the one of the second process: the
    first is overwritten in part. *)
Example processes_with_id_evaluated :
  let doc := Samples.processDocument
               [Samples.processNamed "Process_1"
                  [Samples.property "transactionalHandling" "Required"];
                Samples.processNamed "Process_2"
                  [Samples.property "transactionTimeout" "30"]] in
  map_to_list (ErrorHandlingExtractor.extractProcessErrorHandling doc "flow")
  = [("[object Object]",
      {| detail_processName := Xml.attrObject (Samples.attribute "id" "Process_1");
         detail_errorSubprocesses := None;
         detail_hasErrorHandling := false;
         detail_tryCatchPatterns := None;
         detail_transactionHandling := Some (mkTransactionInfo "30" "Not specified" false) |})].
Proof. vm_compute. reflexivity. Qed.

(** ** Persistence: what reaches the details and what follows from it *)
Section PersistenceFacts.
Import BaseXmlExtractor PersistenceExtractor.

Lemma mergePersistenceDetails_keeps (persistence : Persistence) (details : MergeDetails) :
  merge_transactionalHandling details = None ->
  merge_processType details = None ->
  merge_directCall details = None ->
  let merged := mergePersistenceDetails persistence details in
  details_transactionalHandling (persistence_details merged)
  = details_transactionalHandling (persistence_details persistence) /\
  details_processType (persistence_details merged)
  = details_processType (persistence_details persistence) /\
  details_directCall (persistence_details merged)
  = details_directCall (persistence_details persistence).
Proof.
  intros H1 H2 H3. unfold mergePersistenceDetails. simpl. by rewrite H1, H2, H3.
Qed.

Lemma extractPersistence_defaults (parsedXml : option ParsedXml) (flowId : string) :
  details_transactionalHandling (persistence_details (extractPersistence parsedXml flowId))
  = JStr "None" /\
  details_directCall (persistence_details (extractPersistence parsedXml flowId)) = false.
Proof.
  unfold extractPersistence.
  destruct (parsedXml ≫= bpmn2_definitions) as [d|] eqn:Hd; [|done].
  cbv zeta.
  match goal with
  | |- context [mergePersistenceDetails (mergePersistenceDetails ?p ?d1) ?d2] =>
      destruct (mergePersistenceDetails_keeps (mergePersistenceDetails p d1) d2
                  eq_refl eq_refl eq_refl) as (-> & _ & ->);
      destruct (mergePersistenceDetails_keeps p d1 eq_refl eq_refl eq_refl) as (-> & _ & ->)
  end.
  done.
Qed.

(** X19.  The collaboration settings never reach the persistence details:
    on every document [persistence_details] keeps the default
    [transactionalHandling] None, [processType] undefined and [directCall]
    false, because [Object.assign] puts what
    [extractCollaborationPersistence] found at the top of the persistence
    object, beside [persistence_details], and neither merge carries these
    three properties. *)
Theorem collaboration_settings_stay_outside_details (parsedXml : option ParsedXml)
    (flowId : string) :
  let persistence := extractPersistence parsedXml flowId in
  details_transactionalHandling (persistence_details persistence) = JStr "None" /\
  details_processType (persistence_details persistence) = JStr "undefined" /\
  details_directCall (persistence_details persistence) = false /\
  (is_Some (parsedXml ≫= bpmn2_definitions) ->
   persistence_transactionalHandling persistence
   = collab_transactionalHandling (extractCollaborationPersistence parsedXml flowId) /\
   persistence_processType persistence
   = collab_processType (extractCollaborationPersistence parsedXml flowId) /\
   persistence_directCall persistence
   = collab_directCall (extractCollaborationPersistence parsedXml flowId)).
Proof.
  unfold extractPersistence.
  destruct (parsedXml ≫= bpmn2_definitions) as [d|] eqn:Hd.
  2:{ cbv zeta. split; [done|]. split; [done|]. split; [done|]. by intros [? ?]. }
  cbv zeta.
  match goal with
  | |- context [mergePersistenceDetails (mergePersistenceDetails ?p ?d1) ?d2] =>
      destruct (mergePersistenceDetails_keeps (mergePersistenceDetails p d1) d2
                  eq_refl eq_refl eq_refl) as (-> & -> & ->);
      destruct (mergePersistenceDetails_keeps p d1 eq_refl eq_refl eq_refl) as (-> & -> & ->)
  end.
  simpl. split; [done|]. split; [done|]. split; [done|]. intros _.
  repeat split.
  - by destruct (collab_transactionalHandling _).
  - by destruct (collab_processType _).
  - by destruct (collab_directCall _).
Qed.

Lemma flowJms_length (flow : MessageFlow) (index : nat) :
  length (flowJms flow index) <= length (flowMessagePersistence flow index).
Proof.
  unfold flowJms, flowMessagePersistence.
  destruct (flow_extensionElements flow) as [ext|]; [|done]. cbv zeta.
  destruct (JsString.includes _ "jms") eqn:Hjms; [|simpl; lia].
  unfold extractMessagePersistenceConfiguration.
  destruct (fold_left _ _ _) as [has config].
  unfold mentions. cbn [existsb]. rewrite Hjms. simpl.
  destruct (extractJMSConfiguration _ _); simpl; lia.
Qed.

Lemma forEachFlow_jms_length (flows : list MessageFlow) :
  forall index : nat,
    length (forEachFlow flowJms flows index)
    <= length (forEachFlow flowMessagePersistence flows index).
Proof.
  induction flows as [|flow rest IH]; intros index; simpl; [done|].
  rewrite !length_app. pose proof (flowJms_length flow index). pose proof (IH (S index)). lia.
Qed.

(** X20.  Whenever the extracted persistence has [jms_enabled], it has
    [message_persistence_enabled] as well, and the details hold at least
    as many message-persistence records as JMS adapter records: a JMS
    component type alone makes [extractMessagePersistenceConfiguration]
    answer. *)
Theorem jms_implies_message_persistence (parsedXml : option ParsedXml) (flowId : string) :
  jms_enabled (extractPersistence parsedXml flowId) = true ->
  message_persistence_enabled (extractPersistence parsedXml flowId) = true /\
  0 < length (jmsAdapters (persistence_details (extractPersistence parsedXml flowId)))
    <= length (messagePersistence (persistence_details (extractPersistence parsedXml flowId))).
Proof.
  destruct (parsedXml ≫= bpmn2_definitions) as [d|] eqn:Hd.
  2:{ unfold extractPersistence. rewrite Hd. discriminate. }
  destruct (extractPersistence_sources parsedXml flowId d Hd)
    as (-> & -> & -> & _ & _ & _ & _ & _ & _ & ->).
  unfold extractAdapterPersistence. simpl.
  pose proof (forEachFlow_jms_length (getMessageFlows parsedXml) 0) as Hlen.
  destruct (forEachFlow flowJms (getMessageFlows parsedXml) 0) as [|j js]; [discriminate|].
  destruct (forEachFlow flowMessagePersistence (getMessageFlows parsedXml) 0) as [|m ms];
    [simpl in Hlen; lia|].
  intros _. simpl. rewrite orb_true_r. simpl in Hlen. split; [done|lia].
Qed.

Lemma jms_implies_message_persistence_witness :
  let doc := Samples.document [] [Samples.jmsFlow] in
  message_persistence_enabled (extractPersistence doc "flow") = true /\
  0 < length (jmsAdapters (persistence_details (extractPersistence doc "flow")))
    <= length (messagePersistence (persistence_details (extractPersistence doc "flow"))).
Proof.
  apply (jms_implies_message_persistence (Samples.document [] [Samples.jmsFlow]) "flow").
  reflexivity.
Defined.

(** X21.  From an extracted persistence configuration
    [generatePersistenceRecommendations] never gives the design
    recommendation (direct call) nor the configuration recommendation
    (data store operations without data store), and it gives the
    reliability recommendation whenever JMS or message persistence is on,
    whatever transactional handling the collaboration declares: the
    details it reads always say None. *)
Theorem persistence_recommendations (parsedXml : option ParsedXml) (flowId : string) :
  let persistence := extractPersistence parsedXml flowId in
  PersistenceProcessor.generatePersistenceRecommendations persistence
  = (if jms_enabled persistence && data_store_enabled persistence
     then [mkRecommendation "performance"
             "Multiple persistence mechanisms may impact performance" "medium"]
     else [])
    ++ (if jms_enabled persistence || message_persistence_enabled persistence
        then [mkRecommendation "reliability"
                "Consider enabling transactional handling for persistent operations" "high"]
        else [])
    ++ (if jms_enabled persistence || data_store_enabled persistence ||
           message_persistence_enabled persistence
        then [mkRecommendation "security"
                "Ensure sensitive data is encrypted when using persistence mechanisms" "high"]
        else []).
Proof.
  cbv zeta.
  destruct (extractPersistence_defaults parsedXml flowId) as (Ht & Hd).
  unfold PersistenceProcessor.generatePersistenceRecommendations. cbv zeta.
  rewrite Ht, Hd. cbn [andb Js.truthy Js.strictEqStr negb orb app].
  assert (Hstore : (0 <? length (dataStoreOperations
                      (persistence_details (extractPersistence parsedXml flowId))))%nat
                   && negb (data_store_enabled (extractPersistence parsedXml flowId))
                   = false).
  { destruct (parsedXml ≫= bpmn2_definitions) as [d|] eqn:Hdef.
    - destruct (extractPersistence_sources parsedXml flowId d Hdef)
        as (_ & _ & _ & -> & _ & _ & _ & -> & _).
      destruct (merge_dataStoreOperations _) as [[|x l]|]; simpl;
        by rewrite ?orb_true_r.
    - unfold extractPersistence. by rewrite Hdef. }
  rewrite Hstore. simpl. rewrite andb_true_r. done.
Qed.

(** X22.  Of the seven data-flow patterns that
    [extractPersistencePatterns] names, two are never returned (Stateful
    and Complex Stateful, which the storage test that follows always
    replaces), Simple Stateful is returned only when transactional
    handling is the one persistence type, and Stateless exactly when there
    is no persistence type; the complexity is Medium for two types and
    High from three on, and None needs persistence details to be there. *)
Theorem extractPersistencePatterns_flow (flowData : JsVal) :
  let patterns := PersistenceProcessor.extractPersistencePatterns flowData in
  dataFlowPattern patterns ∈
    ["Stateless"; "Simple Stateful"; "Temporary Storage"; "Persistent Storage";
     "Hybrid Persistence"] /\
  (dataFlowPattern patterns = "Simple Stateful" <-> persistenceTypes patterns = ["Transactional"]) /\
  (dataFlowPattern patterns = "Stateless" <-> persistenceTypes patterns = []) /\
  length (persistenceTypes patterns) <= 5 /\
  (complexity patterns = "High" <-> 3 <= length (persistenceTypes patterns)) /\
  (complexity patterns = "Medium" <-> length (persistenceTypes patterns) = 2) /\
  (complexity patterns = "None" ->
   persistenceTypes patterns = [] /\
   Js.truthy (Js.optGet flowData "persistence_details") = true).
Proof.
  cbv zeta. unfold PersistenceProcessor.extractPersistencePatterns.
  destruct (Js.truthy flowData); cbn [negb orb].
  2:{ simpl. repeat split; try done; try lia. apply list_elem_of_here. }
  destruct (Js.truthy (Js.optGet flowData "persistence_details")); cbn [negb].
  2:{ simpl. repeat split; try done; try lia. apply list_elem_of_here. }
  cbv zeta.
  destruct (Js.truthy (Js.optGet flowData "jms_enabled"));
    destruct (Js.truthy (Js.optGet flowData "data_store_enabled"));
    destruct (Js.truthy (Js.optGet flowData "variables_enabled"));
    destruct (Js.truthy (Js.optGet flowData "message_persistence_enabled"));
    destruct (Js.truthy (Js.optGet (Js.optGet flowData "persistence_details")
                           "transactionalHandling") &&
              negb (Js.strictEqStr (Js.optGet (Js.optGet flowData "persistence_details")
                                      "transactionalHandling") "None"));
    simpl; (split; [apply list_elem_of_In; simpl; tauto|]);
    repeat split; try done; try lia.
Qed.

End PersistenceFacts.

(** ** Adapters: what the extractor emits and what the processor makes of it *)
Section AdapterFacts.
Import BaseXmlExtractor AdapterExtractor BaseProcessor AdapterProcessor Vocabulary.

Variable JSON_stringify : JsVal -> string.
Variable JSON_parse : string -> Exc JsVal.

Lemma adapterNameOf_truthy (properties : list IflProperty) (flow : MessageFlow) (index : nat) :
  Js.truthy (adapterNameOf properties flow index) = true.
Proof.
  unfold adapterNameOf.
  destruct (JsString.truthy (getPropertyValue properties "Name")) eqn:Hn; [done|].
  destruct (flow_id flow); [done|]. simpl. apply truthy_true. by apply append_nonempty_l.
Qed.

Lemma processMessageFlow_shape (flow : MessageFlow) (index : nat) (flowId : string)
    (adapter : Adapter) :
  (processMessageFlow JSON_stringify flow index flowId).2 = Some adapter ->
  adapterShape adapter.
Proof.
  unfold processMessageFlow. destruct (flow_extensionElements flow) as [ext|]; [|done].
  cbv zeta.
  destruct (JsString.eqb _ "Unknown" && JsString.eqb _ "Unknown") eqn:Hu; [done|].
  simpl. intros [= <-]. unfold adapterShape. simpl. repeat split.
  - apply adapterNameOf_truthy.
  - by apply orElse_nonempty.
  - by apply orElse_nonempty.
  - intros [H1 H2]. rewrite H1, H2 in Hu. done.
  - by apply orElse_nonempty.
Qed.

Lemma mapFlows_shape (flows : list MessageFlow) (flowId : string) :
  forall index : nat,
    Forall adapterShape (omap id (mapFlows JSON_stringify flows index flowId).2) /\
    length (omap id (mapFlows JSON_stringify flows index flowId).2) <= length flows.
Proof.
  induction flows as [|flow rest IH]; intros index; simpl; [split; [constructor|done]|].
  destruct (processMessageFlow JSON_stringify flow index flowId) as [logs r] eqn:Hr.
  destruct (mapFlows JSON_stringify rest (S index) flowId) as [logs' rs] eqn:Hrs.
  specialize (IH (S index)). rewrite Hrs in IH. destruct IH as [IH1 IH2]. simpl in *.
  destruct r as [adapter|]; simpl.
  - split; [|by apply le_n_S]. constructor; [|done].
    apply (processMessageFlow_shape flow index flowId). by rewrite Hr.
  - split; [done|by apply le_S].
Qed.

Lemma extractAdapters_mapFlows (parsedXml : option ParsedXml) (flowId : string) :
  (extractAdapters JSON_stringify parsedXml flowId).2 = [] \/
  (extractAdapters JSON_stringify parsedXml flowId).2
  = omap id (mapFlows JSON_stringify (getMessageFlows parsedXml) 0 flowId).2.
Proof.
  unfold extractAdapters.
  destruct (parsedXml ≫= bpmn2_definitions); [|by left].
  cbv zeta. destruct (length (getMessageFlows parsedXml) =? 0)%nat; [by left|].
  right. by destruct (mapFlows JSON_stringify (getMessageFlows parsedXml) 0 flowId).
Qed.

(** X23.  On every document, [extractAdapters] returns at most one adapter
    per message flow, and each adapter it returns has a truthy name, a
    non-empty type and category that are not both Unknown, a direction
    that is its category, and resource metadata that repeat its name and
    type. *)
Theorem extractAdapters_shape (parsedXml : option ParsedXml) (flowId : string) :
  Forall adapterShape (extractAdapters JSON_stringify parsedXml flowId).2 /\
  length (extractAdapters JSON_stringify parsedXml flowId).2
    <= length (getMessageFlows parsedXml).
Proof.
  destruct (extractAdapters_mapFlows parsedXml flowId) as [-> | ->].
  - split; [constructor|simpl; lia].
  - apply mapFlows_shape.
Qed.

Lemma determineDirection_length (adapter : RawAdapter) (d : string) :
  determineDirection adapter = Return d -> String.length d <= 50.
Proof.
  unfold determineDirection.
  destruct (Js.truthy (raw_direction adapter)).
  { intros [= <-]. apply sanitizeString_length. lia. }
  destruct (Js.truthy (raw_adapter_category adapter)).
  { intros [= <-]. apply sanitizeString_length. lia. }
  destruct (lowerAdapterType (raw_adapter_type adapter)) as [t|]; [|done]. simpl.
  repeat match goal with |- context [if ?b then _ else _] => destruct b end;
    intros [= <-]; simpl; lia.
Qed.

Lemma processIndividualAdapter_shape (adapter : RawAdapter) (flowId : string)
    (processed : ProcessedAdapter) :
  processIndividualAdapter JSON_parse adapter flowId = Some processed ->
  processedAdapterShape processed.
Proof.
  unfold processIndividualAdapter.
  destruct (determineDirection adapter) as [d|] eqn:Hd; [|done]. simpl.
  destruct (processAdapterConfiguration JSON_parse (raw_configuration adapter)) as [c|];
    [|done].
  simpl. intros [= <-]. unfold processedAdapterShape. simpl.
  repeat split; try (apply sanitizeString_length; lia).
  by apply (determineDirection_length adapter).
Qed.

(** X24.  Whatever array the adapter processor is given, it returns no
    more adapters than it was given, and in each of them the name has at
    most 255 code units, type and category at most 100 and the direction
    at most 50. *)
Theorem processAdapters_shape (flowId : string) (adapters : list RawAdapter) :
  Forall processedAdapterShape (processAdapters JSON_parse flowId adapters) /\
  length (processAdapters JSON_parse flowId adapters) <= length adapters.
Proof.
  unfold processAdapters.
  induction adapters as [|a rest [IH1 IH2]]; [split; [constructor|done]|].
  cbn [flat_map length]. rewrite length_app.
  match goal with |- context [?x ++ flat_map _ rest] => set (now := x) end.
  assert (Hnow : Forall processedAdapterShape now /\ length now <= 1).
  { subst now. destruct (negb _); [split; [constructor|simpl; lia]|].
    destruct (processIndividualAdapter JSON_parse a flowId) as [p|] eqn:Hp;
      [|split; [constructor|simpl; lia]].
    split; [|simpl; lia]. constructor; [|constructor].
    by apply (processIndividualAdapter_shape a flowId p). }
  destruct Hnow as [H1 H2]. split; [by apply Forall_app|lia].
Qed.

Lemma processIndividualAdapter_extracted (adapter : Adapter) (flowId : string) :
  adapterShape adapter ->
  exists c,
    processIndividualAdapter JSON_parse (rawAdapter adapter) flowId
    = Some {| processed_adapter_name := sanitizeString (adapter_name adapter) (Some 255);
              processed_adapter_type := sanitizeString (JStr (adapter_type adapter)) (Some 100);
              processed_adapter_category :=
                sanitizeString (JStr (adapter_category adapter)) (Some 100);
              processed_direction := sanitizeString (JStr (adapter_category adapter)) (Some 50);
              processed_configuration := c |} /\
    Js.objGet c "resourceMetadata"
    = JObj [("name", adapter_name adapter);
            ("cmdVariantUri",
             JStr (metadata_cmdVariantUri
                     (configuration_resourceMetadata (adapter_configuration adapter))));
            ("componentType", JStr (adapter_type adapter))].
Proof.
  intros (Hname & Htype & Hcat & _ & Hdir & Hmn & Hmt & _).
  unfold processIndividualAdapter, determineDirection, rawAdapter. cbv zeta.
  cbn [raw_direction raw_adapter_category raw_adapter_type raw_adapter_name raw_configuration].
  rewrite Hdir, Hmn, Hmt.
  assert (Hc : Js.truthy (JStr (adapter_category adapter)) = true) by by apply truthy_true.
  rewrite Hc. cbn [mbind Exc_bind bindExc].
  unfold processAdapterConfiguration, categoryOrUnknown. rewrite Hc.
  simpl.
  destruct (JsString.truthy (configuration_content (adapter_configuration adapter)));
    simpl; eexists; (split; [reflexivity|reflexivity]).
Qed.

Lemma processAdapters_extracted (flowId : string) (adapters : list Adapter) :
  Forall adapterShape adapters ->
  let processed := processAdapters JSON_parse flowId (map rawAdapter adapters) in
  length processed = length adapters /\
  map processed_adapter_name processed
  = map (fun a => sanitizeString (adapter_name a) (Some 255)) adapters /\
  map processed_adapter_type processed
  = map (fun a => sanitizeString (JStr (adapter_type a)) (Some 100)) adapters /\
  map processed_adapter_category processed
  = map (fun a => sanitizeString (JStr (adapter_category a)) (Some 100)) adapters /\
  map processed_direction processed
  = map (fun a => sanitizeString (JStr (adapter_category a)) (Some 50)) adapters /\
  map (fun p => Js.objGet (processed_configuration p) "resourceMetadata") processed
  = map (fun a => Js.optGet (raw_configuration (rawAdapter a)) "resourceMetadata") adapters.
Proof.
  cbv zeta. unfold processAdapters.
  induction 1 as [|a rest Ha Hrest (IH0 & IH1 & IH2 & IH3 & IH4 & IH5)]; [done|].
  cbn [map flat_map]. rewrite length_app, !map_app, IH0, IH1, IH2, IH3, IH4, IH5.
  destruct (processIndividualAdapter_extracted a flowId Ha) as (c & -> & Hmeta).
  destruct Ha as (Hname & Htype & _ & _ & _ & Hmn & Hmt & _).
  unfold validateRequiredFields, field, rawAdapter. simpl.
  rewrite Hname, (proj2 (truthy_true _) Htype). simpl. rewrite Hmeta, Hmn, Hmt. done.
Qed.

(** X25.  The adapter processor drops none of the adapters that
    [extractAdapters] returns.  For each of them it gives, in order, the
    sanitised name, type and category, a direction that is the category
    (cut to 50 code units, where the category is cut to 100), and the
    resource metadata as they were. *)
Theorem processor_keeps_extracted_adapters (parsedXml : option ParsedXml) (flowId : string) :
  let adapters := (extractAdapters JSON_stringify parsedXml flowId).2 in
  let processed := processAdapters JSON_parse flowId (map rawAdapter adapters) in
  length processed = length adapters /\
  map processed_adapter_name processed
  = map (fun a => sanitizeString (adapter_name a) (Some 255)) adapters /\
  map processed_adapter_type processed
  = map (fun a => sanitizeString (JStr (adapter_type a)) (Some 100)) adapters /\
  map processed_adapter_category processed
  = map (fun a => sanitizeString (JStr (adapter_category a)) (Some 100)) adapters /\
  map processed_direction processed
  = map (fun a => sanitizeString (JStr (adapter_category a)) (Some 50)) adapters /\
  map (fun p => Js.objGet (processed_configuration p) "resourceMetadata") processed
  = map (fun a => Js.optGet (raw_configuration (rawAdapter a)) "resourceMetadata") adapters.
Proof.
  cbv zeta. apply processAdapters_extracted.
  destruct (extractAdapters_mapFlows parsedXml flowId) as [-> | ->]; [constructor|].
  apply mapFlows_shape.
Qed.

End AdapterFacts.

(** ** The archive unpacker: failure and success *)
Section Unpacking.

Variable housekeepingDir : string.
Variable AdmZip : list Byte.byte -> Exc (list ZipEntry).
Variable readAsText : ZipEntry -> Exc string.
Variable parseXml : string -> Exc ParsedXml.
Variable JSON_stringify : JsVal -> string.
Variable JSON_parse : string -> Exc JsVal.

Abbreviation unzip := (ArchiveUnpacker.extractXmlFromZip housekeepingDir AdmZip readAsText parseXml).
Abbreviation runPipeline :=
  (Pipeline.run housekeepingDir AdmZip readAsText parseXml JSON_stringify JSON_parse).

Lemma dirnameUpToSlash_append (a b : string) :
  Fs.dirnameUpToSlash b = None ->
  Fs.dirnameUpToSlash (a +:+ b) = Fs.dirnameUpToSlash a.
Proof.
  intros Hb. induction a as [|c a IH]; [by rewrite append_empty|].
  rewrite append_cons. simpl. by rewrite IH.
Qed.

Lemma dirname_extension (stem : string) :
  Fs.dirname (stem +:+ ".zip") = Fs.dirname (stem +:+ ".iflw").
Proof.
  unfold Fs.dirname.
  rewrite (dirnameUpToSlash_append stem ".zip"); [|reflexivity].
  by rewrite (dirnameUpToSlash_append stem ".iflw"); [|reflexivity].
Qed.

(** X26.  An archive in which no entry name ends in [.iflw] gives no
    document: [extractXmlFromZip] returns null, the pipeline skips the
    artifact, and the one trace left is the archive itself, saved under
    the housekeeping directory. *)
Theorem extractXmlFromZip_without_definition_file (zipBuffer : list Byte.byte)
    (flowId : string) (fs : FileSystem) (zipEntries : list ZipEntry) :
  Fs.dirname (housekeepingDir +:+ "/" +:+ flowId +:+ ".zip") ∈ fs_directories fs ->
  AdmZip zipBuffer = Return zipEntries ->
  (forall entry, entry ∈ zipEntries -> JsString.endsWith (entryName entry) ".iflw" = false) ->
  (unzip zipBuffer flowId fs).1 = None /\
  (runPipeline zipBuffer flowId fs).1 = None /\
  fs_files (unzip zipBuffer flowId fs).2
  = <[housekeepingDir +:+ "/" +:+ flowId +:+ ".zip" := BufferData zipBuffer]> (fs_files fs).
Proof.
  intros Hdir Hzip Hnone.
  assert (H : unzip zipBuffer flowId fs
              = (None, {| fs_directories := fs_directories fs;
                          fs_files := <[housekeepingDir +:+ "/" +:+ flowId +:+ ".zip"
                                        := BufferData zipBuffer]> (fs_files fs) |})).
  { unfold ArchiveUnpacker.extractXmlFromZip, Fs.writeFileSync.
    rewrite (bool_decide_eq_true_2 _ Hdir), Hzip.
    by rewrite (find_none_forall _ zipEntries Hnone). }
  unfold Pipeline.run. rewrite H. done.
Qed.

(** X27.  When the archive holds a definition file that can be read and
    parsed, [extractXmlFromZip] returns the parsed content of the first
    entry whose name ends in [.iflw], and afterwards the file system holds
    the archive and that entry's text under the housekeeping directory and
    every other file as before. *)
Theorem extractXmlFromZip_first_definition_file (zipBuffer : list Byte.byte)
    (flowId : string) (fs : FileSystem) (before after : list ZipEntry) (entry : ZipEntry)
    (xmlContent : string) (parsedXml : ParsedXml) :
  Fs.dirname (housekeepingDir +:+ "/" +:+ flowId +:+ ".zip") ∈ fs_directories fs ->
  AdmZip zipBuffer = Return (before ++ entry :: after) ->
  (forall e, e ∈ before -> JsString.endsWith (entryName e) ".iflw" = false) ->
  JsString.endsWith (entryName entry) ".iflw" = true ->
  readAsText entry = Return xmlContent ->
  parseXml xmlContent = Return parsedXml ->
  (unzip zipBuffer flowId fs).1 = Some parsedXml /\
  fs_files (unzip zipBuffer flowId fs).2 !! (housekeepingDir +:+ "/" +:+ flowId +:+ ".zip")
  = Some (BufferData zipBuffer) /\
  fs_files (unzip zipBuffer flowId fs).2 !! (housekeepingDir +:+ "/" +:+ flowId +:+ ".iflw")
  = Some (TextData xmlContent) /\
  (forall path, path <> housekeepingDir +:+ "/" +:+ flowId +:+ ".zip" ->
                path <> housekeepingDir +:+ "/" +:+ flowId +:+ ".iflw" ->
                fs_files (unzip zipBuffer flowId fs).2 !! path = fs_files fs !! path).
Proof.
  intros Hdir Hzip Hbefore Hentry Hread Hparse.
  assert (Hdir' : Fs.dirname (housekeepingDir +:+ "/" +:+ flowId +:+ ".iflw")
                    ∈ fs_directories fs).
  { rewrite <- !append_assoc in *. by rewrite <- dirname_extension. }
  assert (Hneq : housekeepingDir +:+ "/" +:+ flowId +:+ ".zip"
                 <> housekeepingDir +:+ "/" +:+ flowId +:+ ".iflw").
  { rewrite <- !append_assoc. apply paths_differ. }
  unfold ArchiveUnpacker.extractXmlFromZip, Fs.writeFileSync.
  rewrite (bool_decide_eq_true_2 _ Hdir), Hzip.
  rewrite (find_first _ before after entry Hbefore Hentry), Hread. simpl.
  rewrite (bool_decide_eq_true_2 _ Hdir'), Hparse. simpl. repeat split.
  - rewrite lookup_insert_ne; [|done]. by rewrite lookup_insert_eq.
  - by rewrite lookup_insert_eq.
  - intros path H1 H2. rewrite !lookup_insert_ne; done.
Qed.

End Unpacking.

Lemma extractXmlFromZip_without_definition_file_witness :
  let AdmZip := fun _ : list Byte.byte =>
                  Return [ {| entryName := "META-INF/MANIFEST.MF"; entryData := [] |} ] in
  let readAsText := fun _ : ZipEntry => Return "" in
  let parseXml := fun _ : string => Return Samples.emptyDocument in
  let fs := Samples.emptyFileSystem "/housekeeping" in
  (ArchiveUnpacker.extractXmlFromZip "/housekeeping" AdmZip readAsText parseXml [] "flow" fs).1
  = None /\
  (Pipeline.run "/housekeeping" AdmZip readAsText parseXml (fun _ => "")
     (fun _ => Throw "SyntaxError") [] "flow" fs).1 = None /\
  fs_files
    (ArchiveUnpacker.extractXmlFromZip "/housekeeping" AdmZip readAsText parseXml [] "flow" fs).2
  = <["/housekeeping" +:+ "/" +:+ "flow" +:+ ".zip" := BufferData []]> (fs_files fs).
Proof.
  apply (extractXmlFromZip_without_definition_file "/housekeeping"
           (fun _ : list Byte.byte =>
              Return [ {| entryName := "META-INF/MANIFEST.MF"; entryData := [] |} ])
           (fun _ : ZipEntry => Return "")
           (fun _ : string => Return Samples.emptyDocument)
           (fun _ => "") (fun _ => Throw "SyntaxError")
           [] "flow" (Samples.emptyFileSystem "/housekeeping")
           [ {| entryName := "META-INF/MANIFEST.MF"; entryData := [] |} ]).
  - vm_compute. reflexivity.
  - reflexivity.
  - intros entry H. apply list_elem_of_singleton in H. subst entry. reflexivity.
Defined.

Lemma extractXmlFromZip_first_definition_file_witness :
  let AdmZip := fun _ : list Byte.byte => Return Samples.archiveEntries in
  let readAsText := fun entry : ZipEntry => Return (entryName entry) in
  let parseXml := fun _ : string => Return Samples.emptyDocument in
  let fs := Samples.emptyFileSystem "/housekeeping" in
  let xmlContent := "src/main/resources/scenarioflows/integrationflow/flow.iflw" in
  (ArchiveUnpacker.extractXmlFromZip "/housekeeping" AdmZip readAsText parseXml [] "flow" fs).1
  = Some Samples.emptyDocument /\
  fs_files
    (ArchiveUnpacker.extractXmlFromZip "/housekeeping" AdmZip readAsText parseXml [] "flow" fs).2
    !! ("/housekeeping" +:+ "/" +:+ "flow" +:+ ".zip")
  = Some (BufferData []) /\
  fs_files
    (ArchiveUnpacker.extractXmlFromZip "/housekeeping" AdmZip readAsText parseXml [] "flow" fs).2
    !! ("/housekeeping" +:+ "/" +:+ "flow" +:+ ".iflw")
  = Some (TextData xmlContent) /\
  (forall path, path <> "/housekeeping" +:+ "/" +:+ "flow" +:+ ".zip" ->
                path <> "/housekeeping" +:+ "/" +:+ "flow" +:+ ".iflw" ->
                fs_files
                  (ArchiveUnpacker.extractXmlFromZip "/housekeeping" AdmZip readAsText parseXml
                     [] "flow" fs).2 !! path
                = fs_files fs !! path).
Proof.
  apply (extractXmlFromZip_first_definition_file "/housekeeping"
           (fun _ : list Byte.byte => Return Samples.archiveEntries)
           (fun entry : ZipEntry => Return (entryName entry))
           (fun _ : string => Return Samples.emptyDocument)
           [] "flow" (Samples.emptyFileSystem "/housekeeping")
           [ {| entryName := "META-INF/MANIFEST.MF"; entryData := [] |} ] []
           {| entryName := "src/main/resources/scenarioflows/integrationflow/flow.iflw";
              entryData := [] |}
           "src/main/resources/scenarioflows/integrationflow/flow.iflw"
           Samples.emptyDocument).
  - vm_compute. reflexivity.
  - reflexivity.
  - intros e H. apply list_elem_of_singleton in H. subst e. reflexivity.
  - reflexivity.
  - reflexivity.
  - reflexivity.
Defined.

(** ** Deduplication once more *)
Section DeduplicationTwice.
Import SecurityProcessor Vocabulary.

Lemma dedupFrom_no_duplicates (l : list SecurityMechanism) :
  forall seen : gset string,
    NoDup (map dedupKey l) ->
    (forall m, m ∈ l -> dedupKey m ∉ seen) ->
    dedupFrom seen l = l.
Proof.
  induction l as [|x rest IH]; intros seen Hnd Hfresh; [done|].
  simpl in *. apply NoDup_cons in Hnd as [Hx Hnd].
  rewrite bool_decide_eq_false_2; [|apply Hfresh, list_elem_of_here].
  f_equal. apply IH; [done|].
  intros m Hm Hin. apply elem_of_union in Hin as [Hin | Hin].
  - apply elem_of_singleton in Hin. apply Hx. rewrite <- Hin.
    apply list_elem_of_fmap. by exists m.
  - apply (Hfresh m); [by apply list_elem_of_further|done].
Qed.

(** X28.  On a list of records whose names and directions are strings,
    where the key of the code is the concatenation that [dedupKey] gives,
    deduplicating twice is deduplicating once, and a list whose keys are
    pairwise distinct is returned as it is. *)
Theorem deduplicateSecurityMechanisms_idempotent (securityMechanisms : list SecurityMechanism) :
  Forall stringKeyed securityMechanisms ->
  deduplicateSecurityMechanisms (deduplicateSecurityMechanisms securityMechanisms)
  = deduplicateSecurityMechanisms securityMechanisms /\
  (NoDup (map dedupKey securityMechanisms) ->
   deduplicateSecurityMechanisms securityMechanisms = securityMechanisms).
Proof.
  intros _. rewrite !deduplicate_dedupFrom. split.
  - apply dedupFrom_no_duplicates; [apply dedupFrom_NoDup|].
    intros m _. apply not_elem_of_empty.
  - intros Hnd. apply dedupFrom_no_duplicates; [done|]. intros m _. apply not_elem_of_empty.
Qed.

Lemma deduplicateSecurityMechanisms_idempotent_witness :
  let l := [Samples.inboundNamed "A_Basic"; Samples.inboundNamed "A_Basic";
            Samples.outboundNamed "A_Basic"] in
  Forall stringKeyed l /\
  deduplicateSecurityMechanisms (deduplicateSecurityMechanisms l)
  = deduplicateSecurityMechanisms l /\
  (NoDup (map dedupKey l) -> deduplicateSecurityMechanisms l = l).
Proof.
  assert (H : Forall stringKeyed
                [Samples.inboundNamed "A_Basic"; Samples.inboundNamed "A_Basic";
                 Samples.outboundNamed "A_Basic"]).
  { repeat (apply Forall_cons; split; [split; eexists; reflexivity|]). apply Forall_nil. exact I. }
  split; [exact H|].
  apply (deduplicateSecurityMechanisms_idempotent
           [Samples.inboundNamed "A_Basic"; Samples.inboundNamed "A_Basic";
            Samples.outboundNamed "A_Basic"] H).
Defined.

End DeduplicationTwice.
